(** * Phone Agent: the Lybic sandbox client and its action translator

    A shallow embedding of [phone_agent/lybic_client.py]:

    - the Python values the translator handles (dictionaries with string
      keys, integers, strings, lists, binary64 floats), with the exceptions
      the interpreter raises on them;
    - [convert_action_to_lybic], the translation of an action record of the
      decision model into an action object of the Lybic SDK;
    - [LybicPhoneClient], the lazily initialised session (client handle,
      sandbox identifier, background loop) as a state and error monad over
      the client object and the log of requests sent to the backend.

    Floats are IEEE 754 binary64 numbers, computed with the operations of
    [SpecFloat] at precision 53 and maximal exponent 1024.  Strings are
    sequences of code points below 256.

    The calls of one client run one after the other: the model has no
    overlapping calls, no clock (the 30-second limit of the blocking
    wrapper and the 2-second limit of the join are not modelled) and no
    console output.  Remote requests may fail with any exception; building,
    entering and leaving the client handle, and starting, stopping and
    joining the loop thread are local steps that complete. *)

From Stdlib Require Import ZArith Lia List Bool Ascii String.
From Stdlib Require Import Floats.SpecFloat.
From stdpp Require Import gmap strings.

Set Warnings "-register-all".

Open Scope Z_scope.

(** * Python values and exceptions *)

(** The exceptions that the modelled code can meet.  All of them derive
    from [Exception]; [BackendError] stands for whatever the SDK raises when
    a remote call fails. *)
Inductive exn : Type :=
| TypeError
| IndexError
| AttributeError
| ValueError
| OverflowError
| ZeroDivisionError
| BackendError (reason : string).

(** The outcome of evaluating an expression: a value or a raised exception. *)
Inductive result (A : Type) : Type :=
| Ok (a : A)
| Raise (e : exn).
Arguments Ok {A} a.
Arguments Raise {A} e.

Definition rbind {A B : Type} (r : result A) (k : A -> result B) : result B :=
  match r with
  | Ok a => k a
  | Raise e => Raise e
  end.

#[global] Instance result_ret : MRet result := fun A a => Ok a.
#[global] Instance result_bind : MBind result := fun A B k r => rbind r k.

(** The values found in an action record. *)
Inductive pyval : Type :=
| VNone
| VInt (z : Z)
| VStr (s : string)
| VList (l : list pyval).

(** [v == s] for a string literal [s]: only an equal string compares equal. *)
Definition py_eq_str (v : pyval) (s : string) : bool :=
  match v with
  | VStr t => String.eqb t s
  | _ => false
  end.

(** [d.get(key, default)] *)
Definition dict_get (d : gmap string pyval) (key : string) (dflt : pyval) : pyval :=
  default dflt (d !! key).

(** [v[i]] for a literal index [i >= 0]. *)
Definition py_getitem (v : pyval) (i : nat) : result pyval :=
  match v with
  | VList l =>
      match nth_error l i with
      | Some x => Ok x
      | None => Raise IndexError
      end
  | VStr s =>
      match String.get i s with
      | Some c => Ok (VStr (String c EmptyString))
      | None => Raise IndexError
      end
  | VNone | VInt _ => Raise TypeError
  end.

(** * Binary64 floats *)

Module PyFloat.

Definition prec : Z := 53.
Definition emax : Z := 1024.

Definition float : Type := spec_float.

Definition mul : float -> float -> float := SFmul prec emax.
Definition div : float -> float -> float := SFdiv prec emax.

(** An integer as an operand that is not rounded yet. *)
Definition unrounded (z : Z) : float :=
  match z with
  | Z0 => S754_zero false
  | Zpos p => S754_finite false p 0
  | Zneg p => S754_finite true p 0
  end.

Definition is_finite (f : float) : bool :=
  match f with
  | S754_zero _ | S754_finite _ _ _ => true
  | S754_infinity _ | S754_nan => false
  end.

(** [float(z)] for an integer: rounded to nearest, ties to even;
    [OverflowError] when [z] is too large. *)
Definition of_int (z : Z) : result float :=
  let f := binary_normalize prec emax z 0 false in
  if is_finite f then Ok f else Raise OverflowError.

(** [a / b] on integers: the correctly rounded quotient. *)
Definition int_true_divide (a b : Z) : result float :=
  if b =? 0 then Raise ZeroDivisionError
  else
    let q := div (unrounded a) (unrounded b) in
    if is_finite q then Ok q else Raise OverflowError.

(** [f * z] for a float and an integer: the integer is converted first. *)
Definition mul_int (f : float) (z : Z) : result float :=
  g ← of_int z; Ok (mul f g).

(** [int(f)]: truncation toward zero. *)
Definition to_int (f : float) : result Z :=
  match f with
  | S754_zero _ => Ok 0
  | S754_finite s m e =>
      let a := Z.shiftl (Zpos m) e in
      Ok (if s then - a else a)
  | S754_infinity _ => Raise OverflowError
  | S754_nan => Raise ValueError
  end.

(** The value of a decimal literal [m * 10 ^ e], correctly rounded. *)
Definition of_decimal (neg : bool) (m : Z) (e : Z) : float :=
  match m with
  | Zpos p =>
      match e with
      | Zneg k => div (S754_finite neg p 0) (S754_finite false (10 ^ k)%positive 0)
      | _ => binary_normalize prec emax (if neg then - (m * 10 ^ e) else m * 10 ^ e) 0 false
      end
  | _ => S754_zero neg
  end.


(** The literal [1.0]. *)
Definition one : float := Eval vm_compute in of_decimal false 1 0.

(** [float("inf")], [float("nan")] and their signed forms. *)
Definition infinity (neg : bool) : float := S754_infinity neg.
Definition nan : float := S754_nan.

End PyFloat.

(** * Strings *)

Module PyStr.

Definition code (c : ascii) : N := N_of_ascii c.

(** [c.isspace()] for a code point below 256. *)
Definition is_space (c : ascii) : bool :=
  let n := code c in
  ((9 <=? n) && (n <=? 13) || (28 <=? n) && (n <=? 32)
   || (n =? 133) || (n =? 160))%N.

(** White space of the C locale, as [float] strips it from ASCII text. *)
Definition is_c_space (c : ascii) : bool :=
  let n := code c in ((9 <=? n) && (n <=? 13) || (n =? 32))%N.

Definition is_ascii (c : ascii) : bool := (code c <? 128)%N.

Definition is_digit (c : ascii) : bool :=
  let n := code c in ((48 <=? n) && (n <=? 57))%N.

Definition digit_value (c : ascii) : Z := Z.of_N (code c) - 48.

Definition lower (c : ascii) : ascii :=
  let n := code c in
  if ((65 <=? n) && (n <=? 90))%N then ascii_of_N (n + 32) else c.

Fixpoint forall_chars (p : ascii -> bool) (s : string) : bool :=
  match s with
  | EmptyString => true
  | String c t => p c && forall_chars p t
  end.

Fixpoint map_chars (f : ascii -> ascii) (s : string) : string :=
  match s with
  | EmptyString => EmptyString
  | String c t => String (f c) (map_chars f t)
  end.

Fixpoint lstrip_with (sp : ascii -> bool) (s : string) : string :=
  match s with
  | EmptyString => EmptyString
  | String c t => if sp c then lstrip_with sp t else s
  end.

(** Removes the characters of class [sp] at the end of [s]. *)
Fixpoint rstrip_with (sp : ascii -> bool) (s : string) : string :=
  match s with
  | EmptyString => EmptyString
  | String c t =>
      match rstrip_with sp t with
      | EmptyString => if sp c then EmptyString else String c EmptyString
      | r => String c r
      end
  end.

Definition strip_with (sp : ascii -> bool) (s : string) : string :=
  rstrip_with sp (lstrip_with sp s).

(** [s.strip()] *)
Definition strip (s : string) : string := strip_with is_space s.

(** [s.replace(old, new)] for a non-empty [old]: the occurrences of [old]
    are replaced from left to right, and the scan resumes after each one.
    [skip] counts the characters of the current occurrence still to drop. *)
Fixpoint replace_from (old new : string) (skip : nat) (s : string) : string :=
  match s with
  | EmptyString => EmptyString
  | String c t =>
      match skip with
      | S k => replace_from old new k t
      | O =>
          if String.prefix old s
          then new +:+ replace_from old new (Nat.pred (String.length old)) t
          else String c (replace_from old new O t)
      end
  end.

Definition replace (s old new : string) : string := replace_from old new O s.

(** [needle in s] *)
Fixpoint contains (needle s : string) : bool :=
  String.prefix needle s ||
  match s with
  | EmptyString => false
  | String _ t => contains needle t
  end.

(** [s.split("\n")]: the lines of [s], at least one. *)
Fixpoint split_lines (s : string) : list string :=
  match s with
  | EmptyString => [EmptyString]
  | String c t =>
      if Ascii.eqb c "010"%char then EmptyString :: split_lines t
      else match split_lines t with
           | l :: ls => String c l :: ls
           | [] => [String c EmptyString]
           end
  end.

End PyStr.

(** * Parsing a float: [float(s)] *)

Module PyParse.
Import PyStr.

(** The longest run of digits at the head of [s], and what follows it. *)
Fixpoint span_digits (s : string) : string * string :=
  match s with
  | EmptyString => (EmptyString, EmptyString)
  | String c t =>
      if is_digit c
      then let '(d, r) := span_digits t in (String c d, r)
      else (EmptyString, s)
  end.

Fixpoint digits_value (acc : Z) (s : string) : Z :=
  match s with
  | EmptyString => acc
  | String c t => digits_value (10 * acc + digit_value c) t
  end.

(** An underscore is accepted between two digits only; [prev] is the
    character before [s]. *)
Fixpoint drop_underscores (prev : ascii) (s : string) : option string :=
  match s with
  | EmptyString => if Ascii.eqb prev "_" then None else Some EmptyString
  | String c t =>
      if Ascii.eqb c "_" then
        if is_digit prev then drop_underscores c t else None
      else if Ascii.eqb prev "_" && negb (is_digit c) then None
      else String c <$> drop_underscores c t
  end.

Definition take_sign (s : string) : bool * string :=
  match s with
  | String "-" t => (true, t)
  | String "+" t => (false, t)
  | _ => (false, s)
  end.

(** The exponent part at the head of [s], when there is a complete one. *)
Definition parse_exponent (s : string) : Z * string :=
  match s with
  | String c t =>
      if Ascii.eqb (lower c) "e" then
        let '(neg, u) := take_sign t in
        let '(d, r) := span_digits u in
        match d with
        | EmptyString => (0, s)
        | _ => (if neg then - digits_value 0 d else digits_value 0 d, r)
        end
      else (0, s)
  | EmptyString => (0, s)
  end.

(** A decimal literal: sign, digits with an optional point, exponent. *)
Definition parse_decimal (s : string) : option PyFloat.float :=
  let '(neg, u) := take_sign s in
  let '(ip, r1) := span_digits u in
  let '(fp, r2) := match r1 with
                   | String "." t => span_digits t
                   | _ => (EmptyString, r1)
                   end in
  match ip +:+ fp with
  | EmptyString => None
  | ds =>
      let '(ex, r3) := parse_exponent r2 in
      match r3 with
      | EmptyString =>
          Some (PyFloat.of_decimal neg (digits_value 0 ds)
                  (ex - Z.of_nat (String.length fp)))
      | _ => None
      end
  end.

Definition parse_inf_or_nan (s : string) : option PyFloat.float :=
  let '(neg, u) := take_sign s in
  let l := map_chars lower u in
  if String.eqb l "inf" || String.eqb l "infinity" then Some (PyFloat.infinity neg)
  else if String.eqb l "nan" then Some PyFloat.nan
  else None.

(** What [float] does to text that is not pure ASCII before it reads it:
    from code 127 on, white space becomes a blank and any other character
    a question mark. *)
Definition to_ascii_or_space (c : ascii) : ascii :=
  if (code c <? 127)%N then c
  else if is_space c then " "%char else "?"%char.

Definition normalize (s : string) : string :=
  if forall_chars is_ascii s then s else map_chars to_ascii_or_space s.

(** [float(s)]: [ValueError] when [s] is not a float literal. *)
Definition float_of_str (s : string) : result PyFloat.float :=
  match drop_underscores "000" (strip_with is_c_space (normalize s)) with
  | None => Raise ValueError
  | Some u =>
      match parse_decimal u with
      | Some f => Ok f
      | None =>
          match parse_inf_or_nan u with
          | Some f => Ok f
          | None => Raise ValueError
          end
      end
  end.

End PyParse.

(** * The action objects of the Lybic SDK

    The classes of [lybic.action] that the translator builds, each with the
    keyword arguments it is given. *)

Record PixelLength : Type := mkPixelLength { value : Z }.

Inductive lybic_action : Type :=
| TouchTapAction (x y : PixelLength)
| TouchLongPressAction (x y : PixelLength) (duration : Z)
| TouchSwipeAction (x y : PixelLength) (direction : string) (distance : PixelLength)
| KeyboardTypeAction (content : pyval)
| AndroidBackAction
| AndroidHomeAction
| OsStartAppByNameAction (name : pyval)
| WaitAction (duration : Z)
| FinishedAction (message : pyval).

(** * The action translator *)

(** An action record: a dictionary with string keys. *)
Abbreviation action_record := (gmap string pyval).

(** [element[i] / 1000 * dim], then [int(...)]. *)
Definition scale_coordinate (element : pyval) (i : nat) (dim : Z) : result Z :=
  c ← py_getitem element i;
  match c with
  | VInt n =>
      q ← PyFloat.int_true_divide n 1000;
      p ← PyFloat.mul_int q dim;
      PyFloat.to_int p
  | VNone | VStr _ | VList _ => Raise TypeError
  end.

(** Convert relative coordinates (0-1000) to absolute pixels. *)
Definition convert_relative_to_absolute (screen_width screen_height : Z)
    (element : pyval) : result (Z * Z) :=
  x ← scale_coordinate element 0 screen_width;
  y ← scale_coordinate element 1 screen_height;
  Ok (x, y).

(** The default of [action.get("element", [500, 500])]. *)
Definition default_point : pyval := VList [VInt 500; VInt 500].

(** [duration_str.replace("seconds", "").strip()], then [float(...)] with
    [ValueError] replaced by [1.0]. *)
Definition parse_duration (duration_str : pyval) : result PyFloat.float :=
  match duration_str with
  | VStr s =>
      match PyParse.float_of_str (PyStr.strip (PyStr.replace s "seconds" "")) with
      | Ok d => Ok d
      | Raise ValueError => Ok PyFloat.one
      | Raise e => Raise e
      end
  | VNone | VInt _ | VList _ => Raise AttributeError
  end.

Definition convert_action_to_lybic (action : action_record)
    (screen_width screen_height : Z) : result lybic_action :=
  let action_type := dict_get action "_metadata" VNone in
  if py_eq_str action_type "finish" then
    Ok (FinishedAction (dict_get action "message" VNone))
  else
    let action_name := dict_get action "action" VNone in
    let convert := convert_relative_to_absolute screen_width screen_height in
    if py_eq_str action_name "Tap" then
      let element := dict_get action "element" default_point in
      '(x, y) ← convert element;
      Ok (TouchTapAction (mkPixelLength x) (mkPixelLength y))
    else if py_eq_str action_name "Double Tap" then
      let element := dict_get action "element" default_point in
      '(x, y) ← convert element;
      Ok (TouchTapAction (mkPixelLength x) (mkPixelLength y))
    else if py_eq_str action_name "Long Press" then
      let element := dict_get action "element" default_point in
      '(x, y) ← convert element;
      Ok (TouchLongPressAction (mkPixelLength x) (mkPixelLength y) 3000)
    else if py_eq_str action_name "Swipe" then
      let start := dict_get action "start" default_point in
      let end_ := dict_get action "end" default_point in
      '(start_x, start_y) ← convert start;
      '(end_x, end_y) ← convert end_;
      let dx := end_x - start_x in
      let dy := end_y - start_y in
      let '(direction, distance) :=
        if Z.abs dx >? Z.abs dy
        then (if dx >? 0 then "right" else "left", Z.abs dx)
        else (if dy >? 0 then "down" else "up", Z.abs dy) in
      Ok (TouchSwipeAction (mkPixelLength start_x) (mkPixelLength start_y)
            direction (mkPixelLength distance))
    else if py_eq_str action_name "Type" || py_eq_str action_name "Type_Name" then
      Ok (KeyboardTypeAction (dict_get action "text" (VStr "")))
    else if py_eq_str action_name "Back" then Ok AndroidBackAction
    else if py_eq_str action_name "Home" then Ok AndroidHomeAction
    else if py_eq_str action_name "Launch" then
      Ok (OsStartAppByNameAction (dict_get action "app" (VStr "")))
    else if py_eq_str action_name "Wait" then
      let duration_str := dict_get action "duration" (VStr "1 seconds") in
      duration ← parse_duration duration_str;
      ms ← PyFloat.mul_int duration 1000;
      ms ← PyFloat.to_int ms;
      Ok (WaitAction ms)
    else
      Ok (WaitAction 1000).

(** * The client: configuration, session state and backend *)

Module LybicConfig.
(** Configuration for Lybic client. *)
Record t : Type := mk {
  org_id : option string;
  api_key : option string;
  endpoint : option string;
  sandbox_id : option string;
  sandbox_shape : string;
  sandbox_max_life_seconds : Z
}.

Definition default : t :=
  mk None None None None "guangzhou-4c6g-android-12" 3600.
End LybicConfig.

(** Represents a captured screenshot. *)
Record Screenshot : Type := mkScreenshot {
  base64_data : string;
  width : Z;
  height : Z;
  is_sensitive : bool
}.

(** The credentials handed to the SDK. *)
Record LybicAuth : Type := mkLybicAuth {
  auth_org_id : option string;
  auth_api_key : option string;
  auth_endpoint : option string
}.

(** The client handle of the SDK, built by [LybicClient(auth=auth)]. *)
Record LybicClient : Type := mkLybicClient { auth : option LybicAuth }.

(** Truth value of an [Optional[str]]: [None] and the empty string are
    false. *)
Definition truthy (o : option string) : bool :=
  match o with
  | Some (String _ _) => true
  | Some EmptyString | None => false
  end.

(** What the client asks of the SDK and of the interpreter, in the order in
    which it asks.  Entering and leaving the handle, and starting, stopping
    and joining the loop thread are local steps, which complete; the four
    [Sandbox] requests go to the remote backend, which may fail. *)
Inductive event : Type :=
| ClientEnter (c : LybicClient)
| ClientExit (c : LybicClient)
| SandboxCreate (name shape : string) (maxLifeSeconds : Z)
| SandboxGetScreenshot (sandbox_id : string)
| SandboxExecuteAction (sandbox_id : string) (action : lybic_action)
    (includeScreenShot : bool)
| SandboxExecuteProcess (sandbox_id executable : string) (args : list string)
| LoopStart (loop : nat)
| LoopStop (loop : nat)
| ThreadJoin (thread : nat) (timeout : Z).

(** The sandbox a request is addressed to, if any. *)
Definition event_sandbox (e : event) : option string :=
  match e with
  | SandboxGetScreenshot s | SandboxExecuteAction s _ _
  | SandboxExecuteProcess s _ _ => Some s
  | _ => None
  end.

Definition is_create (e : event) : bool :=
  match e with SandboxCreate _ _ _ => true | _ => false end.

Definition is_exit (e : event) : bool :=
  match e with ClientExit _ => true | _ => false end.

(** The environment of one client.  Each remote request is answered, or
    fails with an exception, as a function of everything asked so far;
    whether the loop is running at a given moment is up to the scheduler. *)
Record backend : Type := mkBackend {
  sandbox_create : list event -> result string;
  sandbox_get_screenshot :
    list event -> result (string * option (Z * Z) * string);
  sandbox_execute_sandbox_action : list event -> result unit;
  sandbox_execute_process : list event -> result string;
  loop_is_running : list event -> bool
}.

(** Lybic cloud sandbox client for phone automation. *)
Record LybicPhoneClient : Type := mkClient {
  config : LybicConfig.t;
  sandbox_id : option string;
  _client : option LybicClient;
  _screen_width : Z;
  _screen_height : Z;
  _loop : option nat;
  _loop_thread : option nat;
  _initialized : bool
}.

Definition __init__ (config : LybicConfig.t) : LybicPhoneClient :=
  {| config := config;
     sandbox_id := LybicConfig.sandbox_id config;
     _client := None;
     _screen_width := 1080;
     _screen_height := 2400;
     _loop := None;
     _loop_thread := None;
     _initialized := false |}.

(** The client object together with the requests issued so far. *)
Record world : Type := mkWorld { self : LybicPhoneClient; log : list event }.

(** Methods: they read and update the client, issue requests, and return or
    raise.  The client keeps the updates made before an exception. *)
Definition M (A : Type) : Type := world -> result A * world.

#[global] Instance M_ret : MRet M := fun A a w => (Ok a, w).
#[global] Instance M_bind : MBind M := fun A B k m w =>
  match m w with
  | (Ok a, w') => k a w'
  | (Raise e, w') => (Raise e, w')
  end.

Definition get_self : M LybicPhoneClient := fun w => (Ok (self w), w).
Definition get_log : M (list event) := fun w => (Ok (log w), w).
Definition update (f : LybicPhoneClient -> LybicPhoneClient) : M unit :=
  fun w => (Ok tt, mkWorld (f (self w)) (log w)).
Definition emit (e : event) : M unit :=
  fun w => (Ok tt, mkWorld (self w) (log w ++ [e])).
Definition lift {A : Type} (r : result A) : M A := fun w => (r, w).

(** [try: body except Exception: handler] *)
Definition try_except {A : Type} (body : M A) (handler : exn -> M A) : M A :=
  fun w =>
    match body w with
    | (Ok a, w') => (Ok a, w')
    | (Raise e, w') => handler e w'
    end.

Definition set_sandbox_id (v : option string) (c : LybicPhoneClient) :=
  mkClient (config c) v (_client c) (_screen_width c) (_screen_height c)
    (_loop c) (_loop_thread c) (_initialized c).
Definition set_client (v : option LybicClient) (c : LybicPhoneClient) :=
  mkClient (config c) (sandbox_id c) v (_screen_width c) (_screen_height c)
    (_loop c) (_loop_thread c) (_initialized c).
Definition set_screen (wh : Z * Z) (c : LybicPhoneClient) :=
  mkClient (config c) (sandbox_id c) (_client c) (fst wh) (snd wh)
    (_loop c) (_loop_thread c) (_initialized c).
Definition set_loop (l t : option nat) (c : LybicPhoneClient) :=
  mkClient (config c) (sandbox_id c) (_client c) (_screen_width c)
    (_screen_height c) l t (_initialized c).
Definition set_initialized (v : bool) (c : LybicPhoneClient) :=
  mkClient (config c) (sandbox_id c) (_client c) (_screen_width c)
    (_screen_height c) (_loop c) (_loop_thread c) v.

(** * The methods of [LybicPhoneClient] *)

Section Client.

(** The backend the client talks to. *)
Variable B : backend.

(** [APP_PACKAGES] of [phone_agent.config.apps]: application names and
    their package identifiers, in the order of the table. *)
Variable APP_PACKAGES : list (string * string).

(** [base64.b64decode(data).decode('utf-8', errors='ignore')] *)
Variable b64decode_utf8 : string -> result string.

(** Issues a remote request and waits for its answer. *)
Definition request {A : Type} (e : event) (answer : backend -> list event -> result A) : M A :=
  _ ← emit e;
  l ← get_log;
  lift (answer B l).

Definition is_loop_start (e : event) : bool :=
  match e with LoopStart _ => true | _ => false end.

(** Ensure we have a dedicated event loop in a separate thread. *)
Definition _ensure_loop : M unit :=
  c ← get_self;
  l ← get_log;
  if bool_decide (_loop c = None) || negb (loop_is_running B l) then
    let n := length (filter is_loop_start l) in
    _ ← update (set_loop (Some n) (Some n));
    emit (LoopStart n)
  else mret tt.

(** Run an async coroutine in the dedicated loop.  The coroutine runs to
    its end: [future.result(timeout=30)] is taken to return in time. *)
Definition _run_async {A : Type} (coro : M A) : M A :=
  _ ← _ensure_loop;
  coro.

(** Ensure client is initialized. *)
Definition _ensure_client : M LybicClient :=
  c ← get_self;
  match _client c with
  | None =>
      let cfg := config c in
      let auth :=
        if truthy (LybicConfig.org_id cfg) || truthy (LybicConfig.api_key cfg)
           || truthy (LybicConfig.endpoint cfg)
        then Some (mkLybicAuth (LybicConfig.org_id cfg) (LybicConfig.api_key cfg)
                     (LybicConfig.endpoint cfg))
        else None in
      let client := mkLybicClient auth in
      _ ← update (set_client (Some client));
      _ ← emit (ClientEnter client);
      _ ← update (set_initialized true);
      mret client
  | Some client => mret client
  end.

(** Ensure sandbox is created and return sandbox ID. *)
Definition _ensure_sandbox : M string :=
  c ← get_self;
  match sandbox_id c with
  | Some (String a s) => mret (String a s)
  | Some EmptyString | None =>
      client ← _ensure_client;
      c ← get_self;
      id ← request (SandboxCreate "phone-agent-sandbox"
                      (LybicConfig.sandbox_shape (config c))
                      (LybicConfig.sandbox_max_life_seconds (config c)))
             sandbox_create;
      _ ← update (set_sandbox_id (Some id));
      mret id
  end.

(** Get screenshot from sandbox. *)
Definition _get_screenshot_async : M Screenshot :=
  sandbox_id ← _ensure_sandbox;
  client ← _ensure_client;
  '(screenshot_url, img, base64_str) ←
    request (SandboxGetScreenshot sandbox_id) sandbox_get_screenshot;
  _ ← match img with
      | Some size => update (set_screen size)
      | None => mret tt
      end;
  c ← get_self;
  mret (mkScreenshot base64_str (_screen_width c) (_screen_height c) false).

(** Get screenshot from sandbox (synchronous wrapper). *)
Definition get_screenshot_sync : M Screenshot :=
  _run_async _get_screenshot_async.

(** Execute an action on the sandbox. *)
Definition _execute_action_async (action : lybic_action) : M unit :=
  sandbox_id ← _ensure_sandbox;
  client ← _ensure_client;
  request (SandboxExecuteAction sandbox_id action false)
    sandbox_execute_sandbox_action.

(** Execute an action on the sandbox (synchronous wrapper). *)
Definition execute_action_sync (action : lybic_action) : M unit :=
  _run_async (_execute_action_async action).

(** Close the client. *)
Definition close : M unit :=
  c ← get_self;
  _ ← match _client c with
      | Some client =>
          if _initialized c then
            _ ← emit (ClientExit client);
            _ ← update (set_client None);
            update (set_initialized false)
          else mret tt
      | None => mret tt
      end;
  c ← get_self;
  l ← get_log;
  match _loop c with
  | Some loop =>
      if loop_is_running B l then
        _ ← emit (LoopStop loop);
        match _loop_thread c with
        | Some thread => emit (ThreadJoin thread 2)
        | None => mret tt
        end
      else mret tt
  | None => mret tt
  end.

(** The application whose package identifier occurs in [line], the first
    one in the order of the table. *)
Fixpoint find_package (packages : list (string * string)) (line : string)
    : option string :=
  match packages with
  | [] => None
  | (app_name, package) :: rest =>
      if PyStr.contains package line then Some app_name
      else find_package rest line
  end.

Definition is_focus_line (line : string) : bool :=
  PyStr.contains "mCurrentFocus" line || PyStr.contains "mFocusedApp" line.

(** The loop over the lines of the window dump. *)
Fixpoint scan_focus (lines : list string) : option string :=
  match lines with
  | [] => None
  | line :: rest =>
      if is_focus_line line then
        match find_package APP_PACKAGES line with
        | Some app_name => Some app_name
        | None => scan_focus rest
        end
      else scan_focus rest
  end.

(** The body of the [try] block of [_get_current_app_async]. *)
Definition _get_current_app_try : M string :=
  sandbox_id ← _ensure_sandbox;
  client ← _ensure_client;
  stdoutBase64 ←
    request (SandboxExecuteProcess sandbox_id "dumpsys" ["window"])
      sandbox_execute_process;
  output ← lift (b64decode_utf8 stdoutBase64);
  match scan_focus (PyStr.split_lines output) with
  | Some app_name => mret app_name
  | None => mret "System Home"
  end.

(** Get current app name from lybic sandbox (async implementation). *)
Definition _get_current_app_async : M string :=
  try_except _get_current_app_try (fun e => mret "System Home").

(** Get current app name from lybic sandbox (synchronous wrapper). *)
Definition get_current_app : M string :=
  _run_async _get_current_app_async.

End Client.

(** * Sequences of operations on one client *)

(** The blocking operations of the facade. *)
Inductive operation : Type :=
| OpScreenshot
| OpExecute (action : lybic_action)
| OpCurrentApp
| OpClose.

Section Operations.

Variable B : backend.
Variable APP_PACKAGES : list (string * string).
Variable b64decode_utf8 : string -> result string.

(** One call of the facade.  Whether the call returns or raises, the
    caller goes on with the same client object. *)
Definition perform (op : operation) (w : world) : world :=
  match op with
  | OpScreenshot => snd (get_screenshot_sync B w)
  | OpExecute a => snd (execute_action_sync B a w)
  | OpCurrentApp => snd (get_current_app B APP_PACKAGES b64decode_utf8 w)
  | OpClose => snd (close B w)
  end.

Definition perform_all (ops : list operation) (w : world) : world :=
  fold_left (fun w op => perform op w) ops w.

End Operations.

(** * The formulas of the specification *)

Module Spec.

(** [round(f)]: the nearest integer, ties to the even one. *)
Definition round (f : PyFloat.float) : result Z :=
  match f with
  | S754_zero _ => Ok 0
  | S754_finite s m e =>
      let a :=
        match e with
        | Zneg k =>
            let d := Z.pow_pos 2 k in
            let q := Zpos m / d in
            let r := Zpos m mod d in
            match 2 * r ?= d with
            | Lt => q
            | Gt => q + 1
            | Eq => if Z.even q then q else q + 1
            end
        | _ => Z.shiftl (Zpos m) e
        end in
      Ok (if s then - a else a)
  | S754_infinity _ => Raise OverflowError
  | S754_nan => Raise ValueError
  end.

(** [pixel = round(normalized / 1000 * screen_dimension)] *)
Definition rounded_pixel (normalized screen_dimension : Z) : result Z :=
  q ← PyFloat.int_true_divide normalized 1000;
  p ← PyFloat.mul_int q screen_dimension;
  round p.

(** [round(seconds * 1000)] *)
Definition rounded_milliseconds (seconds : PyFloat.float) : result Z :=
  p ← PyFloat.mul_int seconds 1000;
  round p.

End Spec.

(** The pixel the translator computes: [int(normalized / 1000 * dim)]. *)
Definition truncated_pixel (normalized dim : Z) : result Z :=
  q ← PyFloat.int_true_divide normalized 1000;
  p ← PyFloat.mul_int q dim;
  PyFloat.to_int p.

(** The number of seconds read from a duration string, [1.0] when the
    string is not a number once the word is removed. *)
Definition seconds_of (duration_str : string) : PyFloat.float :=
  match PyParse.float_of_str (PyStr.strip (PyStr.replace duration_str "seconds" "")) with
  | Ok d => d
  | Raise _ => PyFloat.one
  end.

(** [int(seconds * 1000)] *)
Definition truncated_milliseconds (seconds : PyFloat.float) : result Z :=
  p ← PyFloat.mul_int seconds 1000;
  PyFloat.to_int p.

(** The action names the translator knows. *)
Definition known_actions : list string :=
  ["Tap"; "Double Tap"; "Long Press"; "Swipe"; "Type"; "Type_Name";
   "Back"; "Home"; "Launch"; "Wait"].

(** * Vocabulary of the properties *)

(** ** Action records *)

(** An action record is a finish record when its metadata marker says so. *)
Definition is_finish (action : action_record) : Prop :=
  action !! "_metadata" = Some (VStr "finish").

Definition has_name (action : action_record) (name : string) : Prop :=
  action !! "action" = Some (VStr name).

(** The action built for a press at a point, by action name. *)
Definition press_action (name : string) (x y : Z) : lybic_action :=
  if String.eqb name "Long Press"
  then TouchLongPressAction (mkPixelLength x) (mkPixelLength y) 3000
  else TouchTapAction (mkPixelLength x) (mkPixelLength y).

Definition tap_record (x y : Z) : action_record :=
  <["action" := VStr "Tap"]> (<["element" := VList [VInt x; VInt y]]> ∅).

Definition wait_record (duration_str : string) : action_record :=
  <["action" := VStr "Wait"]> (<["duration" := VStr duration_str]> ∅).

(** A non-empty run of decimal digits. *)
Definition is_number (ds : string) : Prop :=
  ds <> "" /\ PyStr.forall_chars PyStr.is_digit ds = true.

Definition swipe_record (start_x start_y end_x end_y : Z) : action_record :=
  <["action" := VStr "Swipe"]>
    (<["start" := VList [VInt start_x; VInt start_y]]>
       (<["end" := VList [VInt end_x; VInt end_y]]> ∅)).

(** ** Statements of the specification that the code does not meet *)

(** The pixel of an element is the rounded product. *)
Definition element_pixel_is_rounded : Prop :=
  forall (action : action_record) (W H x y : Z),
    ~ is_finish action ->
    has_name action "Tap" ->
    dict_get action "element" default_point = VList [VInt x; VInt y] ->
    exists px py,
      Spec.rounded_pixel x W = Ok px /\ Spec.rounded_pixel y H = Ok py
      /\ convert_action_to_lybic action W H
         = Ok (TouchTapAction (mkPixelLength px) (mkPixelLength py)).

(** On the grid the converted pixel lies on the screen, however large the
    screen is. *)
Definition pixel_is_on_any_screen : Prop :=
  forall (x y W H px py : Z),
    0 <= x <= 1000 -> 0 <= y <= 1000 -> 0 <= W -> 0 <= H ->
    convert_relative_to_absolute W H (VList [VInt x; VInt y]) = Ok (px, py) ->
    0 <= px <= W /\ 0 <= py <= H.

(** The wait lasts [round(seconds * 1000)] milliseconds. *)
Definition wait_duration_is_rounded : Prop :=
  forall (action : action_record) (W H : Z) (s : string),
    ~ is_finish action ->
    has_name action "Wait" ->
    action !! "duration" = Some (VStr s) ->
    exists ms,
      Spec.rounded_milliseconds (seconds_of s) = Ok ms
      /\ convert_action_to_lybic action W H = Ok (WaitAction ms).

(** ** Rounding *)

(** The exponent of the binary64 format for a number of magnitude [k]. *)
Definition fexp (k : Z) : Z := SpecFloat.fexp PyFloat.prec PyFloat.emax k.

(** The number of low bits that rounding [m * 2 ^ e] drops. *)
Definition round_shift (m e : Z) : Z := Z.max 0 (fexp (Zdigits2 m + e) - e).

(** A float of the unit interval: zero, or [m * 2 ^ e <= 1]. *)
Definition unit_fraction (r : result PyFloat.float) : bool :=
  match r with
  | Ok (S754_zero false) => true
  | Ok (S754_finite false m e) => (e <=? 0) && (Zpos m <=? 2 ^ (- e))
  | _ => false
  end.

(** ** Sessions *)

(** A request that creates no sandbox and addresses no sandbox but [s]. *)
Definition addresses_only (s : string) (e : event) : Prop :=
  is_create e = false /\ forall t, event_sandbox e = Some t -> t = s.

(** From [w] to [w'] the identifier is [s] and nothing but [s] was used. *)
Definition stable (s : string) (w w' : world) : Prop :=
  sandbox_id (self w') = Some s
  /\ exists evs, log w' = log w ++ evs /\ Forall (addresses_only s) evs.

(** The client of [w] holds the non-empty identifier [s]. *)
Definition assigned (s : string) (w : world) : Prop :=
  sandbox_id (self w) = Some s /\ s <> "".

(** [m] keeps the identifier [s], and returns only values that satisfy [Q]. *)
Definition keeps {A : Type} (s : string) (m : M A) (Q : A -> Prop) : Prop :=
  forall w, assigned s w ->
    stable s w (snd (m w)) /\ forall a, fst (m w) = Ok a -> Q a.

(** The client object after [close]. *)
Definition closed (c : LybicPhoneClient) : LybicPhoneClient :=
  match _client c with
  | Some _ => if _initialized c then set_initialized false (set_client None c) else c
  | None => c
  end.

(** The release step of [close], if it is performed. *)
Definition release_events (c : LybicPhoneClient) : list event :=
  match _client c with
  | Some client => if _initialized c then [ClientExit client] else []
  | None => []
  end.

(** The stop and join requests of [close], given the requests so far. *)
Definition stop_events (B : backend) (c : LybicPhoneClient) (l : list event)
    : list event :=
  match _loop c with
  | Some loop =>
      if loop_is_running B l then
        LoopStop loop ::
        match _loop_thread c with
        | Some thread => [ThreadJoin thread 2]
        | None => []
        end
      else []
  | None => []
  end.

Definition count_exits (l : list event) : nat := length (filter is_exit l).

(** The remote call of the current-app lookup: the first three statements
    of the [try] block, up to the answer of the process request. *)
Definition dump_window (B : backend) : M string :=
  sandbox_id ← _ensure_sandbox B;
  client ← _ensure_client;
  request B (SandboxExecuteProcess sandbox_id "dumpsys" ["window"])
    sandbox_execute_process.

(** No line of [output] with a focus marker names a known package. *)
Definition no_known_focus (APP_PACKAGES : list (string * string)) (output : string)
    : Prop :=
  forall line, In line (PyStr.split_lines output) ->
    is_focus_line line = true ->
    forall app_name package, In (app_name, package) APP_PACKAGES ->
      PyStr.contains package line = false.

(** ** Examples *)

(** A backend whose requests all succeed. *)
Definition demo_backend : backend :=
  {| sandbox_create := fun _ => Ok "sbx-new";
     sandbox_get_screenshot := fun _ => Ok ("https://shot", Some (720, 1280), "aGk=");
     sandbox_execute_sandbox_action := fun _ => Ok tt;
     sandbox_execute_process := fun _ => Ok "mCurrentFocus=com.android.chrome";
     loop_is_running := fun l => existsb is_loop_start l |}.

(** A backend that is out of reach. *)
Definition failing_backend : backend :=
  {| sandbox_create := fun _ => Raise (BackendError "unreachable");
     sandbox_get_screenshot := fun _ => Raise (BackendError "unreachable");
     sandbox_execute_sandbox_action := fun _ => Raise (BackendError "unreachable");
     sandbox_execute_process := fun _ => Raise (BackendError "unreachable");
     loop_is_running := fun l => existsb is_loop_start l |}.

Definition demo_packages : list (string * string) :=
  [("Settings", "com.android.settings"); ("Chrome", "com.android.chrome")].

(** A decoder for the examples: the answer is taken as plain text. *)
Definition plain_text (data : string) : result string := Ok data.

Definition demo_config : LybicConfig.t :=
  LybicConfig.mk None None None (Some "sbx-1") "guangzhou-4c6g-android-12" 3600.

(** ** Further vocabulary *)

(** The record [action] with its action name set to [name]. *)
Definition with_name (name : string) (action : action_record) : action_record :=
  <["action" := VStr name]> action.

(** The action names that carry an element. *)
Definition press_names : list string := ["Tap"; "Double Tap"; "Long Press"].

(** The action names whose translation reads the screen dimensions. *)
Definition pointer_names : list string := ["Tap"; "Double Tap"; "Long Press"; "Swipe"].

(** What a Long Press record gives where the same record as a Tap gives [r]. *)
Definition held (r : result lybic_action) : result lybic_action :=
  match r with
  | Ok (TouchTapAction x y) => Ok (TouchLongPressAction x y 3000)
  | _ => r
  end.

(** The Swipe record [action] with its two points exchanged. *)
Definition reversed (action : action_record) : action_record :=
  <["start" := dict_get action "end" default_point]>
    (<["end" := dict_get action "start" default_point]> action).

Definition opposite (direction : string) : string :=
  if String.eqb direction "left" then "right"
  else if String.eqb direction "right" then "left"
  else if String.eqb direction "up" then "down"
  else "up".

(** ** The client, further *)

(** Get screen width. *)
Definition screen_width (c : LybicPhoneClient) : Z := _screen_width c.

(** Get screen height. *)
Definition screen_height (c : LybicPhoneClient) : Z := _screen_height c.

Definition is_enter (e : event) : bool :=
  match e with ClientEnter _ => true | _ => false end.

Definition is_loop_stop (e : event) : bool :=
  match e with LoopStop _ => true | _ => false end.

Definition count_enters (l : list event) : nat := length (filter is_enter l).
Definition count_creates (l : list event) : nat := length (filter is_create l).
Definition count_loop_starts (l : list event) : nat := length (filter is_loop_start l).

(** The client holds a handle that was entered and not yet left. *)
Definition handle_open (c : LybicPhoneClient) : bool :=
  match _client c with
  | Some _ => _initialized c
  | None => false
  end.

(** Every handle entered so far was left, but for the one that is open. *)
Definition paired (w : world) : Prop :=
  count_enters (log w)
  = (count_exits (log w) + if handle_open (self w) then 1 else 0)%nat.

(** As many loops were started as the client holds, and none was stopped. *)
Definition one_loop (w : world) : Prop :=
  count_loop_starts (log w) = (if _loop (self w) is Some _ then 1 else 0)%nat
  /\ existsb is_loop_stop (log w) = false.

(** A loop runs from its start until it is asked to stop. *)
Definition runs_until_stopped (B : backend) : Prop :=
  forall l, existsb is_loop_start l = true -> existsb is_loop_stop l = false ->
    loop_is_running B l = true.

(** [m] keeps the property [I] of the client and its log, however it ends. *)
Definition preserves {A : Type} (I : world -> Prop) (m : M A) : Prop :=
  forall w, I w -> I (snd (m w)).

(** The three blocking calls that talk to the sandbox. *)
Definition is_call (op : operation) : bool :=
  match op with OpClose => false | _ => true end.

(** The requests that go to the remote backend. *)
Definition is_remote (e : event) : bool :=
  match e with
  | SandboxCreate _ _ _ | SandboxGetScreenshot _ | SandboxExecuteAction _ _ _
  | SandboxExecuteProcess _ _ _ => true
  | _ => false
  end.

(** The client holds a loop, the only one started, and it was not stopped. *)
Definition started (w : world) : Prop :=
  one_loop w /\ _loop (self w) <> None.

(** The creation request of [_ensure_sandbox]. *)
Definition create_request (c : LybicPhoneClient) : event :=
  SandboxCreate "phone-agent-sandbox" (LybicConfig.sandbox_shape (config c))
    (LybicConfig.sandbox_max_life_seconds (config c)).

(** The size of the screen as the client has it. *)
Definition screen_size (c : LybicPhoneClient) : Z * Z :=
  (screen_width c, screen_height c).

(** From [w] to [w'] only local steps were taken: the identifier and the
    configuration are the same, and nothing was asked of the backend. *)
Definition local_steps (w w' : world) : Prop :=
  sandbox_id (self w') = sandbox_id (self w)
  /\ config (self w') = config (self w)
  /\ exists evs, log w' = log w ++ evs /\ Forall (fun e => is_remote e = false) evs.

(** From [w] to [w'] the backend was asked for a new sandbox, and for nothing
    else, and the identifier is as it was. *)
Definition creation_only (w w' : world) : Prop :=
  sandbox_id (self w') = sandbox_id (self w)
  /\ exists evs, log w' = log w ++ evs ++ [create_request (self w)]
       /\ Forall (fun e => is_remote e = false) evs.

(** The client and its log once [_ensure_sandbox] has obtained [id]. *)
Definition created (id : string) (w : world) : world :=
  let w1 := snd (_ensure_client w) in
  mkWorld (set_sandbox_id (Some id) (self w1)) (log w1 ++ [create_request (self w1)]).

(** * Rounding to binary64 *)

Lemma fexp_eq (k : Z) : fexp k = Z.max (k - 53) (-1074).
Proof. reflexivity. Qed.

Lemma digits2_size (p : positive) : digits2_pos p = Pos.size p.
Proof. induction p; simpl; congruence. Qed.

Lemma Zdigits2_log2 (p : positive) : Zdigits2 (Zpos p) = Z.log2 (Zpos p) + 1.
Proof.
  simpl. rewrite digits2_size. destruct p; simpl; try reflexivity; lia.
Qed.

Lemma pow2_split (a b : Z) : 0 <= a -> 0 <= b -> 2 ^ (a + b) = 2 ^ a * 2 ^ b.
Proof. intros. apply Z.pow_add_r; assumption. Qed.

Lemma pow2_pos (a : Z) : 0 <= a -> 0 < 2 ^ a.
Proof. intros. apply Z.pow_pos_nonneg; lia. Qed.

Lemma pos_iter_xO (p k : positive) : Zpos (Pos.iter xO p k) = Zpos p * 2 ^ Zpos k.
Proof.
  induction k as [| k IH] using Pos.peano_ind.
  - cbn. lia.
  - rewrite Pos.iter_succ, Pos2Z.inj_xO, IH, Pos2Z.inj_succ, Z.pow_succ_r by lia. lia.
Qed.

Lemma iter_pos_nat {A : Type} (f : A -> A) (n : positive) (x : A) :
  SpecFloat.iter_pos f n x = Nat.iter (Pos.to_nat n) f x.
Proof.
  revert x. induction n as [n IH | n IH |]; intros x; cbn [SpecFloat.iter_pos].
  - rewrite !IH, <- Nat.iter_add, <- Nat.iter_succ_r. f_equal. lia.
  - rewrite !IH, <- Nat.iter_add. f_equal. lia.
  - reflexivity.
Qed.

(** One step of the right shift halves the mantissa and remembers whether a
    one was lost. *)
Lemma shr_1_spec (mrs : shr_record) :
  0 <= shr_m mrs ->
  shr_m (shr_1 mrs) = shr_m mrs / 2
  /\ (shr_r (shr_1 mrs) || shr_s (shr_1 mrs) = true ->
      shr_m mrs mod 2 <> 0 \/ shr_r mrs || shr_s mrs = true).
Proof.
  destruct mrs as [m r s]. cbn [shr_m shr_r shr_s]. intros Hm.
  destruct m as [| [p | p |] | p]; cbn [shr_1 shr_m shr_r shr_s]; try lia.
  - split; [reflexivity |]. intros H. right. exact H.
  - split; [apply Z.div_unique with 1; lia |].
    intros _. left. rewrite Pos2Z.inj_xI.
    replace (2 * Z.pos p + 1) with (1 + Z.pos p * 2) by lia.
    rewrite Z.mod_add by lia. discriminate.
  - split; [apply Z.div_unique with 0; lia |].
    rewrite orb_false_l. intros H. right. exact H.
  - split; [reflexivity |]. intros _. left. discriminate.
Qed.

(** After [k] steps the mantissa is divided by [2 ^ k], and a raised round
    or sticky bit tells that the division was not exact. *)
Lemma shr_iter_spec (k : nat) (m : Z) :
  0 <= m ->
  shr_m (Nat.iter k shr_1 (Build_shr_record m false false)) = m / 2 ^ Z.of_nat k
  /\ (shr_r (Nat.iter k shr_1 (Build_shr_record m false false))
      || shr_s (Nat.iter k shr_1 (Build_shr_record m false false)) = true ->
      m mod 2 ^ Z.of_nat k <> 0).
Proof.
  intros Hm. induction k as [| k IH]; [| rewrite !Nat.iter_succ].
  - cbn. split; [rewrite Z.div_1_r; reflexivity | discriminate].
  - destruct IH as [IH1 IH2].
    set (mrs := Nat.iter k shr_1 _) in *.
    assert (H0 : 0 <= shr_m mrs) by (rewrite IH1; apply Z.div_pos; lia).
    destruct (shr_1_spec mrs H0) as [S1 S2].
    rewrite Nat2Z.inj_succ, Z.pow_succ_r by lia.
    assert (Hp : 0 < 2 ^ Z.of_nat k) by (apply pow2_pos; lia).
    assert (Hr : m mod (2 * 2 ^ Z.of_nat k)
                 = m mod 2 ^ Z.of_nat k
                   + 2 ^ Z.of_nat k * ((m / 2 ^ Z.of_nat k) mod 2)).
    { rewrite (Z.mul_comm 2). apply Z.rem_mul_r; lia. }
    assert (B1 : 0 <= m mod 2 ^ Z.of_nat k < 2 ^ Z.of_nat k)
      by (apply Z.mod_pos_bound; lia).
    assert (B2 : 0 <= (m / 2 ^ Z.of_nat k) mod 2 < 2)
      by (apply Z.mod_pos_bound; lia).
    split.
    + rewrite S1, IH1, Z.div_div by lia. f_equal. lia.
    + intros H. rewrite Hr. destruct (S2 H) as [Hodd | Hprev].
      * rewrite IH1 in Hodd. nia.
      * specialize (IH2 Hprev). nia.
Qed.

Lemma round_shift_nonneg (m e : Z) : 0 <= round_shift m e.
Proof. unfold round_shift. lia. Qed.

Lemma shr_fexp_exact (m e : Z) :
  0 <= m ->
  exists mrs,
    shr_fexp PyFloat.prec PyFloat.emax m e loc_Exact = (mrs, e + round_shift m e)
    /\ shr_m mrs = m / 2 ^ round_shift m e
    /\ (shr_r mrs || shr_s mrs = true -> m mod 2 ^ round_shift m e <> 0).
Proof.
  intros Hm. unfold shr_fexp, shr, round_shift.
  change (SpecFloat.fexp PyFloat.prec PyFloat.emax (Zdigits2 m + e))
    with (fexp (Zdigits2 m + e)).
  destruct (fexp (Zdigits2 m + e) - e) as [| p | p] eqn:E.
  - exists (Build_shr_record m false false). cbn [shr_record_of_loc shr_m shr_r shr_s].
    rewrite Z.max_id, Z.add_0_r, Z.pow_0_r, Z.div_1_r.
    split; [reflexivity |]. split; [reflexivity | discriminate].
  - exists (SpecFloat.iter_pos shr_1 p (Build_shr_record m false false)).
    cbn [shr_record_of_loc]. rewrite Z.max_r by lia.
    split; [reflexivity |].
    rewrite iter_pos_nat. rewrite <- (positive_nat_Z p).
    apply shr_iter_spec. exact Hm.
  - exists (Build_shr_record m false false). cbn [shr_record_of_loc shr_m shr_r shr_s].
    rewrite Z.max_l by lia. rewrite Z.add_0_r, Z.pow_0_r, Z.div_1_r.
    split; [reflexivity |]. split; [reflexivity | discriminate].
Qed.

Lemma shr_fexp_noshift (m e : Z) :
  fexp (Zdigits2 m + e) - e <= 0 ->
  shr_fexp PyFloat.prec PyFloat.emax m e loc_Exact
  = (Build_shr_record m false false, e).
Proof.
  intros H. unfold shr_fexp, shr.
  change (SpecFloat.fexp PyFloat.prec PyFloat.emax (Zdigits2 m + e))
    with (fexp (Zdigits2 m + e)).
  destruct (fexp (Zdigits2 m + e) - e); [reflexivity | lia | reflexivity].
Qed.

Lemma round_nearest_even_spec (mrs : shr_record) :
  shr_m mrs <= round_nearest_even (shr_m mrs) (loc_of_shr_record mrs) <= shr_m mrs + 1
  /\ (round_nearest_even (shr_m mrs) (loc_of_shr_record mrs) <> shr_m mrs ->
      shr_r mrs || shr_s mrs = true).
Proof.
  destruct mrs as [m [|] [|]]; cbn; try destruct (Z.even m); split; try lia;
    try reflexivity; intros H; congruence.
Qed.

(** Rounding an exact product [m * 2 ^ e] to nearest: the result is read off
    a mantissa [m2] and an exponent [e2] that lie, on the grid of exponent
    [e + round_shift m e], below every grid point [P] above the product. *)
Lemma binary_round_aux_exact (s : bool) (m : positive) (e : Z) :
  exists m2 e2,
    binary_round_aux PyFloat.prec PyFloat.emax s (Zpos m) e loc_Exact
    = match m2 with
      | Z0 => S754_zero s
      | Zpos p => if e2 <=? 971 then S754_finite s p e2 else S754_infinity s
      | Zneg _ => S754_nan
      end
    /\ 0 <= m2
    /\ e + round_shift (Zpos m) e <= e2
    /\ forall P, Zpos m <= P * 2 ^ round_shift (Zpos m) e ->
         m2 * 2 ^ (e2 - (e + round_shift (Zpos m) e)) <= P.
Proof.
  unfold binary_round_aux.
  destruct (shr_fexp_exact (Zpos m) e) as (mrs & E1 & M1 & L1); [lia |].
  rewrite E1.
  set (n := round_shift (Zpos m) e) in *.
  assert (Hn : 0 <= n) by apply round_shift_nonneg.
  assert (Hp : 0 < 2 ^ n) by (apply pow2_pos; lia).
  destruct (round_nearest_even_spec mrs) as [R1 R2].
  set (mr := round_nearest_even (shr_m mrs) (loc_of_shr_record mrs)) in *.
  assert (Hm1 : 0 <= shr_m mrs) by (rewrite M1; apply Z.div_pos; lia).
  destruct (shr_fexp_exact mr (e + n)) as (mrs2 & E2 & M2 & _); [lia |].
  rewrite E2.
  set (n2 := round_shift mr (e + n)) in *.
  assert (Hn2 : 0 <= n2) by apply round_shift_nonneg.
  assert (Hp2 : 0 < 2 ^ n2) by (apply pow2_pos; lia).
  exists (shr_m mrs2), (e + n + n2).
  split; [reflexivity |].
  split; [rewrite M2; apply Z.div_pos; lia |].
  split; [lia |].
  intros P HP.
  replace (e + n + n2 - (e + n)) with n2 by lia.
  assert (Hmr : mr <= P).
  { pose proof (Z.div_mod (Zpos m) (2 ^ n) ltac:(lia)) as D.
    pose proof (Z.mod_pos_bound (Zpos m) (2 ^ n) Hp) as Bd.
    rewrite <- M1 in D.
    destruct (Z.eq_dec mr (shr_m mrs)) as [Heq | Hne].
    - rewrite Heq. nia.
    - specialize (L1 (R2 Hne)). nia. }
  rewrite M2.
  pose proof (Z.mul_div_le mr (2 ^ n2) Hp2). nia.
Qed.

(** A mantissa that already fits is left as it is. *)
Lemma binary_round_aux_canonical (s : bool) (m : positive) (e : Z) :
  fexp (Zdigits2 (Zpos m) + e) = e ->
  binary_round_aux PyFloat.prec PyFloat.emax s (Zpos m) e loc_Exact
  = if e <=? 971 then S754_finite s m e else S754_infinity s.
Proof.
  intros H. unfold binary_round_aux.
  rewrite shr_fexp_noshift by lia. cbn [shr_m loc_of_shr_record round_nearest_even].
  rewrite shr_fexp_noshift by lia. reflexivity.
Qed.

(** Integers below [2 ^ 53] convert to floats without rounding. *)
Lemma of_int_exact (W : Z) :
  0 < W < 2 ^ 53 ->
  exists mw ew,
    PyFloat.of_int W = Ok (S754_finite false mw ew)
    /\ ew <= 0
    /\ Zpos mw = W * 2 ^ (- ew)
    /\ fexp (Zdigits2 (Zpos mw) + ew) = ew.
Proof.
  intros [H0 H1]. destruct W as [| p | p]; try lia.
  unfold PyFloat.of_int, binary_normalize, binary_round, shl_align.
  change (SpecFloat.fexp PyFloat.prec PyFloat.emax (Zpos (digits2_pos p) + 0))
    with (fexp (Zpos (digits2_pos p) + 0)).
  assert (Hd : 1 <= Zpos (digits2_pos p) <= 53).
  { change (Zpos (digits2_pos p)) with (Zdigits2 (Zpos p)).
    rewrite Zdigits2_log2.
    pose proof (Z.log2_nonneg (Zpos p)).
    assert (Z.log2 (Zpos p) < 53) by (apply Z.log2_lt_pow2; lia). lia. }
  rewrite fexp_eq.
  destruct (Z.max (Zpos (digits2_pos p) + 0 - 53) (-1074) - 0) as [| k | k] eqn:E.
  - assert (F : fexp (Zdigits2 (Zpos p) + 0) = 0)
      by (rewrite fexp_eq; simpl Zdigits2; lia).
    rewrite (binary_round_aux_canonical false p 0 F).
    exists p, 0. cbn. split; [reflexivity |]. split; [lia |]. split; [lia | exact F].
  - lia.
  - assert (Ek : Zpos k = 53 - Zpos (digits2_pos p)) by lia.
    assert (M : Zpos (Pos.iter xO p k) = Zpos p * 2 ^ Zpos k) by apply pos_iter_xO.
    assert (F : fexp (Zdigits2 (Zpos (Pos.iter xO p k)) + - Zpos k) = - Zpos k).
    { rewrite Zdigits2_log2, M, Z.log2_mul_pow2 by lia.
      rewrite fexp_eq.
      change (Zpos (digits2_pos p)) with (Zdigits2 (Zpos p)) in Ek.
      rewrite Zdigits2_log2 in Ek. lia. }
    replace (Z.max (Zpos (digits2_pos p) + 0 - 53) (-1074)) with (- Zpos k) by lia.
    rewrite (binary_round_aux_canonical false _ _ F).
    replace (- Zpos k <=? 971) with true by (symmetry; apply Z.leb_le; lia).
    exists (Pos.iter xO p k), (- Zpos k). cbn [PyFloat.is_finite].
    split; [reflexivity |]. split; [lia |].
    split; [rewrite M, Z.opp_involutive; reflexivity | exact F].
Qed.

(** Rounding is exact on an integer below [2 ^ 53]. *)
Lemma binary_round_aux_integer (s : bool) (m : positive) (e V : Z) :
  e <= 0 -> 0 < V < 2 ^ 53 -> Zpos m = V * 2 ^ (- e) ->
  exists m' e',
    binary_round_aux PyFloat.prec PyFloat.emax s (Zpos m) e loc_Exact
    = S754_finite s m' e'
    /\ e' <= 0 /\ Zpos m' = V * 2 ^ (- e').
Proof.
  intros He HV Hm.
  assert (HdV : 0 <= Z.log2 V < 53).
  { split; [apply Z.log2_nonneg | apply Z.log2_lt_pow2; lia]. }
  assert (Hd : Zdigits2 (Zpos m) + e = Z.log2 V + 1).
  { rewrite Zdigits2_log2, Hm, Z.log2_mul_pow2 by lia. lia. }
  unfold binary_round_aux.
  destruct (shr_fexp_exact (Zpos m) e) as (mrs & E1 & M1 & L1); [lia |].
  rewrite E1.
  set (n := round_shift (Zpos m) e) in *.
  assert (Hn : 0 <= n <= - e /\ fexp (Z.log2 V + 1) <= e + n).
  { unfold n, round_shift. rewrite Hd, fexp_eq. lia. }
  destruct Hn as [Hn Hf].
  pose proof (pow2_pos n ltac:(lia)) as Pn.
  pose proof (pow2_pos (- e - n) ltac:(lia)) as Pd.
  assert (Sm : Zpos m = V * 2 ^ (- e - n) * 2 ^ n).
  { rewrite Hm, <- Z.mul_assoc, <- pow2_split by lia. do 2 f_equal. lia. }
  assert (Dm : Zpos m / 2 ^ n = V * 2 ^ (- e - n))
    by (rewrite Sm; apply Z.div_mul; lia).
  assert (Mm : Zpos m mod 2 ^ n = 0) by (rewrite Sm; apply Z.mod_mul; lia).
  destruct (round_nearest_even_spec mrs) as [_ R2].
  assert (Hr : round_nearest_even (shr_m mrs) (loc_of_shr_record mrs) = shr_m mrs).
  { destruct (Z.eq_dec (round_nearest_even (shr_m mrs) (loc_of_shr_record mrs))
                (shr_m mrs)) as [Heq | Hne]; [exact Heq |].
    exfalso. apply (L1 (R2 Hne)). exact Mm. }
  rewrite Hr, M1, Dm.
  assert (Hq : 0 < V * 2 ^ (- e - n)) by nia.
  destruct (V * 2 ^ (- e - n)) as [| q | q] eqn:Eq; try lia.
  rewrite shr_fexp_noshift.
  - cbn [shr_m]. change (PyFloat.emax - PyFloat.prec) with 971.
    replace (e + n <=? 971) with true by (symmetry; apply Z.leb_le; lia).
    exists q, (e + n). split; [reflexivity |]. split; [lia |].
    rewrite <- Eq. replace (- (e + n)) with (- e - n) by lia. reflexivity.
  - rewrite Zdigits2_log2, <- Eq, Z.log2_mul_pow2 by lia.
    replace (- e - n + Z.log2 V + 1 + (e + n)) with (Z.log2 V + 1) by lia. lia.
Qed.

Lemma of_int_Ok (W : Z) (f : PyFloat.float) :
  PyFloat.of_int W = Ok f ->
  binary_normalize PyFloat.prec PyFloat.emax W 0 false = f.
Proof.
  unfold PyFloat.of_int.
  destruct (PyFloat.is_finite _); [congruence | discriminate].
Qed.

(** A whole number of seconds is a whole number of milliseconds. *)
Lemma whole_milliseconds (n : Z) :
  0 <= n -> 1000 * n < 2 ^ 53 ->
  truncated_milliseconds (PyFloat.of_decimal false n 0) = Ok (1000 * n).
Proof.
  intros H0 Hn. destruct (Z.eq_dec n 0) as [-> | Hz]; [reflexivity |].
  destruct (of_int_exact n ltac:(lia)) as (mw & ew & Eg & Hew & Mw & _).
  apply of_int_Ok in Eg.
  destruct n as [| p | p]; try lia.
  unfold truncated_milliseconds, PyFloat.of_decimal.
  rewrite Z.pow_0_r, Z.mul_1_r, Eg.
  unfold PyFloat.mul_int.
  change (PyFloat.of_int 1000) with (Ok (S754_finite false 8796093022208000 (-43))).
  cbn [mbind result_bind rbind]. unfold PyFloat.mul, SFmul. cbn [xorb].
  destruct (binary_round_aux_integer false (mw * 8796093022208000) (ew + -43)
              (1000 * Zpos p)) as (m' & e' & ER & He' & Hm'); [lia | lia | |].
  - rewrite Pos2Z.inj_mul, Mw.
    replace (- (ew + -43)) with (- ew + 43) by lia.
    rewrite pow2_split by lia. change (2 ^ 43) with 8796093022208. lia.
  - rewrite ER. cbn [PyFloat.to_int]. f_equal.
    rewrite <- (Z.opp_involutive e') at 1.
    rewrite Z.shiftl_opp_r, Z.shiftr_div_pow2 by lia.
    rewrite Hm'. apply Z.div_mul. pose proof (pow2_pos (- e') ltac:(lia)). lia.
Qed.

Lemma grid_quotients_checked :
  forallb (fun k => unit_fraction (PyFloat.int_true_divide (Z.of_nat k) 1000))
    (seq 0 1001) = true.
Proof. vm_compute. reflexivity. Qed.

(** On the grid the quotient [x / 1000] lies in the unit interval. *)
Lemma grid_quotient (x : Z) :
  0 <= x <= 1000 -> unit_fraction (PyFloat.int_true_divide x 1000) = true.
Proof.
  intros Hx. pose proof grid_quotients_checked as C.
  rewrite forallb_forall in C. specialize (C (Z.to_nat x)).
  rewrite Z2Nat.id in C by lia. apply C. apply in_seq. lia.
Qed.

(** The product of a float of the unit interval and an exactly converted
    integer [W], truncated: it is defined and lies between 0 and [W]. *)
Lemma scaled_pixel_in_range (mq : positive) (qe W : Z) :
  qe <= 0 -> Zpos mq <= 2 ^ (- qe) -> 0 < W < 2 ^ 53 ->
  exists p,
    (r ← PyFloat.mul_int (S754_finite false mq qe) W; PyFloat.to_int r) = Ok p
    /\ 0 <= p <= W.
Proof.
  intros Hqe Hq HW.
  destruct (of_int_exact W HW) as (mw & ew & Eg & Hew & Mw & Cw).
  unfold PyFloat.mul_int. rewrite Eg. cbn [mbind result_bind rbind].
  unfold PyFloat.mul, SFmul. cbn [xorb].
  destruct (binary_round_aux_exact false (mq * mw) (qe + ew))
    as (m2 & e2 & ER & Hm2 & He2 & HP).
  rewrite ER.
  set (n := round_shift (Zpos (mq * mw)) (qe + ew)) in *.
  assert (Hn0 : 0 <= n) by apply round_shift_nonneg.
  (* the grid of the product is not coarser than the one of [W] *)
  assert (Hn : n <= - qe).
  { unfold n, round_shift. rewrite fexp_eq. rewrite fexp_eq in Cw.
    rewrite Zdigits2_log2 in *.
    assert (L : Z.log2 (Zpos (mq * mw)) <= - qe + Z.log2 (Zpos mw)).
    { rewrite <- Z.log2_mul_pow2 by lia. apply Z.log2_le_mono.
      rewrite Pos2Z.inj_mul. nia. }
    lia. }
  pose proof (pow2_pos (- qe) ltac:(lia)) as Pq.
  pose proof (pow2_pos n Hn0) as Pn.
  pose proof (pow2_pos (- qe - n) ltac:(lia)) as Pd.
  pose proof (pow2_pos (- ew) ltac:(lia)) as Pw.
  pose proof (pow2_pos (e2 - (qe + ew + n)) ltac:(lia)) as P2.
  assert (Sq : 2 ^ (- qe) = 2 ^ (- qe - n) * 2 ^ n)
    by (rewrite <- pow2_split by lia; f_equal; lia).
  specialize (HP (Zpos mw * 2 ^ (- qe - n))).
  assert (B : m2 * 2 ^ (e2 - (qe + ew + n)) <= Zpos mw * 2 ^ (- qe - n)).
  { apply HP. rewrite Pos2Z.inj_mul. nia. }
  clear HP.
  (* in terms of [W]: the exponent of the grid is [qe + ew + n <= 0] *)
  assert (S1 : 2 ^ (- (qe + ew + n)) = 2 ^ (- ew) * 2 ^ (- qe - n))
    by (rewrite <- pow2_split by lia; f_equal; lia).
  assert (B' : m2 * 2 ^ (e2 - (qe + ew + n)) <= W * 2 ^ (- (qe + ew + n))).
  { rewrite S1. rewrite Mw in B. lia. }
  destruct m2 as [| p2 | p2]; [| | lia].
  - exists 0. cbn. split; [reflexivity | lia].
  - destruct (Z_le_gt_dec 0 e2) as [Hpos | Hneg].
    + (* an integer: the truncation drops nothing *)
      assert (S2 : 2 ^ (e2 - (qe + ew + n)) = 2 ^ e2 * 2 ^ (- (qe + ew + n)))
        by (rewrite <- pow2_split by lia; f_equal; lia).
      pose proof (pow2_pos (- (qe + ew + n)) ltac:(lia)) as Pg.
      pose proof (pow2_pos e2 Hpos) as Pe.
      assert (V : Zpos p2 * 2 ^ e2 <= W) by (rewrite S2 in B'; nia).
      assert (He : e2 < 53).
      { apply (Z.pow_lt_mono_r_iff 2); [lia | lia |]. nia. }
      replace (e2 <=? 971) with true by (symmetry; apply Z.leb_le; lia).
      exists (Zpos p2 * 2 ^ e2). cbn [PyFloat.to_int].
      rewrite Z.shiftl_mul_pow2 by lia. split; [reflexivity | nia].
    + replace (e2 <=? 971) with true by (symmetry; apply Z.leb_le; lia).
      assert (S2 : 2 ^ (- (qe + ew + n)) = 2 ^ (- e2) * 2 ^ (e2 - (qe + ew + n)))
        by (rewrite <- pow2_split by lia; f_equal; lia).
      pose proof (pow2_pos (- e2) ltac:(lia)) as Pe.
      assert (V : Zpos p2 <= W * 2 ^ (- e2)) by (rewrite S2 in B'; nia).
      exists (Zpos p2 / 2 ^ (- e2)). cbn [PyFloat.to_int].
      rewrite <- (Z.opp_involutive e2) at 1.
      rewrite Z.shiftl_opp_r, Z.shiftr_div_pow2 by lia.
      split; [reflexivity |]. split.
      * apply Z.div_pos; lia.
      * apply Z.div_le_upper_bound; [lia | lia].
Qed.

Lemma full_width_checked :
  forallb (fun k => match truncated_pixel (Z.of_nat k) (2 ^ 53) with
                    | Ok p => (0 <=? p) && (p <=? 2 ^ 53)
                    | Raise _ => false
                    end) (seq 0 1001) = true.
Proof. vm_compute. reflexivity. Qed.

(** On the grid, and for a screen dimension up to [2 ^ 53], the pixel is
    defined and lies on the screen. *)
Lemma truncated_pixel_in_range (x W : Z) :
  0 <= x <= 1000 -> 0 <= W <= 2 ^ 53 ->
  exists p, truncated_pixel x W = Ok p /\ 0 <= p <= W.
Proof.
  intros Hx HW.
  destruct (Z.eq_dec W (2 ^ 53)) as [-> | Hne].
  { pose proof full_width_checked as C. rewrite forallb_forall in C.
    specialize (C (Z.to_nat x)). rewrite Z2Nat.id in C by lia.
    assert (I : In (Z.to_nat x) (seq 0 1001)) by (apply in_seq; lia).
    specialize (C I). destruct (truncated_pixel x (2 ^ 53)) as [p |]; [| discriminate].
    exists p. split; [reflexivity |]. lia. }
  pose proof (grid_quotient x Hx) as Q. unfold truncated_pixel.
  destruct (PyFloat.int_true_divide x 1000) as [[[|] | | | [|] mq qe] |];
    try discriminate Q; cbn [mbind result_bind rbind].
  - (* the quotient is zero *)
    unfold PyFloat.mul_int.
    destruct (Z.eq_dec W 0) as [-> | Hz].
    + exists 0. cbn. split; [reflexivity | lia].
    + destruct (of_int_exact W ltac:(lia)) as (mw & ew & Eg & _).
      rewrite Eg. exists 0. cbn. split; [reflexivity | lia].
  - cbn in Q. apply andb_true_iff in Q. destruct Q as [Q1 Q2].
    apply Z.leb_le in Q1. apply Z.leb_le in Q2.
    destruct (Z.eq_dec W 0) as [-> | Hz].
    + exists 0. cbn. split; [reflexivity | lia].
    + apply (scaled_pixel_in_range mq qe W Q1 Q2). lia.
Qed.

(** * Properties of the action translator *)

Lemma py_eq_str_true (v : pyval) (s : string) :
  py_eq_str v s = true <-> v = VStr s.
Proof.
  destruct v; simpl; try (split; [discriminate | congruence]).
  rewrite String.eqb_eq. split; congruence.
Qed.

(** The test [action.get(key) == s] in terms of the dictionary. *)
Lemma get_eq_str (action : action_record) (key s : string) :
  py_eq_str (dict_get action key VNone) s = true <-> action !! key = Some (VStr s).
Proof.
  rewrite py_eq_str_true. unfold dict_get.
  destruct (action !! key); simpl; split; congruence.
Qed.

Lemma get_neq_str (action : action_record) (key s : string) :
  action !! key <> Some (VStr s) ->
  py_eq_str (dict_get action key VNone) s = false.
Proof.
  intros H. apply not_true_is_false. rewrite get_eq_str. exact H.
Qed.

Lemma finish_test (action : action_record) :
  ~ is_finish action ->
  py_eq_str (dict_get action "_metadata" VNone) "finish" = false.
Proof. apply get_neq_str. Qed.

(** Once the name of the action is known, every test on it is decided. *)
Lemma name_test (action : action_record) (name : string) :
  has_name action name ->
  forall t, py_eq_str (dict_get action "action" VNone) t = String.eqb name t.
Proof.
  intros H t. unfold dict_get. rewrite H. reflexivity.
Qed.

Lemma convert_pair (W H x y : Z) :
  convert_relative_to_absolute W H (VList [VInt x; VInt y])
  = (px ← truncated_pixel x W; py ← truncated_pixel y H; Ok (px, py)).
Proof. reflexivity. Qed.

(** C1, as the code has it.  For a Tap, Double Tap or Long Press record
    with the element pair [[x, y]] ([[500, 500]] when the element is absent)
    and a screen of [W] by [H] pixels, the target pixel is
    [(int(x / 1000 * W), int(y / 1000 * H))]: the binary64 product is
    truncated toward zero, not rounded to the nearest integer.  On the grid
    and for screen dimensions up to [2 ^ 53] the translator returns the
    press. *)
Theorem element_pixel_is_truncated (action : action_record) (W H : Z)
    (name : string) (x y : Z) :
  ~ is_finish action ->
  has_name action name ->
  In name ["Tap"; "Double Tap"; "Long Press"] ->
  dict_get action "element" default_point = VList [VInt x; VInt y] ->
  convert_action_to_lybic action W H
    = (px ← truncated_pixel x W;
       py ← truncated_pixel y H;
       Ok (press_action name px py))
  /\ (action !! "element" = None -> x = 500 /\ y = 500)
  /\ (0 <= x <= 1000 -> 0 <= y <= 1000 -> 0 <= W <= 2 ^ 53 -> 0 <= H <= 2 ^ 53 ->
      exists px py,
        convert_action_to_lybic action W H = Ok (press_action name px py)).
Proof.
  intros Hf Hn Hin He.
  assert (E : convert_action_to_lybic action W H
              = (px ← truncated_pixel x W;
                 py ← truncated_pixel y H;
                 Ok (press_action name px py))).
  { unfold convert_action_to_lybic.
    rewrite (finish_test action Hf), !(name_test action name Hn), He, convert_pair.
    simpl in Hin.
    destruct Hin as [<- | [<- | [<- | []]]]; cbn [String.eqb Ascii.eqb Bool.eqb];
      (destruct (truncated_pixel x W); [| reflexivity]);
      destruct (truncated_pixel y H); reflexivity. }
  split; [exact E |]. split.
  - intros Ha. unfold dict_get in He. rewrite Ha in He.
    injection He as <- <-. auto.
  - intros Hx Hy HW HH. rewrite E.
    destruct (truncated_pixel_in_range x W Hx HW) as (px & Ex & _).
    destruct (truncated_pixel_in_range y H Hy HH) as (py & Ey & _).
    exists px, py. rewrite Ex, Ey. reflexivity.
Qed.

Lemma element_pixel_is_truncated_witness :
  convert_action_to_lybic (tap_record 999 500) 1080 2400
  = Ok (TouchTapAction (mkPixelLength 1078) (mkPixelLength 1200)).
Proof.
  destruct (element_pixel_is_truncated (tap_record 999 500) 1080 2400 "Tap" 999 500)
    as [E _].
  - unfold is_finish. vm_compute. discriminate.
  - vm_compute. reflexivity.
  - simpl. auto.
  - vm_compute. reflexivity.
  - rewrite E. vm_compute. reflexivity.
Defined.

(** C1, against the rounding of the specification.  For the element
    [[999, 500]] on a screen of 1080 by 2400 pixels the product
    [999 / 1000 * 1080] is 1078.92: it rounds to 1079, and the translator
    taps at 1078. *)
Lemma element_pixel_is_not_rounded :
  convert_action_to_lybic (tap_record 999 500) 1080 2400
    = Ok (TouchTapAction (mkPixelLength 1078) (mkPixelLength 1200))
  /\ Spec.rounded_pixel 999 1080 = Ok 1079
  /\ ~ element_pixel_is_rounded.
Proof.
  split; [vm_compute; reflexivity |]. split; [vm_compute; reflexivity |].
  intros C.
  destruct (C (tap_record 999 500) 1080 2400 999 500) as (px & py & Hx & Hy & E).
  - unfold is_finish. vm_compute. discriminate.
  - vm_compute. reflexivity.
  - vm_compute. reflexivity.
  - vm_compute in Hx. vm_compute in E. congruence.
Qed.

(** C2, as the code has it.  For a point of the grid,
    [0 <= x, y <= 1000], and screen dimensions between 0 and [2 ^ 53], the
    conversion is defined and its pixel pair lies in [[0, W] x [0, H]]. *)
Theorem pixel_is_on_screen (x y W H : Z) :
  0 <= x <= 1000 -> 0 <= y <= 1000 ->
  0 <= W <= 2 ^ 53 -> 0 <= H <= 2 ^ 53 ->
  exists px py,
    convert_relative_to_absolute W H (VList [VInt x; VInt y]) = Ok (px, py)
    /\ 0 <= px <= W /\ 0 <= py <= H.
Proof.
  intros Hx Hy HW HH.
  destruct (truncated_pixel_in_range x W Hx HW) as (px & Ex & Bx).
  destruct (truncated_pixel_in_range y H Hy HH) as (py & Ey & By).
  exists px, py. rewrite convert_pair, Ex, Ey. auto.
Qed.

Lemma pixel_is_on_screen_witness :
  exists px py,
    convert_relative_to_absolute 100 2400 (VList [VInt 570; VInt 500]) = Ok (px, py)
    /\ 0 <= px <= 100 /\ 0 <= py <= 2400.
Proof.
  apply (pixel_is_on_screen 570 500 100 2400); lia.
Defined.

(** C2, against screens of any size.  The integer [2 ^ 53 + 3] is not a
    binary64 number: as a screen width it is converted to [2 ^ 53 + 4], and
    the right edge of the grid, [x = 1000], lands one pixel past it. *)
Lemma pixel_can_leave_screen :
  convert_relative_to_absolute 9007199254740995 2400 (VList [VInt 1000; VInt 500])
    = Ok (9007199254740996, 1200)
  /\ ~ pixel_is_on_any_screen.
Proof.
  split; [vm_compute; reflexivity |].
  intros C.
  destruct (C 1000 500 9007199254740995 2400 9007199254740996 1200) as [[_ B] _];
    try lia.
  vm_compute. reflexivity.
Qed.

(** C3.  A Swipe record whose start and end points convert to pixels
    translates to a swipe that starts at the converted start point, in one
    of the four directions, over a non-negative distance equal to the larger
    of the two absolute pixel deltas; it is horizontal exactly when
    [|dx| > |dy|], and a tie is vertical: down when [dy > 0], up otherwise.
    Absent points are [[500, 500]].  Points of the grid do convert, on any
    screen of dimensions up to [2 ^ 53]. *)
Theorem swipe_direction_and_distance (action : action_record) (W H : Z) :
  ~ is_finish action ->
  has_name action "Swipe" ->
  (forall start_x start_y end_x end_y,
     convert_relative_to_absolute W H (dict_get action "start" default_point)
       = Ok (start_x, start_y) ->
     convert_relative_to_absolute W H (dict_get action "end" default_point)
       = Ok (end_x, end_y) ->
     let dx := end_x - start_x in
     let dy := end_y - start_y in
     exists direction distance,
       convert_action_to_lybic action W H
         = Ok (TouchSwipeAction (mkPixelLength start_x) (mkPixelLength start_y)
                 direction (mkPixelLength distance))
       /\ In direction ["left"; "right"; "up"; "down"]
       /\ 0 <= distance
       /\ distance = Z.max (Z.abs dx) (Z.abs dy)
       /\ (direction = "left" \/ direction = "right" <-> Z.abs dx > Z.abs dy)
       /\ (Z.abs dx > Z.abs dy ->
           direction = if dx >? 0 then "right" else "left")
       /\ (Z.abs dx <= Z.abs dy ->
           direction = if dy >? 0 then "down" else "up"))
  /\ (forall x1 y1 x2 y2,
        dict_get action "start" default_point = VList [VInt x1; VInt y1] ->
        dict_get action "end" default_point = VList [VInt x2; VInt y2] ->
        0 <= x1 <= 1000 -> 0 <= y1 <= 1000 ->
        0 <= x2 <= 1000 -> 0 <= y2 <= 1000 ->
        0 <= W <= 2 ^ 53 -> 0 <= H <= 2 ^ 53 ->
        exists start_x start_y end_x end_y,
          convert_relative_to_absolute W H (dict_get action "start" default_point)
            = Ok (start_x, start_y)
          /\ convert_relative_to_absolute W H (dict_get action "end" default_point)
             = Ok (end_x, end_y)).
Proof.
  intros Hf Hn. split.
  - intros start_x start_y end_x end_y Hs He dx dy.
    unfold convert_action_to_lybic.
    rewrite (finish_test action Hf), !(name_test action "Swipe" Hn), Hs, He.
    cbn [String.eqb Ascii.eqb Bool.eqb mbind result_bind rbind]. fold dx dy.
    destruct (Z.gtb_spec (Z.abs dx) (Z.abs dy)) as [Hgt | Hle].
    + exists (if dx >? 0 then "right" else "left"), (Z.abs dx).
      split; [reflexivity |].
      split; [destruct (dx >? 0); simpl; tauto |].
      split; [lia |]. split; [lia |].
      split; [split; [lia | destruct (dx >? 0); tauto] |].
      split; [reflexivity | lia].
    + exists (if dy >? 0 then "down" else "up"), (Z.abs dy).
      split; [reflexivity |].
      split; [destruct (dy >? 0); simpl; tauto |].
      split; [lia |]. split; [lia |].
      split; [split; [destruct (dy >? 0); intros [D | D]; discriminate D | lia] |].
      split; [lia | reflexivity].
  - intros x1 y1 x2 y2 Es Ee Hx1 Hy1 Hx2 Hy2 HW HH. rewrite Es, Ee.
    destruct (pixel_is_on_screen x1 y1 W H Hx1 Hy1 HW HH) as (sx & sy & E1 & _).
    destruct (pixel_is_on_screen x2 y2 W H Hx2 Hy2 HW HH) as (ex & ey & E2 & _).
    exists sx, sy, ex, ey. split; assumption.
Qed.

Lemma swipe_direction_and_distance_witness :
  convert_action_to_lybic (swipe_record 500 800 500 200) 1080 2400
  = Ok (TouchSwipeAction (mkPixelLength 540) (mkPixelLength 1920) "up"
          (mkPixelLength 1440)).
Proof.
  destruct (swipe_direction_and_distance (swipe_record 500 800 500 200) 1080 2400)
    as [A _].
  - unfold is_finish. vm_compute. discriminate.
  - vm_compute. reflexivity.
  - destruct (A 540 1920 540 480)
      as (direction & distance & E & _ & _ & Hd & _ & _ & Hv).
    + vm_compute. reflexivity.
    + vm_compute. reflexivity.
    + rewrite E, Hd, Hv by (vm_compute; discriminate). reflexivity.
Defined.

Lemma float_of_str_raises (s : string) (e : exn) :
  PyParse.float_of_str s = Raise e -> e = ValueError.
Proof.
  unfold PyParse.float_of_str.
  destruct (PyParse.drop_underscores _ _) as [u |]; [| congruence].
  destruct (PyParse.parse_decimal u); [discriminate |].
  destruct (PyParse.parse_inf_or_nan u); [discriminate | congruence].
Qed.

(** Reading the duration off a string never fails. *)
Lemma parse_duration_str (s : string) : parse_duration (VStr s) = Ok (seconds_of s).
Proof.
  unfold parse_duration, seconds_of.
  destruct (PyParse.float_of_str _) as [d | e] eqn:E; [reflexivity |].
  apply float_of_str_raises in E. subst e. reflexivity.
Qed.

(** ** Durations in whole seconds *)

Lemma digit_facts (c : ascii) :
  PyStr.is_digit c = true ->
  PyStr.is_space c = false /\ PyStr.is_c_space c = false
  /\ PyStr.is_ascii c = true /\ c <> "s"%char /\ c <> "_"%char
  /\ c <> "-"%char /\ c <> "+"%char.
Proof.
  destruct c as [[] [] [] [] [] [] [] []]; intros H; try discriminate H;
    repeat split; try reflexivity; discriminate.
Qed.

Lemma digits_cons (c : ascii) (t : string) :
  PyStr.forall_chars PyStr.is_digit (String c t) = true ->
  PyStr.is_digit c = true /\ PyStr.forall_chars PyStr.is_digit t = true.
Proof. simpl. intros H. apply andb_true_iff in H. exact H. Qed.

Lemma replace_seconds (ds : string) :
  PyStr.forall_chars PyStr.is_digit ds = true ->
  PyStr.replace (ds +:+ " seconds") "seconds" "" = ds +:+ " ".
Proof.
  unfold PyStr.replace. induction ds as [| c t IH]; intros H.
  - reflexivity.
  - apply digits_cons in H. destruct H as [Hc Ht].
    destruct (digit_facts c Hc) as (_ & _ & _ & Hs & _).
    change (String c t +:+ " seconds") with (String c (t +:+ " seconds")).
    cbn [PyStr.replace_from String.prefix].
    destruct (ascii_dec "s" c) as [E | _]; [congruence |].
    rewrite (IH Ht). reflexivity.
Qed.

Lemma rstrip_blank (ds : string) :
  PyStr.forall_chars PyStr.is_digit ds = true ->
  PyStr.rstrip_with PyStr.is_space (ds +:+ " ") = ds.
Proof.
  induction ds as [| c t IH]; intros H.
  - reflexivity.
  - apply digits_cons in H. destruct H as [Hc Ht].
    destruct (digit_facts c Hc) as (Hsp & _).
    change (String c t +:+ " ") with (String c (t +:+ " ")).
    cbn [PyStr.rstrip_with]. rewrite (IH Ht), Hsp. destruct t; reflexivity.
Qed.

Lemma strip_number_blank (ds : string) :
  is_number ds -> PyStr.strip (ds +:+ " ") = ds.
Proof.
  intros [Hne H]. unfold PyStr.strip, PyStr.strip_with.
  destruct ds as [| c t]; [congruence |].
  pose proof (digits_cons c t H) as [Hc _].
  destruct (digit_facts c Hc) as (Hsp & _).
  change (String c t +:+ " ") with (String c (t +:+ " ")).
  cbn [PyStr.lstrip_with]. rewrite Hsp.
  apply (rstrip_blank (String c t) H).
Qed.

Lemma rstrip_number (ds : string) :
  PyStr.forall_chars PyStr.is_digit ds = true ->
  PyStr.rstrip_with PyStr.is_c_space ds = ds.
Proof.
  induction ds as [| c t IH]; intros H; [reflexivity |].
  apply digits_cons in H. destruct H as [Hc Ht].
  destruct (digit_facts c Hc) as (_ & Hsp & _).
  cbn [PyStr.rstrip_with]. rewrite (IH Ht), Hsp. destruct t; reflexivity.
Qed.

Lemma number_is_ascii (ds : string) :
  PyStr.forall_chars PyStr.is_digit ds = true ->
  PyStr.forall_chars PyStr.is_ascii ds = true.
Proof.
  induction ds as [| c t IH]; intros H; [reflexivity |].
  apply digits_cons in H. destruct H as [Hc Ht].
  destruct (digit_facts c Hc) as (_ & _ & Ha & _).
  simpl. rewrite Ha, (IH Ht). reflexivity.
Qed.

Lemma drop_underscores_number (prev : ascii) (ds : string) :
  is_number ds -> PyParse.drop_underscores prev ds = Some ds.
Proof.
  intros [Hne H]. revert prev. induction ds as [| c t IH]; intros prev; [congruence |].
  apply digits_cons in H. destruct H as [Hc Ht].
  destruct (digit_facts c Hc) as (_ & _ & _ & _ & Hu & _).
  cbn [PyParse.drop_underscores].
  destruct (Ascii.eqb_spec c "_"); [congruence |].
  rewrite Hc. rewrite andb_false_r.
  destruct t as [| c' t'].
  - cbn [PyParse.drop_underscores].
    destruct (Ascii.eqb_spec c "_"); [congruence | reflexivity].
  - rewrite (IH ltac:(discriminate) Ht). reflexivity.
Qed.

Lemma span_digits_number (ds : string) :
  PyStr.forall_chars PyStr.is_digit ds = true ->
  PyParse.span_digits ds = (ds, "").
Proof.
  induction ds as [| c t IH]; intros H; [reflexivity |].
  apply digits_cons in H. destruct H as [Hc Ht].
  cbn [PyParse.span_digits]. rewrite Hc, (IH Ht). reflexivity.
Qed.

Lemma string_app_nil_r (s : string) : s +:+ "" = s.
Proof.
  induction s as [| c t IH]; [reflexivity |].
  change (String c t +:+ "") with (String c (t +:+ "")). rewrite IH. reflexivity.
Qed.

(** A run of digits reads as the integer it denotes. *)
Lemma float_of_number (ds : string) :
  is_number ds ->
  PyParse.float_of_str ds
  = Ok (PyFloat.of_decimal false (PyParse.digits_value 0 ds) 0).
Proof.
  intros Hn. pose proof Hn as [Hne H].
  unfold PyParse.float_of_str, PyParse.normalize.
  rewrite (number_is_ascii ds H).
  assert (S : PyStr.strip_with PyStr.is_c_space ds = ds).
  { unfold PyStr.strip_with. destruct ds as [| c t]; [congruence |].
    pose proof (digits_cons c t H) as [Hc _].
    destruct (digit_facts c Hc) as (_ & Hsp & _).
    cbn [PyStr.lstrip_with]. rewrite Hsp. apply rstrip_number. exact H. }
  rewrite S, (drop_underscores_number _ ds Hn).
  unfold PyParse.parse_decimal.
  assert (T : PyParse.take_sign ds = (false, ds)).
  { destruct ds as [| c t]; [congruence |].
    pose proof (digits_cons c t H) as [Hc _].
    destruct (digit_facts c Hc) as (_ & _ & _ & _ & _ & Hm & Hp).
    unfold PyParse.take_sign.
    destruct c as [[] [] [] [] [] [] [] []]; try reflexivity; congruence. }
  rewrite T, (span_digits_number ds H).
  rewrite string_app_nil_r.
  destruct ds as [| c t]; [congruence |]. reflexivity.
Qed.

Lemma seconds_of_number (ds : string) :
  is_number ds ->
  seconds_of (ds +:+ " seconds")
  = PyFloat.of_decimal false (PyParse.digits_value 0 ds) 0.
Proof.
  intros Hn. unfold seconds_of.
  rewrite (replace_seconds ds (proj2 Hn)), (strip_number_blank ds Hn),
    (float_of_number ds Hn). reflexivity.
Qed.

Lemma digits_value_nonneg (ds : string) (acc : Z) :
  PyStr.forall_chars PyStr.is_digit ds = true -> 0 <= acc ->
  0 <= PyParse.digits_value acc ds.
Proof.
  revert acc. induction ds as [| c t IH]; intros acc H Ha; [exact Ha |].
  apply digits_cons in H. destruct H as [Hc Ht].
  cbn [PyParse.digits_value]. apply IH; [exact Ht |].
  assert (0 <= PyStr.digit_value c).
  { unfold PyStr.digit_value. unfold PyStr.is_digit in Hc.
    apply andb_true_iff in Hc. destruct Hc as [Hc _]. apply N.leb_le in Hc. lia. }
  lia.
Qed.

(** C4, as the code has it.  For a Wait record the word "seconds" is
    removed from the duration string, the rest is stripped of white space
    and read as a float, [1.0] if it is not one; an absent duration is
    "1 seconds".  The wait lasts [int(seconds * 1000)] milliseconds: the
    product is truncated toward zero, not rounded.  "2 seconds" gives
    2000 ms, "abc" gives 1000 ms, no duration gives 1000 ms, and a run of
    digits that denotes [n] followed by " seconds" gives [1000 * n] ms, as
    long as [1000 * n < 2 ^ 53]. *)
Theorem wait_duration_is_truncated (action : action_record) (W H : Z) :
  ~ is_finish action ->
  has_name action "Wait" ->
  (forall s, action !! "duration" = Some (VStr s) ->
     convert_action_to_lybic action W H
     = (ms ← truncated_milliseconds (seconds_of s); Ok (WaitAction ms)))
  /\ (action !! "duration" = Some (VStr "2 seconds") ->
      convert_action_to_lybic action W H = Ok (WaitAction 2000))
  /\ (action !! "duration" = Some (VStr "abc") ->
      convert_action_to_lybic action W H = Ok (WaitAction 1000))
  /\ (action !! "duration" = None ->
      convert_action_to_lybic action W H = Ok (WaitAction 1000))
  /\ (forall ds, is_number ds -> 1000 * PyParse.digits_value 0 ds < 2 ^ 53 ->
        action !! "duration" = Some (VStr (ds +:+ " seconds")) ->
        convert_action_to_lybic action W H
        = Ok (WaitAction (1000 * PyParse.digits_value 0 ds))).
Proof.
  intros Hf Hn.
  assert (G : forall s, dict_get action "duration" (VStr "1 seconds") = VStr s ->
     convert_action_to_lybic action W H
     = (ms ← truncated_milliseconds (seconds_of s); Ok (WaitAction ms))).
  { intros s Hs. unfold convert_action_to_lybic.
    rewrite (finish_test action Hf), !(name_test action "Wait" Hn), Hs.
    cbn [String.eqb Ascii.eqb Bool.eqb orb]. rewrite parse_duration_str.
    unfold truncated_milliseconds. cbn [mbind result_bind rbind].
    destruct (PyFloat.mul_int (seconds_of s) 1000); reflexivity. }
  split; [| split; [| split; [| split]]].
  - intros s Hs. apply G. unfold dict_get. rewrite Hs. reflexivity.
  - intros Hs. rewrite (G "2 seconds") by (unfold dict_get; rewrite Hs; reflexivity).
    vm_compute. reflexivity.
  - intros Hs. rewrite (G "abc") by (unfold dict_get; rewrite Hs; reflexivity).
    vm_compute. reflexivity.
  - intros Hs. rewrite (G "1 seconds") by (unfold dict_get; rewrite Hs; reflexivity).
    vm_compute. reflexivity.
  - intros ds Hd Hb Hs.
    rewrite (G (ds +:+ " seconds")) by (unfold dict_get; rewrite Hs; reflexivity).
    rewrite (seconds_of_number ds Hd), whole_milliseconds; [reflexivity | | exact Hb].
    apply digits_value_nonneg; [apply Hd | lia].
Qed.

Lemma wait_duration_is_truncated_witness :
  convert_action_to_lybic (wait_record "2 seconds") 1080 2400 = Ok (WaitAction 2000)
  /\ convert_action_to_lybic (wait_record "abc") 1080 2400 = Ok (WaitAction 1000)
  /\ convert_action_to_lybic (<["action" := VStr "Wait"]> ∅) 1080 2400
     = Ok (WaitAction 1000)
  /\ convert_action_to_lybic (wait_record "1.9999 seconds") 1080 2400
     = Ok (WaitAction 1999).
Proof.
  split; [| split; [| split]].
  - destruct (wait_duration_is_truncated (wait_record "2 seconds") 1080 2400)
      as (_ & E & _).
    + unfold is_finish. vm_compute. discriminate.
    + vm_compute. reflexivity.
    + apply E. vm_compute. reflexivity.
  - destruct (wait_duration_is_truncated (wait_record "abc") 1080 2400)
      as (_ & _ & E & _).
    + unfold is_finish. vm_compute. discriminate.
    + vm_compute. reflexivity.
    + apply E. vm_compute. reflexivity.
  - destruct (wait_duration_is_truncated (<["action" := VStr "Wait"]> ∅) 1080 2400)
      as (_ & _ & _ & E & _).
    + unfold is_finish. vm_compute. discriminate.
    + vm_compute. reflexivity.
    + apply E. vm_compute. reflexivity.
  - destruct (wait_duration_is_truncated (wait_record "1.9999 seconds") 1080 2400)
      as [E _].
    + unfold is_finish. vm_compute. discriminate.
    + vm_compute. reflexivity.
    + rewrite (E "1.9999 seconds") by (vm_compute; reflexivity).
      vm_compute. reflexivity.
Defined.

(** C4, against the rounding of the specification.  For the duration
    "1.9999 seconds" the product [1.9999 * 1000] is 1999.9: it rounds to
    2000, and the translator waits 1999 ms. *)
Lemma wait_duration_is_not_rounded :
  convert_action_to_lybic (wait_record "1.9999 seconds") 1080 2400
    = Ok (WaitAction 1999)
  /\ Spec.rounded_milliseconds (seconds_of "1.9999 seconds") = Ok 2000
  /\ ~ wait_duration_is_rounded.
Proof.
  split; [vm_compute; reflexivity |]. split; [vm_compute; reflexivity |].
  intros C.
  destruct (C (wait_record "1.9999 seconds") 1080 2400 "1.9999 seconds")
    as (ms & Hr & E).
  - unfold is_finish. vm_compute. discriminate.
  - vm_compute. reflexivity.
  - vm_compute. reflexivity.
  - vm_compute in Hr. vm_compute in E. congruence.
Qed.

(** C5.  A record without the finish marker whose action name is none of
    the known ones, or is absent, translates to a wait of 1000 ms; the
    translator raises nothing. *)
Theorem unknown_action_waits (action : action_record) (W H : Z) :
  ~ is_finish action ->
  (forall name, In name known_actions -> ~ has_name action name) ->
  convert_action_to_lybic action W H = Ok (WaitAction 1000).
Proof.
  intros Hf Hn. unfold convert_action_to_lybic. rewrite (finish_test action Hf).
  assert (F : forall name, In name known_actions ->
                py_eq_str (dict_get action "action" VNone) name = false).
  { intros name Hin. apply get_neq_str. exact (Hn name Hin). }
  rewrite !F by (simpl; tauto). reflexivity.
Qed.

Lemma unknown_action_waits_witness :
  convert_action_to_lybic (<["action" := VStr "Pinch"]> ∅) 1080 2400
    = Ok (WaitAction 1000)
  /\ convert_action_to_lybic ∅ 1080 2400 = Ok (WaitAction 1000).
Proof.
  split.
  - apply (unknown_action_waits (<["action" := VStr "Pinch"]> ∅) 1080 2400).
    + unfold is_finish. rewrite lookup_insert_ne by discriminate.
      rewrite lookup_empty. discriminate.
    + intros name Hin. unfold has_name. rewrite lookup_insert_eq.
      intros E. injection E as E. subst name. simpl in Hin.
      repeat (destruct Hin as [Hin | Hin]; [discriminate Hin |]). exact Hin.
  - apply (unknown_action_waits ∅ 1080 2400).
    + unfold is_finish. rewrite lookup_empty. discriminate.
    + intros name _. unfold has_name. rewrite lookup_empty. discriminate.
Defined.

(** C6.  A record whose metadata discriminant is "finish" translates to
    the finish primitive; its message is the message field of the record
    when there is one, and no message ([None]) otherwise. *)
Theorem finish_carries_message (action : action_record) (W H : Z) :
  is_finish action ->
  convert_action_to_lybic action W H
    = Ok (FinishedAction (dict_get action "message" VNone))
  /\ (forall m, action !! "message" = Some m ->
        convert_action_to_lybic action W H = Ok (FinishedAction m))
  /\ (action !! "message" = None ->
        convert_action_to_lybic action W H = Ok (FinishedAction VNone)).
Proof.
  intros Hf.
  assert (E : convert_action_to_lybic action W H
              = Ok (FinishedAction (dict_get action "message" VNone))).
  { unfold convert_action_to_lybic.
    rewrite (proj2 (get_eq_str _ "_metadata" "finish") Hf). reflexivity. }
  split; [exact E |]. unfold dict_get in E. split.
  - intros m Hm. rewrite E, Hm. reflexivity.
  - intros Hm. rewrite E, Hm. reflexivity.
Qed.

Lemma finish_carries_message_witness :
  convert_action_to_lybic
    (<["_metadata" := VStr "finish"]> (<["message" := VStr "done"]> ∅)) 1080 2400
  = Ok (FinishedAction (VStr "done")).
Proof.
  destruct (finish_carries_message
              (<["_metadata" := VStr "finish"]> (<["message" := VStr "done"]> ∅))
              1080 2400) as (_ & E & _).
  - reflexivity.
  - apply E. reflexivity.
Defined.

(** * Properties of the client *)

(** ** The sandbox identifier *)

Lemma stable_refl s w : sandbox_id (self w) = Some s -> stable s w w.
Proof.
  intros H. split; [exact H |]. exists []. rewrite app_nil_r. auto.
Qed.

Lemma stable_trans s w1 w2 w3 : stable s w1 w2 -> stable s w2 w3 -> stable s w1 w3.
Proof.
  intros [_ (e1 & L1 & F1)] [H (e2 & L2 & F2)]. split; [exact H |].
  exists (e1 ++ e2). rewrite L2, L1, app_assoc. split; [reflexivity |].
  apply Forall_app; auto.
Qed.

Lemma stable_assigned s w w' : s <> "" -> stable s w w' -> assigned s w'.
Proof. intros Hs [H _]. split; assumption. Qed.

Section ClientProperties.

Variable B : backend.
Variable APP_PACKAGES : list (string * string).
Variable b64decode_utf8 : string -> result string.
Variable s : string.

Lemma keeps_ret {A} (a : A) (Q : A -> Prop) : Q a -> keeps s (mret a) Q.
Proof.
  intros HQ w [Hw _]. split; [apply stable_refl; exact Hw |].
  intros a' E. injection E as <-. exact HQ.
Qed.

Lemma keeps_bind {A C} (m : M A) (k : A -> M C) (Q : A -> Prop) (R : C -> Prop) :
  keeps s m Q -> (forall a, Q a -> keeps s (k a) R) -> keeps s (m ≫= k) R.
Proof.
  intros Hm Hk w Hw. destruct (Hm w Hw) as [S1 Q1].
  unfold mbind, M_bind. destruct (m w) as [[a | e] w1] eqn:E; simpl in *.
  - assert (A1 : assigned s w1) by (eapply stable_assigned; [apply Hw | exact S1]).
    destruct (Hk a (Q1 a eq_refl) w1 A1) as [S2 Q2].
    split; [eapply stable_trans; eassumption | exact Q2].
  - split; [exact S1 | discriminate].
Qed.

Lemma keeps_weaken {A} (m : M A) (Q R : A -> Prop) :
  keeps s m Q -> (forall a, Q a -> R a) -> keeps s m R.
Proof.
  intros Hm HQR w Hw. destruct (Hm w Hw) as [S1 Q1]. split; auto.
Qed.

Lemma keeps_get_self : keeps s get_self (fun c => sandbox_id c = Some s).
Proof.
  intros w [Hw _]. split; [apply stable_refl; exact Hw |].
  intros a E. injection E as <-. exact Hw.
Qed.

Lemma keeps_get_log : keeps s get_log (fun _ => True).
Proof.
  intros w [Hw _]. split; [apply stable_refl; exact Hw | auto].
Qed.

Lemma keeps_update (f : LybicPhoneClient -> LybicPhoneClient) :
  (forall c, sandbox_id (f c) = sandbox_id c) ->
  keeps s (update f) (fun _ => True).
Proof.
  intros Hf w [Hw _]. split; [| auto].
  split; [simpl; rewrite Hf; exact Hw |].
  exists []. simpl. rewrite app_nil_r. auto.
Qed.

Lemma keeps_emit (e : event) :
  addresses_only s e -> keeps s (emit e) (fun _ => True).
Proof.
  intros He w [Hw _]. split; [| auto].
  split; [exact Hw |]. exists [e]. simpl. auto.
Qed.

Lemma keeps_lift {A} (r : result A) : keeps s (lift r) (fun _ => True).
Proof.
  intros w [Hw _]. split; [apply stable_refl; exact Hw | auto].
Qed.

Lemma keeps_request {A} (e : event) (answer : backend -> list event -> result A) :
  addresses_only s e -> keeps s (request B e answer) (fun _ => True).
Proof.
  intros He. unfold request.
  eapply keeps_bind; [apply keeps_emit; exact He |]. intros _ _.
  eapply keeps_bind; [apply keeps_get_log |]. intros l _.
  apply keeps_lift.
Qed.

Lemma keeps_try_except {A} (body : M A) (handler : exn -> M A) (Q : A -> Prop) :
  keeps s body Q -> (forall e, keeps s (handler e) Q) ->
  keeps s (try_except body handler) Q.
Proof.
  intros Hb Hh w Hw. destruct (Hb w Hw) as [S1 Q1].
  unfold try_except. destruct (body w) as [[a | e] w1] eqn:E; simpl in *.
  - split; assumption.
  - assert (A1 : assigned s w1) by (eapply stable_assigned; [apply Hw | exact S1]).
    destruct (Hh e w1 A1) as [S2 Q2].
    split; [eapply stable_trans; eassumption | exact Q2].
Qed.

Lemma local_event_addresses_only (e : event) :
  event_sandbox e = None -> is_create e = false -> addresses_only s e.
Proof. intros H1 H2. split; [exact H2 |]. intros t Ht. congruence. Qed.

Lemma keeps_ensure_loop : keeps s (_ensure_loop B) (fun _ => True).
Proof.
  unfold _ensure_loop.
  eapply keeps_bind; [apply keeps_get_self |]. intros c _.
  eapply keeps_bind; [apply keeps_get_log |]. intros l _.
  destruct (bool_decide (_loop c = None) || negb (loop_is_running B l)).
  - eapply keeps_bind; [apply keeps_update; reflexivity |]. intros _ _.
    apply keeps_emit, local_event_addresses_only; reflexivity.
  - apply keeps_ret. exact I.
Qed.

Lemma keeps_run_async {A} (coro : M A) (Q : A -> Prop) :
  keeps s coro Q -> keeps s (_run_async B coro) Q.
Proof.
  intros H. unfold _run_async.
  eapply keeps_bind; [apply keeps_ensure_loop |]. intros _ _. exact H.
Qed.

Lemma keeps_ensure_client : keeps s _ensure_client (fun _ => True).
Proof.
  unfold _ensure_client.
  eapply keeps_bind; [apply keeps_get_self |]. intros c _.
  destruct (_client c).
  - apply keeps_ret. exact I.
  - eapply keeps_bind; [apply keeps_update; reflexivity |]. intros _ _.
    eapply keeps_bind;
      [apply keeps_emit, local_event_addresses_only; reflexivity |].
    intros _ _.
    eapply keeps_bind; [apply keeps_update; reflexivity |]. intros _ _.
    apply keeps_ret. exact I.
Qed.

(** With an identifier in place, [_ensure_sandbox] returns it. *)
Lemma keeps_ensure_sandbox : keeps s (_ensure_sandbox B) (fun id => id = s).
Proof.
  intros w [Hid Hne]. unfold _ensure_sandbox, mbind, M_bind, get_self.
  simpl. rewrite Hid. destruct s as [| a t]; [congruence |].
  simpl. split; [apply stable_refl; exact Hid |].
  intros a' E. injection E as <-. reflexivity.
Qed.

Lemma keeps_get_screenshot_async :
  keeps s (_get_screenshot_async B) (fun _ => True).
Proof.
  unfold _get_screenshot_async.
  eapply keeps_bind; [apply keeps_ensure_sandbox |]. intros id ->.
  eapply keeps_bind; [apply keeps_ensure_client |]. intros client _.
  eapply keeps_bind.
  { apply keeps_request. split; [reflexivity |].
    intros t E. injection E as <-. reflexivity. }
  intros [[url img] b64] _.
  eapply keeps_bind with (Q := fun _ => True).
  { destruct img; [apply keeps_update; reflexivity | apply keeps_ret; exact I]. }
  intros _ _.
  eapply keeps_bind; [apply keeps_get_self |]. intros c _.
  apply keeps_ret. exact I.
Qed.

Lemma keeps_execute_action_async (action : lybic_action) :
  keeps s (_execute_action_async B action) (fun _ => True).
Proof.
  unfold _execute_action_async.
  eapply keeps_bind; [apply keeps_ensure_sandbox |]. intros id ->.
  eapply keeps_bind; [apply keeps_ensure_client |]. intros client _.
  apply keeps_request. split; [reflexivity |].
  intros t E. injection E as <-. reflexivity.
Qed.

Lemma keeps_get_current_app_async :
  keeps s (_get_current_app_async B APP_PACKAGES b64decode_utf8) (fun _ => True).
Proof.
  unfold _get_current_app_async.
  apply keeps_try_except; [| intros e; apply keeps_ret; exact I].
  unfold _get_current_app_try.
  eapply keeps_bind; [apply keeps_ensure_sandbox |]. intros id ->.
  eapply keeps_bind; [apply keeps_ensure_client |]. intros client _.
  eapply keeps_bind.
  { apply keeps_request. split; [reflexivity |].
    intros t E. injection E as <-. reflexivity. }
  intros out _.
  eapply keeps_bind; [apply keeps_lift |]. intros output _.
  destruct (scan_focus APP_PACKAGES (PyStr.split_lines output));
    apply keeps_ret; exact I.
Qed.

Lemma keeps_close : keeps s (close B) (fun _ => True).
Proof.
  unfold close.
  eapply keeps_bind; [apply keeps_get_self |]. intros c _.
  eapply keeps_bind with (Q := fun _ => True).
  { destruct (_client c) as [client |]; [| apply keeps_ret; exact I].
    destruct (_initialized c); [| apply keeps_ret; exact I].
    eapply keeps_bind;
      [apply keeps_emit, local_event_addresses_only; reflexivity |].
    intros _ _.
    eapply keeps_bind; [apply keeps_update; reflexivity |]. intros _ _.
    apply keeps_update; reflexivity. }
  intros _ _.
  eapply keeps_bind; [apply keeps_get_self |]. intros c' _.
  eapply keeps_bind; [apply keeps_get_log |]. intros l _.
  destruct (_loop c') as [loop |]; [| apply keeps_ret; exact I].
  destruct (loop_is_running B l); [| apply keeps_ret; exact I].
  eapply keeps_bind;
    [apply keeps_emit, local_event_addresses_only; reflexivity |].
  intros _ _.
  destruct (_loop_thread c') as [thread |]; [| apply keeps_ret; exact I].
  apply keeps_emit, local_event_addresses_only; reflexivity.
Qed.

Lemma perform_stable (op : operation) (w : world) :
  assigned s w -> stable s w (perform B APP_PACKAGES b64decode_utf8 op w).
Proof.
  intros Hw. destruct op; simpl.
  - apply (keeps_run_async _ _ keeps_get_screenshot_async w Hw).
  - apply (keeps_run_async _ _ (keeps_execute_action_async action) w Hw).
  - apply (keeps_run_async _ _ keeps_get_current_app_async w Hw).
  - apply (keeps_close w Hw).
Qed.

Lemma perform_all_stable (ops : list operation) (w : world) :
  assigned s w -> stable s w (perform_all B APP_PACKAGES b64decode_utf8 ops w).
Proof.
  revert w. induction ops as [| op ops IH]; intros w Hw; simpl.
  - apply stable_refl, Hw.
  - pose proof (perform_stable op w Hw) as S1.
    eapply stable_trans; [exact S1 |].
    apply IH. eapply stable_assigned; [apply Hw | exact S1].
Qed.

End ClientProperties.

(** C7.  Once the client holds a non-empty sandbox identifier [s], it keeps
    it through any sequence of screenshot, execute-action, current-app (and
    close) calls, whether they return or raise: after the calls the
    identifier is still [s], [_ensure_sandbox] returns [s] and changes
    nothing, every request the calls issued that addresses a sandbox
    addresses [s], and none of them creates a sandbox.  In particular a
    client built from a configuration that supplies [s] never issues a
    create-sandbox request. *)
Theorem sandbox_id_is_stable (B : backend) (APP_PACKAGES : list (string * string))
    (b64decode_utf8 : string -> result string) (s : string) (ops : list operation) :
  s <> "" ->
  (forall w, sandbox_id (self w) = Some s ->
     let w' := perform_all B APP_PACKAGES b64decode_utf8 ops w in
     sandbox_id (self w') = Some s
     /\ _ensure_sandbox B w' = (Ok s, w')
     /\ exists evs, log w' = log w ++ evs
          /\ Forall (fun e => is_create e = false) evs
          /\ Forall (fun e => forall t, event_sandbox e = Some t -> t = s) evs)
  /\ (forall cfg, LybicConfig.sandbox_id cfg = Some s ->
        let w' := perform_all B APP_PACKAGES b64decode_utf8 ops
                    (mkWorld (__init__ cfg) []) in
        sandbox_id (self w') = Some s
        /\ Forall (fun e => is_create e = false) (log w')).
Proof.
  intros Hs.
  assert (G : forall w, sandbox_id (self w) = Some s ->
     let w' := perform_all B APP_PACKAGES b64decode_utf8 ops w in
     sandbox_id (self w') = Some s
     /\ _ensure_sandbox B w' = (Ok s, w')
     /\ exists evs, log w' = log w ++ evs
          /\ Forall (fun e => is_create e = false) evs
          /\ Forall (fun e => forall t, event_sandbox e = Some t -> t = s) evs).
  { intros w Hw w'.
    destruct (perform_all_stable B APP_PACKAGES b64decode_utf8 s ops w
                (conj Hw Hs)) as [Hid (evs & L & F)].
    fold w' in Hid, L. split; [exact Hid |]. split.
    - unfold _ensure_sandbox, mbind, M_bind, get_self. simpl. rewrite Hid.
      destruct s; [congruence | reflexivity].
    - exists evs. split; [exact L |].
      split; eapply Forall_impl; try exact F; intros e [H1 H2]; assumption. }
  split; [exact G |].
  intros cfg Hc w'.
  destruct (G (mkWorld (__init__ cfg) []) Hc) as (Hid & _ & evs & L & F & _).
  fold w' in Hid, L. split; [exact Hid |].
  rewrite L. simpl. exact F.
Qed.

Lemma sandbox_id_is_stable_witness :
  Forall (fun e => is_create e = false)
    (log (perform_all demo_backend demo_packages plain_text
            [OpScreenshot; OpExecute AndroidBackAction; OpCurrentApp]
            (mkWorld (__init__ demo_config) []))).
Proof.
  destruct (sandbox_id_is_stable demo_backend demo_packages plain_text "sbx-1"
              [OpScreenshot; OpExecute AndroidBackAction; OpCurrentApp])
    as [_ Hcfg].
  - discriminate.
  - apply (Hcfg demo_config). reflexivity.
Defined.

(** ** Close *)

Lemma close_run (B : backend) (w : world) :
  close B w
  = (Ok tt,
     mkWorld (closed (self w))
       ((log w ++ release_events (self w))
          ++ stop_events B (closed (self w)) (log w ++ release_events (self w)))).
Proof.
  destruct w as [c l]. unfold close, closed, release_events, stop_events.
  unfold mbind, M_bind, get_self, get_log, emit, update, mret, M_ret. simpl.
  destruct (_client c) as [client |]; simpl.
  - destruct (_initialized c); simpl.
    + destruct (_loop c) as [loop |]; simpl; [| rewrite app_nil_r; reflexivity].
      destruct (loop_is_running B (l ++ [ClientExit client])); simpl;
        [| rewrite app_nil_r; reflexivity].
      destruct (_loop_thread c); simpl; [| reflexivity].
      rewrite <- app_assoc. reflexivity.
    + rewrite app_nil_r.
      destruct (_loop c) as [loop |]; simpl; [| rewrite app_nil_r; reflexivity].
      destruct (loop_is_running B l); simpl; [| rewrite app_nil_r; reflexivity].
      destruct (_loop_thread c); simpl; [| reflexivity].
      rewrite <- app_assoc. reflexivity.
  - rewrite app_nil_r.
    destruct (_loop c) as [loop |]; simpl; [| rewrite app_nil_r; reflexivity].
    destruct (loop_is_running B l); simpl; [| rewrite app_nil_r; reflexivity].
    destruct (_loop_thread c); simpl; [| reflexivity].
    rewrite <- app_assoc. reflexivity.
Qed.

Lemma closed_idem (c : LybicPhoneClient) : closed (closed c) = closed c.
Proof.
  unfold closed. destruct (_client c) eqn:E1; [| rewrite E1; reflexivity].
  destruct (_initialized c) eqn:E2; simpl; [reflexivity |].
  rewrite E1, E2. reflexivity.
Qed.

Lemma release_events_closed (c : LybicPhoneClient) : release_events (closed c) = [].
Proof.
  unfold release_events, closed. destruct (_client c) eqn:E1; [| rewrite E1; reflexivity].
  destruct (_initialized c) eqn:E2; simpl; [reflexivity |].
  rewrite E1, E2. reflexivity.
Qed.

Lemma count_exits_app (l1 l2 : list event) :
  count_exits (l1 ++ l2) = (count_exits l1 + count_exits l2)%nat.
Proof. unfold count_exits. rewrite filter_app, length_app. reflexivity. Qed.

Lemma count_exits_release (c : LybicPhoneClient) :
  (count_exits (release_events c) <= 1)%nat.
Proof.
  unfold count_exits, release_events. destruct (_client c); [| simpl; lia].
  destruct (_initialized c); simpl; lia.
Qed.

Lemma count_exits_stop (B : backend) (c : LybicPhoneClient) (l : list event) :
  count_exits (stop_events B c l) = 0%nat.
Proof.
  unfold stop_events. destruct (_loop c); [| reflexivity].
  destruct (loop_is_running B l); [| reflexivity].
  destruct (_loop_thread c); reflexivity.
Qed.

(** C8.  Close is idempotent.  From any client state, two calls of [close]
    in a row both return without an exception; the second one leaves the
    client object as the first one left it and performs no release step, so
    that the two calls together perform the handle's release step at most
    once.  When neither the handle nor the loop was ever initialized,
    [close] changes nothing and issues no request. *)
Theorem close_is_idempotent (B : backend) (w : world) :
  let first := close B w in
  let second := close B (snd first) in
  fst first = Ok tt
  /\ fst second = Ok tt
  /\ self (snd second) = self (snd first)
  /\ count_exits (log (snd second)) = count_exits (log (snd first))
  /\ (count_exits (log (snd second)) <= count_exits (log w) + 1)%nat
  /\ (_client (self w) = None -> _loop (self w) = None -> snd first = w).
Proof.
  intros first second. unfold second, first. rewrite !close_run. simpl.
  rewrite closed_idem, release_events_closed, app_nil_r.
  repeat split.
  - rewrite !count_exits_app, !count_exits_stop. lia.
  - rewrite !count_exits_app, !count_exits_stop.
    pose proof (count_exits_release (self w)). lia.
  - intros Hc Hl. destruct w as [c l]. simpl in *.
    unfold closed, release_events, stop_events. rewrite Hc. simpl. rewrite Hl.
    rewrite !app_nil_r. reflexivity.
Qed.

Lemma close_is_idempotent_witness :
  snd (close demo_backend (mkWorld (__init__ LybicConfig.default) []))
  = mkWorld (__init__ LybicConfig.default) [].
Proof.
  apply (close_is_idempotent demo_backend (mkWorld (__init__ LybicConfig.default) [])).
  - reflexivity.
  - reflexivity.
Defined.

(** C10.  Close leaves the sandbox identifier as it was.  After [close]
    the stored identifier and the configuration are those before it, and
    the requests [close] issues are local ones (the release of the handle,
    the stop of the loop, the join of its thread): none addresses a sandbox,
    so none deletes one, and none creates one. *)
Theorem close_keeps_sandbox (B : backend) (w : world) :
  let w' := snd (close B w) in
  sandbox_id (self w') = sandbox_id (self w)
  /\ config (self w') = config (self w)
  /\ exists evs, log w' = log w ++ evs
       /\ Forall (fun e => event_sandbox e = None /\ is_create e = false) evs.
Proof.
  intros w'. unfold w'. rewrite close_run. simpl.
  assert (Hc : sandbox_id (closed (self w)) = sandbox_id (self w)
               /\ config (closed (self w)) = config (self w)).
  { unfold closed. destruct (_client (self w)); [| auto].
    destruct (_initialized (self w)); auto. }
  destruct Hc as [H1 H2]. split; [exact H1 |]. split; [exact H2 |].
  exists (release_events (self w)
            ++ stop_events B (closed (self w)) (log w ++ release_events (self w))).
  split; [rewrite app_assoc; reflexivity |].
  apply Forall_app. split.
  - unfold release_events. destruct (_client (self w)); [| constructor].
    destruct (_initialized (self w)); repeat constructor.
  - unfold stop_events. destruct (_loop (closed (self w))); [| constructor].
    destruct (loop_is_running B _); [| constructor].
    destruct (_loop_thread (closed (self w))); repeat constructor.
Qed.

(** ** Current application *)

Lemma find_package_none (packages : list (string * string)) (line : string) :
  find_package packages line = None <->
  forall app_name package, In (app_name, package) packages ->
    PyStr.contains package line = false.
Proof.
  induction packages as [| [n p] rest IH]; simpl.
  - split; [intros _ ? ? [] | reflexivity].
  - destruct (PyStr.contains p line) eqn:E.
    + split; [discriminate |]. intros H.
      rewrite (H n p) in E by (left; reflexivity). discriminate.
    + rewrite IH. split.
      * intros H a q [Heq | Hin]; [injection Heq as <- <-; exact E | eauto].
      * intros H a q Hin. apply (H a q). right. exact Hin.
Qed.

Lemma scan_focus_none (APP_PACKAGES : list (string * string)) (lines : list string) :
  scan_focus APP_PACKAGES lines = None <->
  forall line, In line lines -> is_focus_line line = true ->
    find_package APP_PACKAGES line = None.
Proof.
  induction lines as [| l rest IH]; simpl.
  - split; [intros _ ? [] | reflexivity].
  - destruct (is_focus_line l) eqn:F.
    + destruct (find_package APP_PACKAGES l) eqn:P.
      * split; [discriminate |]. intros H.
        rewrite (H l) in P by auto. discriminate.
      * rewrite IH. split.
        -- intros H x [<- | Hin] Hx; [exact P | auto].
        -- intros H x Hin Hx. apply H; auto.
    + rewrite IH. split.
      * intros H x [<- | Hin] Hx; [congruence | auto].
      * intros H x Hin Hx. apply H; auto.
Qed.

Lemma no_known_focus_scan (APP_PACKAGES : list (string * string)) (output : string) :
  no_known_focus APP_PACKAGES output <->
  scan_focus APP_PACKAGES (PyStr.split_lines output) = None.
Proof.
  rewrite scan_focus_none. unfold no_known_focus. split.
  - intros H line Hin Hf. apply find_package_none. eauto.
  - intros H line Hin Hf. apply find_package_none. eauto.
Qed.

(** The [try] block is the remote call followed by decoding and scanning. *)
Lemma get_current_app_try_run (B : backend) (APP_PACKAGES : list (string * string))
    (b64decode_utf8 : string -> result string) (w : world) :
  _get_current_app_try B APP_PACKAGES b64decode_utf8 w
  = match dump_window B w with
    | (Ok stdoutBase64, w') =>
        match b64decode_utf8 stdoutBase64 with
        | Ok output =>
            (Ok (default "System Home"
                   (scan_focus APP_PACKAGES (PyStr.split_lines output))), w')
        | Raise e => (Raise e, w')
        end
    | (Raise e, w') => (Raise e, w')
    end.
Proof.
  unfold _get_current_app_try, dump_window, mbind, M_bind.
  destruct (_ensure_sandbox B w) as [[sid | e] w1]; [| reflexivity].
  destruct (_ensure_client w1) as [[c | e] w2]; [| reflexivity].
  destruct (request B _ sandbox_execute_process w2) as [[out | e] w3];
    [| reflexivity].
  unfold lift. destruct (b64decode_utf8 out) as [output | e]; [| reflexivity].
  destruct (scan_focus APP_PACKAGES (PyStr.split_lines output)); reflexivity.
Qed.

(** C9.  The current-app lookup never raises: it always returns a label.
    The label is "System Home" when the remote call raises, whatever the
    exception, when the answer cannot be decoded, and when no line of the
    decoded output that carries a focus marker contains a known package
    identifier. *)
Theorem current_app_falls_back (B : backend) (APP_PACKAGES : list (string * string))
    (b64decode_utf8 : string -> result string) (w : world) :
  let lookup := _get_current_app_async B APP_PACKAGES b64decode_utf8 in
  (exists label, fst (lookup w) = Ok label)
  /\ (forall e, fst (dump_window B w) = Raise e ->
        fst (lookup w) = Ok "System Home")
  /\ (forall stdoutBase64 e, fst (dump_window B w) = Ok stdoutBase64 ->
        b64decode_utf8 stdoutBase64 = Raise e ->
        fst (lookup w) = Ok "System Home")
  /\ (forall stdoutBase64 output, fst (dump_window B w) = Ok stdoutBase64 ->
        b64decode_utf8 stdoutBase64 = Ok output ->
        no_known_focus APP_PACKAGES output ->
        fst (lookup w) = Ok "System Home").
Proof.
  intros lookup.
  assert (T : forall w0, exists label, fst (lookup w0) = Ok label).
  { intros w0. unfold lookup, _get_current_app_async, try_except.
    destruct (_get_current_app_try B APP_PACKAGES b64decode_utf8 w0)
      as [[label | e] w1]; simpl; eauto. }
  unfold lookup, _get_current_app_async, try_except in *.
  rewrite get_current_app_try_run.
  split; [| split; [| split]].
  - specialize (T w). rewrite get_current_app_try_run in T. exact T.
  - intros e He. destruct (dump_window B w) as [[out | e'] w1]; simpl in *;
      [discriminate | reflexivity].
  - intros out e Ho Hd. destruct (dump_window B w) as [[out' | e'] w1]; simpl in *;
      [| discriminate].
    injection Ho as ->. rewrite Hd. reflexivity.
  - intros out output Ho Hd Hn.
    destruct (dump_window B w) as [[out' | e'] w1]; simpl in *; [| discriminate].
    injection Ho as ->. rewrite Hd.
    apply no_known_focus_scan in Hn. rewrite Hn. reflexivity.
Qed.

Lemma current_app_falls_back_witness :
  fst (_get_current_app_async failing_backend demo_packages plain_text
         (mkWorld (__init__ demo_config) []))
  = Ok "System Home".
Proof.
  apply (current_app_falls_back failing_backend demo_packages plain_text
           (mkWorld (__init__ demo_config) []))
    with (e := BackendError "unreachable").
  reflexivity.
Defined.

(** * Further properties of the action translator *)

Lemma dict_get_with_name (name key : string) (action : action_record) (d : pyval) :
  key <> "action" ->
  dict_get (with_name name action) key d = dict_get action key d.
Proof.
  intros H. unfold dict_get, with_name. rewrite lookup_insert_ne by congruence.
  reflexivity.
Qed.

Lemma dict_get_some (action : action_record) (key : string) (v d : pyval) :
  action !! key = Some v -> dict_get action key d = v.
Proof. intros H. unfold dict_get. rewrite H. reflexivity. Qed.

Lemma dict_get_none (action : action_record) (key : string) (d : pyval) :
  action !! key = None -> dict_get action key d = d.
Proof. intros H. unfold dict_get. rewrite H. reflexivity. Qed.

Lemma has_name_with_name (name : string) (action : action_record) :
  has_name (with_name name action) name.
Proof. unfold has_name, with_name. apply lookup_insert_eq. Qed.

(** X1.  Aliases.  A Double Tap record is translated exactly as the same
    record named Tap, and a Type_Name record exactly as the same record
    named Type, whatever else the record holds and whatever the screen. *)
Theorem aliases_translate_alike (action : action_record) (W H : Z) :
  convert_action_to_lybic (with_name "Double Tap" action) W H
    = convert_action_to_lybic (with_name "Tap" action) W H
  /\ convert_action_to_lybic (with_name "Type_Name" action) W H
     = convert_action_to_lybic (with_name "Type" action) W H.
Proof.
  unfold convert_action_to_lybic.
  rewrite !(name_test _ _ (has_name_with_name "Double Tap" action)).
  rewrite !(name_test _ _ (has_name_with_name "Tap" action)).
  rewrite !(name_test _ _ (has_name_with_name "Type_Name" action)).
  rewrite !(name_test _ _ (has_name_with_name "Type" action)).
  rewrite !dict_get_with_name by discriminate.
  cbn [String.eqb Ascii.eqb Bool.eqb orb]. split; reflexivity.
Qed.

(** X2.  A Long Press record presses exactly where the same record named
    Tap taps, for 3000 ms, and it fails exactly when the Tap fails, with the
    same exception; a finish record stays a finish record. *)
Theorem long_press_holds_the_tap (action : action_record) (W H : Z) :
  convert_action_to_lybic (with_name "Long Press" action) W H
  = held (convert_action_to_lybic (with_name "Tap" action) W H).
Proof.
  unfold convert_action_to_lybic.
  rewrite !(name_test _ _ (has_name_with_name "Long Press" action)).
  rewrite !(name_test _ _ (has_name_with_name "Tap" action)).
  rewrite !dict_get_with_name by discriminate.
  cbn [String.eqb Ascii.eqb Bool.eqb orb].
  destruct (py_eq_str (dict_get action "_metadata" VNone) "finish"); [reflexivity |].
  destruct (convert_relative_to_absolute W H
              (dict_get action "element" default_point)) as [[x y] | e];
    reflexivity.
Qed.

(** X3.  Only the pointer actions read the screen: the translation of a
    record whose name is not Tap, Double Tap, Long Press or Swipe is the
    same on every screen. *)
Theorem screen_matters_to_pointers_only (action : action_record) (W H W' H' : Z) :
  (forall name, In name pointer_names -> ~ has_name action name) ->
  convert_action_to_lybic action W H = convert_action_to_lybic action W' H'.
Proof.
  intros Hn. unfold convert_action_to_lybic.
  assert (F : forall name, In name pointer_names ->
                py_eq_str (dict_get action "action" VNone) name = false).
  { intros name Hin. apply get_neq_str. exact (Hn name Hin). }
  rewrite !F by (simpl; tauto). reflexivity.
Qed.

Lemma screen_matters_to_pointers_only_witness :
  convert_action_to_lybic (wait_record "2 seconds") 1080 2400
  = convert_action_to_lybic (wait_record "2 seconds") 720 1280.
Proof.
  apply (screen_matters_to_pointers_only (wait_record "2 seconds") 1080 2400 720 1280).
  intros name Hin. unfold has_name, wait_record. rewrite lookup_insert_eq.
  intros E. injection E as E. subst name. simpl in Hin.
  repeat (destruct Hin as [Hin | Hin]; [discriminate Hin |]). exact Hin.
Defined.

(** X4.  A malformed element is not replaced by a default: it makes the
    translation of a Tap, Double Tap or Long Press record fail.  An element
    that is [None] or an integer raises [TypeError], an empty list raises
    [IndexError], a list that starts with a string raises [TypeError], and
    a list with a single grid coordinate raises [IndexError] on a screen
    up to [2 ^ 53] wide. *)
Theorem malformed_element_raises (action : action_record) (W H : Z) (name : string) :
  ~ is_finish action ->
  has_name action name ->
  In name press_names ->
  (action !! "element" = Some VNone ->
     convert_action_to_lybic action W H = Raise TypeError)
  /\ (forall z, action !! "element" = Some (VInt z) ->
        convert_action_to_lybic action W H = Raise TypeError)
  /\ (action !! "element" = Some (VList []) ->
        convert_action_to_lybic action W H = Raise IndexError)
  /\ (forall s rest, action !! "element" = Some (VList (VStr s :: rest)) ->
        convert_action_to_lybic action W H = Raise TypeError)
  /\ (forall x, action !! "element" = Some (VList [VInt x]) ->
        0 <= x <= 1000 -> 0 <= W <= 2 ^ 53 ->
        convert_action_to_lybic action W H = Raise IndexError).
Proof.
  intros Hf Hn Hin.
  assert (G : forall v e, action !! "element" = Some v ->
            convert_relative_to_absolute W H v = Raise e ->
            convert_action_to_lybic action W H = Raise e).
  { intros v e Hv Hc. unfold convert_action_to_lybic.
    rewrite (finish_test action Hf), !(name_test action name Hn).
    rewrite !(dict_get_some action "element" v default_point Hv). cbv zeta.
    rewrite Hc. simpl in Hin.
    destruct Hin as [<- | [<- | [<- | []]]]; reflexivity. }
  split; [| split; [| split; [| split]]].
  - intros Hv. apply (G _ _ Hv). reflexivity.
  - intros z Hv. apply (G _ _ Hv). reflexivity.
  - intros Hv. apply (G _ _ Hv). reflexivity.
  - intros s rest Hv. apply (G _ _ Hv). reflexivity.
  - intros x Hv Hx HW. apply (G _ _ Hv).
    unfold convert_relative_to_absolute, scale_coordinate.
    cbn [py_getitem nth_error mbind result_bind rbind].
    destruct (truncated_pixel_in_range x W Hx HW) as (p & Ep & _).
    unfold truncated_pixel in Ep. rewrite Ep. reflexivity.
Qed.

Lemma malformed_element_raises_witness :
  convert_action_to_lybic
    (<["action" := VStr "Tap"]> (<["element" := VList [VInt 500]]> ∅)) 1080 2400
  = Raise IndexError.
Proof.
  destruct (malformed_element_raises
              (<["action" := VStr "Tap"]> (<["element" := VList [VInt 500]]> ∅))
              1080 2400 "Tap") as (_ & _ & _ & _ & E).
  - unfold is_finish. vm_compute. discriminate.
  - vm_compute. reflexivity.
  - simpl. auto.
  - apply (E 500); [vm_compute; reflexivity | lia | lia].
Defined.

(** X5.  Only a [ValueError] of the parse is caught in the Wait branch.  A
    duration that is not a string ([None], an integer, a list) raises
    [AttributeError]; a duration that reads as an infinity raises
    [OverflowError], and one that reads as a NaN raises [ValueError], when
    the seconds are converted to milliseconds. *)
Theorem wait_failures_escape (action : action_record) (W H : Z) :
  ~ is_finish action ->
  has_name action "Wait" ->
  (forall v, action !! "duration" = Some v -> (forall s, v <> VStr s) ->
     convert_action_to_lybic action W H = Raise AttributeError)
  /\ (forall s sign, action !! "duration" = Some (VStr s) ->
        seconds_of s = S754_infinity sign ->
        convert_action_to_lybic action W H = Raise OverflowError)
  /\ (forall s, action !! "duration" = Some (VStr s) ->
        seconds_of s = S754_nan ->
        convert_action_to_lybic action W H = Raise ValueError).
Proof.
  intros Hf Hn.
  assert (G : forall v, action !! "duration" = Some v ->
     convert_action_to_lybic action W H
     = (duration ← parse_duration v;
        ms ← PyFloat.mul_int duration 1000;
        ms ← PyFloat.to_int ms;
        Ok (WaitAction ms))).
  { intros v Hv. unfold convert_action_to_lybic.
    rewrite (finish_test action Hf), !(name_test action "Wait" Hn).
    rewrite (dict_get_some action "duration" v _ Hv). reflexivity. }
  split; [| split].
  - intros v Hv Hs. rewrite (G v Hv).
    destruct v as [| z | s | l]; try reflexivity.
    exfalso. apply (Hs s). reflexivity.
  - intros s sign Hv Hi. rewrite (G _ Hv), parse_duration_str, Hi. reflexivity.
  - intros s Hv Hi. rewrite (G _ Hv), parse_duration_str, Hi. reflexivity.
Qed.

Lemma wait_failures_escape_witness :
  convert_action_to_lybic (wait_record "inf seconds") 1080 2400 = Raise OverflowError
  /\ convert_action_to_lybic (wait_record "nan") 1080 2400 = Raise ValueError
  /\ convert_action_to_lybic
       (<["action" := VStr "Wait"]> (<["duration" := VInt 2]> ∅)) 1080 2400
     = Raise AttributeError.
Proof.
  split; [| split].
  - destruct (wait_failures_escape (wait_record "inf seconds") 1080 2400)
      as (_ & E & _).
    + unfold is_finish. vm_compute. discriminate.
    + vm_compute. reflexivity.
    + apply (E "inf seconds" false); vm_compute; reflexivity.
  - destruct (wait_failures_escape (wait_record "nan") 1080 2400) as (_ & _ & E).
    + unfold is_finish. vm_compute. discriminate.
    + vm_compute. reflexivity.
    + apply (E "nan"); vm_compute; reflexivity.
  - destruct (wait_failures_escape
                (<["action" := VStr "Wait"]> (<["duration" := VInt 2]> ∅)) 1080 2400)
      as (E & _).
    + unfold is_finish. vm_compute. discriminate.
    + vm_compute. reflexivity.
    + apply (E (VInt 2)); [vm_compute; reflexivity | discriminate].
Defined.

(** ** Exact products *)

(** When the bits that rounding drops are all zero, nothing is rounded. *)
Lemma binary_round_aux_divisible (s : bool) (m K : positive) (e : Z) :
  Zpos m = Zpos K * 2 ^ round_shift (Zpos m) e ->
  e + round_shift (Zpos m) e <= 971 ->
  binary_round_aux PyFloat.prec PyFloat.emax s (Zpos m) e loc_Exact
  = S754_finite s K (e + round_shift (Zpos m) e).
Proof.
  intros Hm He. unfold binary_round_aux.
  destruct (shr_fexp_exact (Zpos m) e) as (mrs & E1 & M1 & L1); [lia |].
  rewrite E1.
  pose proof (round_shift_nonneg (Zpos m) e) as Hn.
  assert (Hf : fexp (Zdigits2 (Zpos m) + e) <= e + round_shift (Zpos m) e)
    by (unfold round_shift; lia).
  set (n := round_shift (Zpos m) e) in *.
  pose proof (pow2_pos n Hn) as Pn.
  assert (Dm : Zpos m / 2 ^ n = Zpos K) by (rewrite Hm; apply Z.div_mul; lia).
  assert (Mm : Zpos m mod 2 ^ n = 0) by (rewrite Hm; apply Z.mod_mul; lia).
  destruct (round_nearest_even_spec mrs) as [_ R2].
  assert (Hr : round_nearest_even (shr_m mrs) (loc_of_shr_record mrs) = shr_m mrs).
  { destruct (Z.eq_dec (round_nearest_even (shr_m mrs) (loc_of_shr_record mrs))
                (shr_m mrs)) as [Heq | Hne]; [exact Heq |].
    exfalso. apply (L1 (R2 Hne)). exact Mm. }
  rewrite Hr, M1, Dm, shr_fexp_noshift.
  - cbn [shr_m]. change (PyFloat.emax - PyFloat.prec) with 971.
    replace (e + n <=? 971) with true by (symmetry; apply Z.leb_le; lia).
    reflexivity.
  - rewrite Zdigits2_log2, fexp_eq.
    rewrite Zdigits2_log2, Hm, Z.log2_mul_pow2, fexp_eq in Hf by lia. lia.
Qed.

(** A converted integer below [2 ^ 53] has a mantissa of 53 bits. *)
Lemma of_int_normal (W : Z) :
  0 < W < 2 ^ 53 ->
  exists mw ew,
    PyFloat.of_int W = Ok (S754_finite false mw ew)
    /\ -52 <= ew <= 0
    /\ Zpos mw = W * 2 ^ (- ew)
    /\ Z.log2 (Zpos mw) = 52.
Proof.
  intros HW. destruct (of_int_exact W HW) as (mw & ew & E & He & Hm & Hc).
  exists mw, ew. split; [exact E |].
  assert (L : Z.log2 (Zpos mw) = - ew + Z.log2 W)
    by (rewrite Hm; apply Z.log2_mul_pow2; lia).
  assert (HdW : 0 <= Z.log2 W < 53).
  { split; [apply Z.log2_nonneg | apply Z.log2_lt_pow2; lia]. }
  rewrite Zdigits2_log2, fexp_eq in Hc.
  split; [lia |]. split; [exact Hm | lia].
Qed.

(** The product of a power of two [2 ^ (-k)], [0 <= k <= 1], and an integer
    [W] below [2 ^ 53], truncated, is [W / 2 ^ k]. *)
Lemma halved_pixel (k W : Z) :
  0 <= k <= 1 -> 0 < W < 2 ^ 53 ->
  (r ← PyFloat.mul_int (S754_finite false 4503599627370496 (- 52 - k)) W;
   PyFloat.to_int r) = Ok (W / 2 ^ k).
Proof.
  intros Hk HW.
  destruct (of_int_normal W HW) as (mw & ew & Eg & Hew & Mw & Lw).
  unfold PyFloat.mul_int. rewrite Eg. cbn [mbind result_bind rbind].
  unfold PyFloat.mul, SFmul. cbn [xorb].
  assert (Hm : Zpos (4503599627370496 * mw) = Zpos mw * 2 ^ 52)
    by (rewrite Pos2Z.inj_mul; change (2 ^ 52) with 4503599627370496; lia).
  assert (Hs : round_shift (Zpos (4503599627370496 * mw)) (- 52 - k + ew) = 52).
  { unfold round_shift. rewrite Zdigits2_log2, Hm, Z.log2_mul_pow2, Lw, fexp_eq by lia.
    lia. }
  rewrite (binary_round_aux_divisible false _ mw) by (rewrite Hs; first [exact Hm | lia]).
  rewrite Hs. cbn [PyFloat.to_int]. f_equal.
  replace (- 52 - k + ew + 52) with (- (k - ew)) by lia.
  rewrite Z.shiftl_opp_r, Z.shiftr_div_pow2 by lia.
  rewrite Mw. replace (k - ew) with (- ew + k) by lia.
  rewrite pow2_split by lia.
  pose proof (pow2_pos (- ew) ltac:(lia)). pose proof (pow2_pos k ltac:(lia)).
  rewrite (Z.mul_comm (2 ^ (- ew))), Z.div_mul_cancel_r by lia. reflexivity.
Qed.

(** The landmarks of the grid: 0 is the left edge, 500 the middle and 1000
    the right edge of a screen dimension up to [2 ^ 53]. *)
Lemma grid_landmarks (W : Z) :
  0 <= W <= 2 ^ 53 ->
  truncated_pixel 0 W = Ok 0
  /\ truncated_pixel 500 W = Ok (W / 2)
  /\ truncated_pixel 1000 W = Ok W.
Proof.
  intros HW.
  destruct (Z.eq_dec W 0) as [-> | H0]; [repeat split |].
  destruct (Z.eq_dec W (2 ^ 53)) as [-> | H1]; [repeat split |].
  assert (HW' : 0 < W < 2 ^ 53) by lia.
  split; [| split].
  - unfold truncated_pixel.
    change (PyFloat.int_true_divide 0 1000) with (Ok (S754_zero false)).
    cbn [mbind result_bind rbind]. unfold PyFloat.mul_int.
    destruct (of_int_exact W HW') as (mw & ew & Eg & _). rewrite Eg. reflexivity.
  - unfold truncated_pixel.
    change (PyFloat.int_true_divide 500 1000)
      with (Ok (S754_finite false 4503599627370496 (- 52 - 1))).
    cbn [mbind result_bind rbind].
    rewrite (halved_pixel 1 W) by lia. reflexivity.
  - unfold truncated_pixel.
    change (PyFloat.int_true_divide 1000 1000)
      with (Ok (S754_finite false 4503599627370496 (- 52 - 0))).
    cbn [mbind result_bind rbind].
    rewrite (halved_pixel 0 W) by lia. rewrite Z.pow_0_r, Z.div_1_r. reflexivity.
Qed.

(** X6.  The landmarks of the grid, on a screen of dimensions up to
    [2 ^ 53]: the point [[0, 0]] converts to the pixel [(0, 0)], the point
    [[500, 500]] to the middle [(W / 2, H / 2)] (integer division) and the
    point [[1000, 1000]] to [(W, H)] exactly. *)
Theorem grid_corners_and_centre (W H : Z) :
  0 <= W <= 2 ^ 53 -> 0 <= H <= 2 ^ 53 ->
  convert_relative_to_absolute W H (VList [VInt 0; VInt 0]) = Ok (0, 0)
  /\ convert_relative_to_absolute W H (VList [VInt 500; VInt 500])
     = Ok (W / 2, H / 2)
  /\ convert_relative_to_absolute W H (VList [VInt 1000; VInt 1000]) = Ok (W, H).
Proof.
  intros HW HH.
  destruct (grid_landmarks W HW) as (W0 & W1 & W2).
  destruct (grid_landmarks H HH) as (H0 & H1 & H2).
  rewrite !convert_pair, W0, W1, W2, H0, H1, H2. repeat split.
Qed.

Lemma grid_corners_and_centre_witness :
  convert_relative_to_absolute 1081 2400 (VList [VInt 500; VInt 500])
  = Ok (1081 / 2, 2400 / 2).
Proof.
  apply (grid_corners_and_centre 1081 2400); lia.
Defined.

(** X7.  A Tap, Double Tap or Long Press record without an element presses
    the centre of the screen, [(W / 2, H / 2)], on a screen of dimensions
    up to [2 ^ 53]. *)
Theorem absent_element_is_centre (action : action_record) (W H : Z) (name : string) :
  ~ is_finish action ->
  has_name action name ->
  In name press_names ->
  action !! "element" = None ->
  0 <= W <= 2 ^ 53 -> 0 <= H <= 2 ^ 53 ->
  convert_action_to_lybic action W H = Ok (press_action name (W / 2) (H / 2)).
Proof.
  intros Hf Hn Hin He HW HH. unfold convert_action_to_lybic.
  rewrite (finish_test action Hf), !(name_test action name Hn).
  rewrite !(dict_get_none action "element" default_point He). cbv zeta.
  unfold default_point. rewrite convert_pair.
  destruct (grid_landmarks W HW) as (_ & -> & _).
  destruct (grid_landmarks H HH) as (_ & -> & _).
  simpl in Hin. destruct Hin as [<- | [<- | [<- | []]]]; reflexivity.
Qed.

Lemma absent_element_is_centre_witness :
  convert_action_to_lybic (<["action" := VStr "Long Press"]> ∅) 1080 2400
  = Ok (TouchLongPressAction (mkPixelLength 540) (mkPixelLength 1200) 3000).
Proof.
  apply (absent_element_is_centre (<["action" := VStr "Long Press"]> ∅) 1080 2400
           "Long Press").
  - unfold is_finish. vm_compute. discriminate.
  - vm_compute. reflexivity.
  - simpl. auto.
  - vm_compute. reflexivity.
  - lia.
  - lia.
Defined.

(** ** Signs *)

Lemma binary_round_aux_negb (s : bool) (m e : Z) (l : location) :
  binary_round_aux PyFloat.prec PyFloat.emax (negb s) m e l
  = SFopp (binary_round_aux PyFloat.prec PyFloat.emax s m e l).
Proof.
  unfold binary_round_aux.
  destruct (shr_fexp PyFloat.prec PyFloat.emax m e l) as [mrs e1].
  destruct (shr_fexp PyFloat.prec PyFloat.emax _ e1 loc_Exact) as [mrs2 e2].
  destruct (shr_m mrs2); [reflexivity | | reflexivity].
  destruct (e2 <=? PyFloat.emax - PyFloat.prec); reflexivity.
Qed.

(** Changing the sign of a factor changes the sign of the product. *)
Lemma mul_opp (f g : PyFloat.float) :
  PyFloat.mul (SFopp f) g = SFopp (PyFloat.mul f g).
Proof.
  unfold PyFloat.mul.
  destruct f as [sf | sf | | sf mf ef], g as [sg | sg | | sg mg eg];
    cbn [SFopp SFmul]; try reflexivity;
    try (destruct sf, sg; reflexivity).
  replace (xorb (negb sf) sg) with (negb (xorb sf sg)) by (destruct sf, sg; reflexivity).
  apply binary_round_aux_negb.
Qed.

Lemma to_int_opp (f : PyFloat.float) :
  PyFloat.to_int (SFopp f) = (z ← PyFloat.to_int f; Ok (- z)).
Proof.
  destruct f as [sf | sf | | sf mf ef]; cbn; try reflexivity.
  destruct sf; cbn; f_equal; lia.
Qed.

Lemma truncated_milliseconds_opp (f : PyFloat.float) :
  truncated_milliseconds (SFopp f) = (z ← truncated_milliseconds f; Ok (- z)).
Proof.
  unfold truncated_milliseconds, PyFloat.mul_int.
  destruct (PyFloat.of_int 1000) as [g | e]; [| reflexivity].
  cbn [mbind result_bind rbind]. rewrite mul_opp. apply to_int_opp.
Qed.

Lemma of_decimal_opp (n : Z) :
  0 <= n ->
  PyFloat.of_decimal true n 0 = SFopp (PyFloat.of_decimal false n 0).
Proof.
  intros Hn. destruct n as [| p | p]; [reflexivity | | lia].
  unfold PyFloat.of_decimal. rewrite Z.pow_0_r, Z.mul_1_r.
  change (- Zpos p) with (Zneg p).
  unfold binary_normalize, binary_round.
  destruct (shl_align p 0 _) as [mz ez].
  apply (binary_round_aux_negb false).
Qed.

(** ** Durations with a sign, durations without the unit *)

Lemma replace_number (ds tail : string) :
  PyStr.forall_chars PyStr.is_digit ds = true ->
  PyStr.replace_from "seconds" "" 0 (ds +:+ tail)
  = ds +:+ PyStr.replace_from "seconds" "" 0 tail.
Proof.
  induction ds as [| c t IH]; intros H; [reflexivity |].
  apply digits_cons in H. destruct H as [Hc Ht].
  destruct (digit_facts c Hc) as (_ & _ & _ & Hs & _).
  change (String c t +:+ tail) with (String c (t +:+ tail)).
  cbn [PyStr.replace_from String.prefix].
  destruct (ascii_dec "s" c) as [E | _]; [congruence |].
  rewrite (IH Ht). reflexivity.
Qed.

Lemma rstrip_space_number (ds : string) :
  PyStr.forall_chars PyStr.is_digit ds = true ->
  PyStr.rstrip_with PyStr.is_space ds = ds.
Proof.
  induction ds as [| c t IH]; intros H; [reflexivity |].
  apply digits_cons in H. destruct H as [Hc Ht].
  destruct (digit_facts c Hc) as (Hsp & _).
  cbn [PyStr.rstrip_with]. rewrite (IH Ht), Hsp. destruct t; reflexivity.
Qed.

Lemma strip_number (ds : string) : is_number ds -> PyStr.strip ds = ds.
Proof.
  intros [Hne H]. unfold PyStr.strip, PyStr.strip_with.
  destruct ds as [| c t]; [congruence |].
  pose proof (digits_cons c t H) as [Hc _].
  destruct (digit_facts c Hc) as (Hsp & _).
  cbn [PyStr.lstrip_with]. rewrite Hsp. apply rstrip_space_number. exact H.
Qed.

(** The seconds read off a number, with or without the unit. *)
Lemma seconds_of_bare_number (ds : string) :
  is_number ds ->
  seconds_of ds = PyFloat.of_decimal false (PyParse.digits_value 0 ds) 0
  /\ seconds_of (ds +:+ "seconds")
     = PyFloat.of_decimal false (PyParse.digits_value 0 ds) 0.
Proof.
  intros Hn. pose proof Hn as [_ H]. unfold seconds_of, PyStr.replace. split.
  - rewrite <- (string_app_nil_r ds) at 1. rewrite (replace_number ds "" H).
    cbn [PyStr.replace_from]. rewrite string_app_nil_r, (strip_number ds Hn),
      (float_of_number ds Hn). reflexivity.
  - rewrite (replace_number ds "seconds" H).
    change (PyStr.replace_from "seconds" "" 0 "seconds") with "".
    rewrite string_app_nil_r, (strip_number ds Hn), (float_of_number ds Hn).
    reflexivity.
Qed.

Lemma float_of_negative_number (ds : string) :
  is_number ds ->
  PyParse.float_of_str (String "-" ds)
  = Ok (PyFloat.of_decimal true (PyParse.digits_value 0 ds) 0).
Proof.
  intros Hn. pose proof Hn as [Hne H].
  unfold PyParse.float_of_str, PyParse.normalize.
  cbn [PyStr.forall_chars]. rewrite (number_is_ascii ds H).
  change (PyStr.is_ascii "-" && true) with true. cbv iota.
  assert (S : PyStr.strip_with PyStr.is_c_space (String "-" ds) = String "-" ds).
  { unfold PyStr.strip_with. cbn [PyStr.lstrip_with].
    change (PyStr.is_c_space "-") with false. cbv iota.
    cbn [PyStr.rstrip_with]. rewrite (rstrip_number ds H).
    destruct ds; [congruence | reflexivity]. }
  rewrite S. cbn [PyParse.drop_underscores].
  change (Ascii.eqb "-" "_") with false. cbv iota.
  change (Ascii.eqb "000" "_" && negb (PyStr.is_digit "-")) with false. cbv iota.
  rewrite (drop_underscores_number "-" ds Hn). cbn [fmap option_fmap option_map].
  unfold PyParse.parse_decimal. cbn [PyParse.take_sign].
  rewrite (span_digits_number ds H), string_app_nil_r.
  destruct ds as [| c t]; [congruence |]. reflexivity.
Qed.

Lemma seconds_of_negative_number (ds : string) :
  is_number ds ->
  seconds_of (String "-" (ds +:+ " seconds"))
  = PyFloat.of_decimal true (PyParse.digits_value 0 ds) 0.
Proof.
  intros Hn. pose proof Hn as [Hne H]. unfold seconds_of.
  assert (R : PyStr.replace (String "-" (ds +:+ " seconds")) "seconds" ""
              = String "-" (ds +:+ " ")).
  { unfold PyStr.replace. cbn [PyStr.replace_from String.prefix].
    destruct (ascii_dec "s" "-") as [E | _]; [discriminate E |].
    f_equal. apply (replace_seconds ds H). }
  assert (T : PyStr.strip (String "-" (ds +:+ " ")) = String "-" ds).
  { unfold PyStr.strip, PyStr.strip_with. cbn [PyStr.lstrip_with].
    change (PyStr.is_space "-") with false. cbv iota.
    cbn [PyStr.rstrip_with]. rewrite (rstrip_blank ds H).
    destruct ds; [congruence | reflexivity]. }
  rewrite R, T, (float_of_negative_number ds Hn). reflexivity.
Qed.

Lemma wait_of_string (action : action_record) (W H : Z) (s : string) :
  ~ is_finish action ->
  has_name action "Wait" ->
  action !! "duration" = Some (VStr s) ->
  convert_action_to_lybic action W H
  = (ms ← truncated_milliseconds (seconds_of s); Ok (WaitAction ms)).
Proof.
  intros Hf Hn Hs. unfold convert_action_to_lybic.
  rewrite (finish_test action Hf), !(name_test action "Wait" Hn).
  rewrite (dict_get_some action "duration" _ _ Hs).
  cbn [String.eqb Ascii.eqb Bool.eqb orb]. rewrite parse_duration_str.
  unfold truncated_milliseconds. cbn [mbind result_bind rbind].
  destruct (PyFloat.mul_int (seconds_of s) 1000); reflexivity.
Qed.

(** X8.  A negative duration is not rejected: a minus sign, a run of
    digits that denotes [n] and " seconds" give a wait of [- (1000 * n)]
    milliseconds, as long as [1000 * n < 2 ^ 53]. *)
Theorem negative_wait_is_emitted (action : action_record) (W H : Z) (ds : string) :
  ~ is_finish action ->
  has_name action "Wait" ->
  is_number ds ->
  1000 * PyParse.digits_value 0 ds < 2 ^ 53 ->
  action !! "duration" = Some (VStr (String "-" (ds +:+ " seconds"))) ->
  convert_action_to_lybic action W H
  = Ok (WaitAction (- (1000 * PyParse.digits_value 0 ds))).
Proof.
  intros Hf Hn Hd Hb Hs.
  assert (H0 : 0 <= PyParse.digits_value 0 ds)
    by (apply digits_value_nonneg; [apply Hd | lia]).
  rewrite (wait_of_string action W H _ Hf Hn Hs).
  rewrite (seconds_of_negative_number ds Hd), (of_decimal_opp _ H0).
  rewrite truncated_milliseconds_opp, whole_milliseconds by assumption.
  reflexivity.
Qed.

Lemma negative_wait_is_emitted_witness :
  convert_action_to_lybic (wait_record "-5 seconds") 1080 2400
  = Ok (WaitAction (- (1000 * PyParse.digits_value 0 "5"))).
Proof.
  apply (negative_wait_is_emitted (wait_record "-5 seconds") 1080 2400 "5").
  - unfold is_finish. vm_compute. discriminate.
  - vm_compute. reflexivity.
  - split; [discriminate | reflexivity].
  - vm_compute. reflexivity.
  - vm_compute. reflexivity.
Defined.

(** X9.  The unit is optional and needs no blank: a run of digits that
    denotes [n], alone or directly followed by "seconds", gives a wait of
    [1000 * n] milliseconds, as long as [1000 * n < 2 ^ 53]. *)
Theorem wait_unit_is_optional (action : action_record) (W H : Z) (ds : string) :
  ~ is_finish action ->
  has_name action "Wait" ->
  is_number ds ->
  1000 * PyParse.digits_value 0 ds < 2 ^ 53 ->
  action !! "duration" = Some (VStr ds)
  \/ action !! "duration" = Some (VStr (ds +:+ "seconds")) ->
  convert_action_to_lybic action W H
  = Ok (WaitAction (1000 * PyParse.digits_value 0 ds)).
Proof.
  intros Hf Hn Hd Hb Hs.
  assert (H0 : 0 <= PyParse.digits_value 0 ds)
    by (apply digits_value_nonneg; [apply Hd | lia]).
  destruct (seconds_of_bare_number ds Hd) as [S1 S2].
  destruct Hs as [Hs | Hs]; rewrite (wait_of_string action W H _ Hf Hn Hs).
  - rewrite S1, whole_milliseconds by assumption. reflexivity.
  - rewrite S2, whole_milliseconds by assumption. reflexivity.
Qed.

Lemma wait_unit_is_optional_witness :
  convert_action_to_lybic (wait_record "3") 1080 2400
  = Ok (WaitAction (1000 * PyParse.digits_value 0 "3")).
Proof.
  apply (wait_unit_is_optional (wait_record "3") 1080 2400 "3").
  - unfold is_finish. vm_compute. discriminate.
  - vm_compute. reflexivity.
  - split; [discriminate | reflexivity].
  - vm_compute. reflexivity.
  - left. vm_compute. reflexivity.
Defined.

(** ** Swipes *)

Lemma swipe_of_points (action : action_record) (W H sx sy ex ey : Z) :
  ~ is_finish action ->
  has_name action "Swipe" ->
  convert_relative_to_absolute W H (dict_get action "start" default_point)
    = Ok (sx, sy) ->
  convert_relative_to_absolute W H (dict_get action "end" default_point)
    = Ok (ex, ey) ->
  convert_action_to_lybic action W H
  = Ok (TouchSwipeAction (mkPixelLength sx) (mkPixelLength sy)
          (if Z.abs (ex - sx) >? Z.abs (ey - sy)
           then if ex - sx >? 0 then "right" else "left"
           else if ey - sy >? 0 then "down" else "up")
          (mkPixelLength
             (if Z.abs (ex - sx) >? Z.abs (ey - sy)
              then Z.abs (ex - sx) else Z.abs (ey - sy)))).
Proof.
  intros Hf Hn Hs He. unfold convert_action_to_lybic.
  rewrite (finish_test action Hf), !(name_test action "Swipe" Hn), Hs, He.
  cbn [String.eqb Ascii.eqb Bool.eqb mbind result_bind rbind].
  destruct (Z.abs (ex - sx) >? Z.abs (ey - sy)); reflexivity.
Qed.

Lemma dict_get_reversed (action : action_record) :
  dict_get (reversed action) "start" default_point
    = dict_get action "end" default_point
  /\ dict_get (reversed action) "end" default_point
     = dict_get action "start" default_point
  /\ (is_finish (reversed action) <-> is_finish action)
  /\ (has_name (reversed action) "Swipe" <-> has_name action "Swipe").
Proof.
  unfold reversed, is_finish, has_name. repeat split.
  - unfold dict_get at 1. rewrite lookup_insert_eq. reflexivity.
  - unfold dict_get at 1. rewrite lookup_insert_ne by discriminate.
    rewrite lookup_insert_eq. reflexivity.
  - rewrite !lookup_insert_ne by discriminate. auto.
  - rewrite !lookup_insert_ne by discriminate. auto.
  - rewrite !lookup_insert_ne by discriminate. auto.
  - rewrite !lookup_insert_ne by discriminate. auto.
Qed.

(** X10.  Exchanging the two points of a swipe turns it around: when the
    points convert to different pixels, the reversed record gives a swipe
    from the other end, in the opposite direction, over the same
    distance. *)
Theorem reversed_swipe_turns_around (action : action_record) (W H sx sy ex ey : Z) :
  ~ is_finish action ->
  has_name action "Swipe" ->
  convert_relative_to_absolute W H (dict_get action "start" default_point)
    = Ok (sx, sy) ->
  convert_relative_to_absolute W H (dict_get action "end" default_point)
    = Ok (ex, ey) ->
  (sx, sy) <> (ex, ey) ->
  exists direction distance,
    convert_action_to_lybic action W H
      = Ok (TouchSwipeAction (mkPixelLength sx) (mkPixelLength sy)
              direction (mkPixelLength distance))
    /\ convert_action_to_lybic (reversed action) W H
       = Ok (TouchSwipeAction (mkPixelLength ex) (mkPixelLength ey)
               (opposite direction) (mkPixelLength distance)).
Proof.
  intros Hf Hn Hs He Hne.
  destruct (dict_get_reversed action) as (Rs & Re & Rf & Rn).
  rewrite (swipe_of_points action W H sx sy ex ey Hf Hn Hs He).
  rewrite (swipe_of_points (reversed action) W H ex ey sx sy);
    [| rewrite Rf; exact Hf | rewrite Rn; exact Hn
     | rewrite Rs; exact He | rewrite Re; exact Hs].
  assert (D : ex - sx <> 0 \/ ey - sy <> 0).
  { destruct (Z.eq_dec (ex - sx) 0) as [E1 | E1]; [| left; exact E1].
    destruct (Z.eq_dec (ey - sy) 0) as [E2 | E2]; [| right; exact E2].
    exfalso. apply Hne. f_equal; lia. }
  replace (Z.abs (sx - ex)) with (Z.abs (ex - sx)) by lia.
  replace (Z.abs (sy - ey)) with (Z.abs (ey - sy)) by lia.
  do 2 eexists. split; [reflexivity |].
  destruct (Z.gtb_spec (Z.abs (ex - sx)) (Z.abs (ey - sy))) as [Hgt | Hle].
  - destruct (Z.gtb_spec (ex - sx) 0), (Z.gtb_spec (sx - ex) 0);
      try lia; reflexivity.
  - destruct (Z.gtb_spec (ey - sy) 0), (Z.gtb_spec (sy - ey) 0);
      try lia; reflexivity.
Qed.

Lemma reversed_swipe_turns_around_witness :
  exists direction distance,
    convert_action_to_lybic (swipe_record 500 800 500 200) 1080 2400
      = Ok (TouchSwipeAction (mkPixelLength 540) (mkPixelLength 1920)
              direction (mkPixelLength distance))
    /\ convert_action_to_lybic (reversed (swipe_record 500 800 500 200)) 1080 2400
       = Ok (TouchSwipeAction (mkPixelLength 540) (mkPixelLength 480)
               (opposite direction) (mkPixelLength distance)).
Proof.
  apply (reversed_swipe_turns_around (swipe_record 500 800 500 200)
           1080 2400 540 1920 540 480).
  - unfold is_finish. vm_compute. discriminate.
  - vm_compute. reflexivity.
  - vm_compute. reflexivity.
  - vm_compute. reflexivity.
  - intros E. discriminate E.
Defined.

(** * Further properties of the client *)

(** ** Invariants of the methods *)

Lemma preserves_ret {A : Type} (I : world -> Prop) (a : A) : preserves I (mret a).
Proof. intros w Hw. exact Hw. Qed.

Lemma preserves_bind {A C : Type} (I : world -> Prop) (m : M A) (k : A -> M C) :
  preserves I m -> (forall a, preserves I (k a)) -> preserves I (m ≫= k).
Proof.
  intros Hm Hk w Hw. specialize (Hm w Hw). unfold mbind, M_bind.
  destruct (m w) as [[a | e] w1]; simpl in *; [apply Hk; exact Hm | exact Hm].
Qed.

Lemma preserves_get_self (I : world -> Prop) : preserves I get_self.
Proof. intros w Hw. exact Hw. Qed.

Lemma preserves_get_log (I : world -> Prop) : preserves I get_log.
Proof. intros w Hw. exact Hw. Qed.

Lemma preserves_lift {A : Type} (I : world -> Prop) (r : result A) :
  preserves I (lift r).
Proof. intros w Hw. exact Hw. Qed.

Lemma preserves_try_except {A : Type} (I : world -> Prop) (body : M A)
    (handler : exn -> M A) :
  preserves I body -> (forall e, preserves I (handler e)) ->
  preserves I (try_except body handler).
Proof.
  intros Hb Hh w Hw. specialize (Hb w Hw). unfold try_except.
  destruct (body w) as [[a | e] w1]; simpl in *; [exact Hb | apply Hh; exact Hb].
Qed.

Lemma preserves_update (I : world -> Prop) (f : LybicPhoneClient -> LybicPhoneClient) :
  (forall c l, I (mkWorld c l) -> I (mkWorld (f c) l)) -> preserves I (update f).
Proof. intros H [c l] Hw. apply H. exact Hw. Qed.

Lemma preserves_emit (I : world -> Prop) (e : event) :
  (forall c l, I (mkWorld c l) -> I (mkWorld c (l ++ [e]))) -> preserves I (emit e).
Proof. intros H [c l] Hw. apply H. exact Hw. Qed.

Lemma preserves_request {A : Type} (I : world -> Prop) (B : backend) (e : event)
    (answer : backend -> list event -> result A) :
  (forall c l, I (mkWorld c l) -> I (mkWorld c (l ++ [e]))) ->
  preserves I (request B e answer).
Proof.
  intros H. unfold request.
  apply preserves_bind; [apply preserves_emit; exact H |]. intros _.
  apply preserves_bind; [apply preserves_get_log |]. intros l.
  apply preserves_lift.
Qed.

Lemma preserves_all (I : world -> Prop)
    (run : operation -> world -> world) (ops : list operation) (w : world) :
  (forall op w, In op ops -> I w -> I (run op w)) ->
  I w -> I (fold_left (fun w op => run op w) ops w).
Proof.
  revert w. induction ops as [| op ops IH]; intros w H Hw; [exact Hw |].
  simpl. apply IH.
  - intros op' w' Hin. apply H. right. exact Hin.
  - apply H; [left; reflexivity | exact Hw].
Qed.

Section CallInvariants.

Variable B : backend.
Variable APP_PACKAGES : list (string * string).
Variable b64decode_utf8 : string -> result string.

(** A property of the client and its log that the two local steps keep, and
    that neither a remote request nor a new identifier or screen size
    breaks. *)
Variable I : world -> Prop.
Hypothesis I_loop : preserves I (_ensure_loop B).
Hypothesis I_client : preserves I _ensure_client.
Hypothesis I_remote : forall e c l,
  is_remote e = true -> I (mkWorld c l) -> I (mkWorld c (l ++ [e])).
Hypothesis I_sandbox_id : forall v c l,
  I (mkWorld c l) -> I (mkWorld (set_sandbox_id v c) l).
Hypothesis I_screen : forall wh c l,
  I (mkWorld c l) -> I (mkWorld (set_screen wh c) l).

Lemma preserves_remote {A : Type} (e : event)
    (answer : backend -> list event -> result A) :
  is_remote e = true -> preserves I (request B e answer).
Proof. intros He. apply preserves_request. intros c l. apply I_remote, He. Qed.

Lemma preserves_ensure_sandbox : preserves I (_ensure_sandbox B).
Proof.
  unfold _ensure_sandbox.
  apply preserves_bind; [apply preserves_get_self |]. intros c.
  assert (preserves I
    (client ← _ensure_client;
     c ← get_self;
     id ← request B (SandboxCreate "phone-agent-sandbox"
                      (LybicConfig.sandbox_shape (config c))
                      (LybicConfig.sandbox_max_life_seconds (config c)))
             sandbox_create;
     _ ← update (set_sandbox_id (Some id));
     mret id)) as Hcreate.
  { apply preserves_bind; [apply I_client |]. intros _.
    apply preserves_bind; [apply preserves_get_self |]. intros c'.
    apply preserves_bind; [apply preserves_remote; reflexivity |]. intros id.
    apply preserves_bind; [apply preserves_update, I_sandbox_id |]. intros _.
    apply preserves_ret. }
  destruct (sandbox_id c) as [[| a s] |];
    [exact Hcreate | apply preserves_ret | exact Hcreate].
Qed.

Lemma preserves_get_screenshot_async : preserves I (_get_screenshot_async B).
Proof.
  unfold _get_screenshot_async.
  apply preserves_bind; [apply preserves_ensure_sandbox |]. intros id.
  apply preserves_bind; [apply I_client |]. intros _.
  apply preserves_bind; [apply preserves_remote; reflexivity |].
  intros [[url img] data].
  apply preserves_bind.
  - destruct img; [apply preserves_update, I_screen | apply preserves_ret].
  - intros _. apply preserves_bind; [apply preserves_get_self |]. intros c.
    apply preserves_ret.
Qed.

Lemma preserves_execute_action_async (a : lybic_action) :
  preserves I (_execute_action_async B a).
Proof.
  unfold _execute_action_async.
  apply preserves_bind; [apply preserves_ensure_sandbox |]. intros id.
  apply preserves_bind; [apply I_client |]. intros _.
  apply preserves_remote; reflexivity.
Qed.

Lemma preserves_get_current_app_async :
  preserves I (_get_current_app_async B APP_PACKAGES b64decode_utf8).
Proof.
  unfold _get_current_app_async.
  apply preserves_try_except; [| intros e; apply preserves_ret].
  unfold _get_current_app_try.
  apply preserves_bind; [apply preserves_ensure_sandbox |]. intros id.
  apply preserves_bind; [apply I_client |]. intros _.
  apply preserves_bind; [apply preserves_remote; reflexivity |]. intros out.
  apply preserves_bind; [apply preserves_lift |]. intros output.
  destruct (scan_focus APP_PACKAGES (PyStr.split_lines output)); apply preserves_ret.
Qed.

(** What the three coroutines keep, once the loop is there. *)
Lemma preserves_coroutine (op : operation) (w : world) :
  is_call op = true -> I w ->
  I (match op with
     | OpScreenshot => snd (_get_screenshot_async B w)
     | OpExecute a => snd (_execute_action_async B a w)
     | _ => snd (_get_current_app_async B APP_PACKAGES b64decode_utf8 w)
     end).
Proof.
  intros Hop Hw. destruct op; try discriminate.
  - apply preserves_get_screenshot_async, Hw.
  - apply preserves_execute_action_async, Hw.
  - apply preserves_get_current_app_async, Hw.
Qed.

Lemma preserves_call (op : operation) (w : world) :
  is_call op = true -> I w -> I (perform B APP_PACKAGES b64decode_utf8 op w).
Proof.
  intros Hop Hw. destruct op; try discriminate; simpl.
  - apply (preserves_bind I (_ensure_loop B) (fun _ => _get_screenshot_async B));
      [apply I_loop | intros _; apply preserves_get_screenshot_async | exact Hw].
  - apply (preserves_bind I (_ensure_loop B) (fun _ => _execute_action_async B action));
      [apply I_loop | intros _; apply preserves_execute_action_async | exact Hw].
  - apply (preserves_bind I (_ensure_loop B)
             (fun _ => _get_current_app_async B APP_PACKAGES b64decode_utf8));
      [apply I_loop | intros _; apply preserves_get_current_app_async | exact Hw].
Qed.

End CallInvariants.

(** ** The handle is entered and left in pairs *)

Lemma count_enters_app (l1 l2 : list event) :
  count_enters (l1 ++ l2) = (count_enters l1 + count_enters l2)%nat.
Proof. unfold count_enters. rewrite filter_app, length_app. reflexivity. Qed.

Lemma count_enters_one (e : event) :
  count_enters [e] = if is_enter e then 1%nat else 0%nat.
Proof. destruct e; reflexivity. Qed.

Lemma count_exits_one (e : event) :
  count_exits [e] = if is_exit e then 1%nat else 0%nat.
Proof. destruct e; reflexivity. Qed.

Lemma count_enters_release (c : LybicPhoneClient) : count_enters (release_events c) = 0%nat.
Proof. unfold release_events. destruct (_client c), (_initialized c); reflexivity. Qed.

Lemma count_enters_stop (B : backend) (c : LybicPhoneClient) (l : list event) :
  count_enters (stop_events B c l) = 0%nat.
Proof.
  unfold stop_events.
  destruct (_loop c), (loop_is_running B l), (_loop_thread c); reflexivity.
Qed.

Lemma release_events_open (c : LybicPhoneClient) :
  count_exits (release_events c) = if handle_open c then 1%nat else 0%nat.
Proof.
  unfold release_events, handle_open.
  destruct (_client c), (_initialized c); reflexivity.
Qed.

Lemma handle_open_closed (c : LybicPhoneClient) : handle_open (closed c) = false.
Proof.
  unfold closed, handle_open.
  destruct (_client c) eqn:E, (_initialized c) eqn:E'; simpl; rewrite ?E, ?E'; reflexivity.
Qed.

Lemma paired_event (e : event) (c : LybicPhoneClient) (l : list event) :
  is_enter e = false -> is_exit e = false ->
  paired (mkWorld c l) -> paired (mkWorld c (l ++ [e])).
Proof.
  intros He Hx. unfold paired. simpl.
  rewrite count_enters_app, count_exits_app, count_enters_one, count_exits_one, He, Hx.
  lia.
Qed.

Lemma paired_ensure_loop (B : backend) : preserves paired (_ensure_loop B).
Proof.
  unfold _ensure_loop.
  apply preserves_bind; [apply preserves_get_self |]. intros c.
  apply preserves_bind; [apply preserves_get_log |]. intros l.
  destruct (bool_decide (_loop c = None) || negb (loop_is_running B l)).
  - apply preserves_bind; [apply preserves_update; intros c' l' H; exact H |].
    intros _. apply preserves_emit. intros c' l'. apply paired_event; reflexivity.
  - apply preserves_ret.
Qed.

Lemma paired_ensure_client : preserves paired _ensure_client.
Proof.
  intros [c l]. unfold paired, _ensure_client, mbind, M_bind, get_self. simpl.
  unfold handle_open. destruct (_client c) eqn:E; simpl.
  - rewrite E. trivial.
  - rewrite count_enters_app, count_exits_app, count_enters_one, count_exits_one.
    simpl. lia.
Qed.

Lemma close_balances (B : backend) (w : world) :
  paired w ->
  count_enters (log (snd (close B w))) = count_exits (log (snd (close B w)))
  /\ handle_open (self (snd (close B w))) = false.
Proof.
  intros Hw. rewrite close_run. simpl. split; [| apply handle_open_closed].
  unfold paired in Hw.
  rewrite !count_enters_app, !count_exits_app, count_enters_release,
    count_enters_stop, count_exits_stop, release_events_open. lia.
Qed.

Lemma paired_perform (B : backend) (APP_PACKAGES : list (string * string))
    (b64decode_utf8 : string -> result string) (op : operation) (w : world) :
  paired w -> paired (perform B APP_PACKAGES b64decode_utf8 op w).
Proof.
  intros Hw. destruct (is_call op) eqn:Hop.
  - apply preserves_call; try assumption.
    + apply paired_ensure_loop.
    + apply paired_ensure_client.
    + intros e c l He. apply paired_event; destruct e; try discriminate; reflexivity.
    + intros v c l H. exact H.
    + intros wh c l H. exact H.
  - destruct op; try discriminate. simpl.
    destruct (close_balances B w Hw) as [E O].
    unfold paired. rewrite E, O. lia.
Qed.

(** X11. Whatever is called on a new client, in whatever order and however
    the calls end, the handle of the SDK is entered and left in pairs: it
    was left as often as it was entered while the client holds no open
    handle, and once less while it holds one; and after a last [close] it
    was left exactly as often as it was entered. *)
Theorem handle_is_entered_and_left_in_pairs (B : backend)
    (APP_PACKAGES : list (string * string))
    (b64decode_utf8 : string -> result string)
    (cfg : LybicConfig.t) (ops : list operation) :
  let w := perform_all B APP_PACKAGES b64decode_utf8 ops (mkWorld (__init__ cfg) []) in
  count_enters (log w)
  = (count_exits (log w) + if handle_open (self w) then 1 else 0)%nat
  /\ count_enters (log (snd (close B w))) = count_exits (log (snd (close B w)))
  /\ handle_open (self (snd (close B w))) = false.
Proof.
  intros w.
  assert (paired w) as Hw.
  { apply (preserves_all paired (perform B APP_PACKAGES b64decode_utf8)).
    - intros op w' _. apply paired_perform.
    - reflexivity. }
  split; [exact Hw | apply close_balances; exact Hw].
Qed.

(** ** One loop serves all calls *)

Lemma count_loop_starts_app (l1 l2 : list event) :
  count_loop_starts (l1 ++ l2) = (count_loop_starts l1 + count_loop_starts l2)%nat.
Proof. unfold count_loop_starts. rewrite filter_app, length_app. reflexivity. Qed.

Lemma count_loop_starts_one (e : event) :
  count_loop_starts [e] = if is_loop_start e then 1%nat else 0%nat.
Proof. destruct e; reflexivity. Qed.

Lemma count_loop_starts_cons (e : event) (l : list event) :
  count_loop_starts (e :: l)
  = ((if is_loop_start e then 1 else 0) + count_loop_starts l)%nat.
Proof.
  change (e :: l) with ([e] ++ l).
  rewrite count_loop_starts_app, count_loop_starts_one. reflexivity.
Qed.

Lemma loop_start_logged (l : list event) :
  count_loop_starts l <> 0%nat -> existsb is_loop_start l = true.
Proof.
  induction l as [| e l IH]; [intros H; exfalso; apply H; reflexivity |].
  rewrite count_loop_starts_cons. simpl.
  destruct (is_loop_start e); [reflexivity |]. simpl. exact IH.
Qed.

Lemma one_loop_event (e : event) (c : LybicPhoneClient) (l : list event) :
  is_loop_start e = false -> is_loop_stop e = false ->
  one_loop (mkWorld c l) -> one_loop (mkWorld c (l ++ [e])).
Proof.
  intros Hs Hp [H1 H2]. unfold one_loop in *. simpl in *.
  rewrite count_loop_starts_app, count_loop_starts_one, Hs, existsb_app, H2.
  simpl. rewrite Hp. split; [lia | reflexivity].
Qed.

Lemma ensure_loop_starts (B : backend) (w : world) :
  runs_until_stopped B -> one_loop w -> started (snd (_ensure_loop B w)).
Proof.
  intros HB [H1 H2]. destruct w as [c l]. simpl in *.
  unfold _ensure_loop, mbind, M_bind, get_self, get_log. simpl.
  destruct (_loop c) as [n |] eqn:E.
  - rewrite HB; [| apply loop_start_logged; lia | exact H2].
    simpl. split; [split |]; simpl; rewrite ?E; auto.
  - simpl. split; [split |]; simpl; [| | discriminate].
    + rewrite count_loop_starts_app, count_loop_starts_one. simpl. lia.
    + rewrite existsb_app, H2. reflexivity.
Qed.

Lemma started_ensure_loop (B : backend) :
  runs_until_stopped B -> preserves started (_ensure_loop B).
Proof. intros HB w [Hw _]. apply ensure_loop_starts; assumption. Qed.

Lemma started_ensure_client : preserves started _ensure_client.
Proof.
  intros [c l] [[H1 H2] H3]. unfold started, one_loop in *. simpl in *.
  unfold _ensure_client, mbind, M_bind, get_self. simpl.
  destruct (_client c); simpl; [auto |].
  rewrite count_loop_starts_app, count_loop_starts_one, existsb_app, H2. simpl.
  split; [split; [lia | reflexivity] | exact H3].
Qed.

Lemma started_remote (e : event) (c : LybicPhoneClient) (l : list event) :
  is_remote e = true -> started (mkWorld c l) -> started (mkWorld c (l ++ [e])).
Proof.
  intros He [H1 H2]. split; [| exact H2].
  apply one_loop_event; [| | exact H1]; destruct e; try discriminate; reflexivity.
Qed.

Lemma started_call (B : backend) (APP_PACKAGES : list (string * string))
    (b64decode_utf8 : string -> result string) (op : operation) (w : world) :
  runs_until_stopped B -> is_call op = true ->
  started w -> started (perform B APP_PACKAGES b64decode_utf8 op w).
Proof.
  intros HB Hop. apply preserves_call; try assumption.
  - apply started_ensure_loop, HB.
  - apply started_ensure_client.
  - apply started_remote.
  - intros v c l H. exact H.
  - intros wh c l H. exact H.
Qed.

Lemma first_call_starts (B : backend) (APP_PACKAGES : list (string * string))
    (b64decode_utf8 : string -> result string) (op : operation) (w : world) :
  runs_until_stopped B -> is_call op = true ->
  one_loop w -> started (perform B APP_PACKAGES b64decode_utf8 op w).
Proof.
  intros HB Hop Hw. pose proof (ensure_loop_starts B w HB Hw) as H0.
  pose proof (preserves_coroutine B APP_PACKAGES b64decode_utf8 started
                started_ensure_client started_remote
                (fun v c l H => H) (fun wh c l H => H) op
                (snd (_ensure_loop B w)) Hop H0) as H1.
  destruct op; try discriminate; simpl;
    unfold get_screenshot_sync, execute_action_sync, get_current_app,
      _run_async, mbind, M_bind;
    destruct (_ensure_loop B w) as [[[] | e] w0]; simpl in *;
    first [exact H1 | exact H0].
Qed.

(** X12. While a loop, once started, runs until it is asked to stop, the
    screenshot, execute-action and current-app calls of one client share
    one loop: however many of them are made on a new client, and however
    they end, the first one starts the loop and no later one starts
    another. *)
Theorem calls_share_one_loop (B : backend) (APP_PACKAGES : list (string * string))
    (b64decode_utf8 : string -> result string)
    (cfg : LybicConfig.t) (ops : list operation) :
  runs_until_stopped B -> forallb is_call ops = true ->
  let w := perform_all B APP_PACKAGES b64decode_utf8 ops (mkWorld (__init__ cfg) []) in
  count_loop_starts (log w) = match ops with [] => 0%nat | _ :: _ => 1%nat end.
Proof.
  intros HB Hops w. destruct ops as [| op ops]; [reflexivity |].
  simpl in Hops. apply andb_true_iff in Hops as [Hop Hops].
  assert (started w) as [[H1 _] H2].
  { unfold w. simpl.
    apply (preserves_all started (perform B APP_PACKAGES b64decode_utf8)).
    - intros op' w' Hin. apply started_call; [exact HB |].
      rewrite forallb_forall in Hops. apply Hops, Hin.
    - apply first_call_starts; [exact HB | exact Hop |]. split; reflexivity. }
  rewrite H1. destruct (_loop (self w)); [reflexivity | congruence].
Qed.

Lemma calls_share_one_loop_witness :
  count_loop_starts
    (log (perform_all demo_backend demo_packages plain_text
            [OpScreenshot; OpExecute AndroidBackAction; OpCurrentApp; OpScreenshot]
            (mkWorld (__init__ demo_config) [])))
  = 1%nat.
Proof.
  apply (calls_share_one_loop demo_backend demo_packages plain_text demo_config
           [OpScreenshot; OpExecute AndroidBackAction; OpCurrentApp; OpScreenshot]).
  - intros l H _. exact H.
  - reflexivity.
Defined.

(** ** The screen size *)

Lemma ensure_loop_returns (B : backend) (w : world) : fst (_ensure_loop B w) = Ok tt.
Proof.
  unfold _ensure_loop, mbind, M_bind, get_self, get_log. simpl.
  destruct (bool_decide (_loop (self w) = None) || negb (loop_is_running B (log w)));
    reflexivity.
Qed.

Lemma run_async_run {A : Type} (B : backend) (coro : M A) (w : world) :
  _run_async B coro w = coro (snd (_ensure_loop B w)).
Proof.
  unfold _run_async, mbind, M_bind. pose proof (ensure_loop_returns B w) as H.
  destruct (_ensure_loop B w) as [r w0]. simpl in *. rewrite H. reflexivity.
Qed.

Lemma ensure_client_returns (w : world) :
  exists client, fst (_ensure_client w) = Ok client.
Proof.
  unfold _ensure_client, mbind, M_bind, get_self. simpl.
  destruct (_client (self w)) as [client |]; simpl; eauto.
Qed.

Lemma screen_size_ensure_loop (B : backend) (d : Z * Z) :
  preserves (fun w => screen_size (self w) = d) (_ensure_loop B).
Proof.
  intros [c l] H. unfold _ensure_loop, mbind, M_bind, get_self, get_log. simpl.
  destruct (bool_decide (_loop c = None) || negb (loop_is_running B l)); exact H.
Qed.

Lemma screen_size_ensure_client (d : Z * Z) :
  preserves (fun w => screen_size (self w) = d) _ensure_client.
Proof.
  intros [c l] H. unfold _ensure_client, mbind, M_bind, get_self. simpl.
  destruct (_client c); exact H.
Qed.

Lemma screen_size_ensure_sandbox (B : backend) (d : Z * Z) :
  preserves (fun w => screen_size (self w) = d) (_ensure_sandbox B).
Proof.
  apply preserves_ensure_sandbox.
  - apply screen_size_ensure_client.
  - intros e c l _ H. exact H.
  - intros v c l H. exact H.
Qed.

(** X13. A screenshot that is returned carries the image data of the
    backend's answer, is never marked sensitive, and has the width and height
    the client reports afterwards: those of the image when the answer comes
    with one, and the ones the client had before the call when it does not.
    A screenshot call that raises leaves the client's screen size as it
    was. *)
Theorem screenshot_reports_the_screen (B : backend) (w : world) :
  let w' := snd (get_screenshot_sync B w) in
  match fst (get_screenshot_sync B w) with
  | Ok shot =>
      width shot = screen_width (self w')
      /\ height shot = screen_height (self w')
      /\ is_sensitive shot = false
      /\ exists url img,
           sandbox_get_screenshot B (log w') = Ok (url, img, base64_data shot)
           /\ screen_size (self w')
              = match img with
                | Some size => size
                | None => screen_size (self w)
                end
  | Raise _ => screen_size (self w') = screen_size (self w)
  end.
Proof.
  intros w'. unfold w'. clear w'.
  unfold get_screenshot_sync. rewrite run_async_run.
  pose proof (screen_size_ensure_loop B _ w eq_refl) as H0.
  simpl in H0. set (w0 := snd (_ensure_loop B w)) in *. clearbody w0.
  unfold _get_screenshot_async, mbind, M_bind.
  pose proof (screen_size_ensure_sandbox B _ w0 eq_refl) as H1.
  destruct (_ensure_sandbox B w0) as [[id | e] w1]; simpl in H1;
    [| simpl; congruence].
  pose proof (screen_size_ensure_client _ w1 eq_refl) as H2.
  destruct (_ensure_client w1) as [[client | e] w2]; simpl in H2;
    [| simpl; congruence].
  unfold request, mbind, M_bind, emit, get_log, lift. simpl.
  destruct (sandbox_get_screenshot B (log w2 ++ [SandboxGetScreenshot id]))
    as [[[url [[sw sh] |]] data] | e] eqn:E; simpl.
  - repeat split; try reflexivity. exists url, (Some (sw, sh)).
    split; [exact E | reflexivity].
  - repeat split; try reflexivity. exists url, None.
    split; [exact E | congruence].
  - congruence.
Qed.

(** ** Creation of the sandbox *)

Lemma bind_run {A C : Type} (m : M A) (k : A -> M C) (w : world) :
  (m ≫= k) w
  = match m w with
    | (Ok a, w') => k a w'
    | (Raise e, w') => (Raise e, w')
    end.
Proof. reflexivity. Qed.

Lemma try_except_run {A : Type} (body : M A) (handler : exn -> M A) (w : world) :
  try_except body handler w
  = match body w with
    | (Ok a, w') => (Ok a, w')
    | (Raise e, w') => handler e w'
    end.
Proof. reflexivity. Qed.

Lemma local_steps_refl (w : world) : local_steps w w.
Proof.
  split; [reflexivity |]. split; [reflexivity |].
  exists []. rewrite app_nil_r. auto.
Qed.

Lemma local_steps_trans (w1 w2 w3 : world) :
  local_steps w1 w2 -> local_steps w2 w3 -> local_steps w1 w3.
Proof.
  intros (S1 & C1 & e1 & L1 & F1) (S2 & C2 & e2 & L2 & F2).
  split; [congruence |]. split; [congruence |].
  exists (e1 ++ e2). rewrite L2, L1, app_assoc. split; [reflexivity |].
  apply Forall_app; auto.
Qed.

Lemma ensure_loop_local (B : backend) (w : world) :
  local_steps w (snd (_ensure_loop B w)).
Proof.
  unfold _ensure_loop, mbind, M_bind, get_self, get_log. simpl.
  destruct (bool_decide (_loop (self w) = None) || negb (loop_is_running B (log w)));
    simpl; [| apply local_steps_refl].
  split; [reflexivity |]. split; [reflexivity |].
  eexists. split; [reflexivity |]. repeat constructor.
Qed.

Lemma ensure_client_local (w : world) : local_steps w (snd (_ensure_client w)).
Proof.
  unfold _ensure_client, mbind, M_bind, get_self. simpl.
  destruct (_client (self w)); simpl; [apply local_steps_refl |].
  split; [reflexivity |]. split; [reflexivity |].
  eexists. split; [reflexivity |]. repeat constructor.
Qed.

Lemma create_request_local (w w' : world) :
  local_steps w w' -> create_request (self w') = create_request (self w).
Proof. intros (_ & C & _). unfold create_request. rewrite C. reflexivity. Qed.

Lemma local_steps_unassigned (w w' : world) :
  local_steps w w' -> truthy (sandbox_id (self w)) = false ->
  truthy (sandbox_id (self w')) = false.
Proof. intros (S & _) H. rewrite S. exact H. Qed.

(** Without an identifier, [_ensure_sandbox] asks for a sandbox. *)
Lemma ensure_sandbox_run (B : backend) (w : world) :
  truthy (sandbox_id (self w)) = false ->
  let w1 := snd (_ensure_client w) in
  let l := log w1 ++ [create_request (self w1)] in
  _ensure_sandbox B w
  = match sandbox_create B l with
    | Ok id => (Ok id, created id w)
    | Raise e => (Raise e, mkWorld (self w1) l)
    end.
Proof.
  intros Hw w1 l. unfold created. fold w1. unfold l, w1. clear l w1.
  destruct (ensure_client_returns w) as [client Hc].
  unfold _ensure_sandbox. rewrite bind_run. unfold get_self at 1.
  assert (forall k : M string,
    match sandbox_id (self w) with
    | Some (String a s) => mret (String a s)
    | _ => k
    end w = k w) as ->.
  { intros k. destruct (sandbox_id (self w)) as [[| a s] |];
      [reflexivity | discriminate | reflexivity]. }
  rewrite bind_run. destruct (_ensure_client w) as [r w1]. simpl in Hc. subst r.
  simpl. unfold request, create_request, mbind, M_bind, emit, get_log, lift, update.
  simpl. destruct (sandbox_create B _); reflexivity.
Qed.

Lemma created_assigned (id : string) (w : world) :
  id <> "" -> assigned id (created id w).
Proof. intros H. split; [reflexivity | exact H]. Qed.

Lemma ensure_sandbox_kept (B : backend) (id : string) (w : world) :
  assigned id w -> _ensure_sandbox B w = (Ok id, w).
Proof.
  intros [H1 H2]. unfold _ensure_sandbox, mbind, M_bind, get_self. simpl.
  rewrite H1. destruct id; [congruence | reflexivity].
Qed.

(** Once the sandbox is there, the call goes on as on a client that had
    it from the start. *)
Lemma ensure_sandbox_then {A : Type} (B : backend) (k : string -> M A)
    (id : string) (w : world) :
  truthy (sandbox_id (self w)) = false ->
  (forall l, sandbox_create B l = Ok id) -> id <> "" ->
  (_ensure_sandbox B ≫= k) w = (_ensure_sandbox B ≫= k) (created id w).
Proof.
  intros Hw HB Hid. rewrite !bind_run.
  rewrite (ensure_sandbox_run B w Hw). simpl. rewrite HB.
  rewrite (ensure_sandbox_kept B id (created id w) (created_assigned id w Hid)).
  reflexivity.
Qed.

Lemma ensure_sandbox_fails {A : Type} (B : backend) (k : string -> M A)
    (e : exn) (w : world) :
  truthy (sandbox_id (self w)) = false ->
  (forall l, sandbox_create B l = Raise e) ->
  fst ((_ensure_sandbox B ≫= k) w) = Raise e
  /\ creation_only w (snd ((_ensure_sandbox B ≫= k) w)).
Proof.
  intros Hw HB. rewrite bind_run, (ensure_sandbox_run B w Hw). simpl. rewrite HB.
  simpl. split; [reflexivity |].
  destruct (ensure_client_local w) as (S & C & evs & L & F).
  split; [exact S |]. exists evs. split; [| exact F].
  rewrite L, (create_request_local w _ (ensure_client_local w)), app_assoc.
  reflexivity.
Qed.

Lemma creation_only_after (w w0 w' : world) :
  local_steps w w0 -> creation_only w0 w' -> creation_only w w'.
Proof.
  intros (S0 & C0 & e0 & L0 & F0) (S1 & e1 & L1 & F1).
  split; [congruence |]. exists (e0 ++ e1). split; [| apply Forall_app; auto].
  rewrite L1, L0. unfold create_request. rewrite C0, <- !app_assoc. reflexivity.
Qed.

(** X14. While the backend refuses to create a sandbox, a call on a client
    without an identifier reports it: the screenshot and the execute-action
    call raise the backend's exception as it is, and the current-app lookup
    answers "System Home".  In each case the client still has no identifier
    afterwards, and the creation request is the only thing that was asked of
    the backend. *)
Theorem creation_failure_is_reported (B : backend)
    (APP_PACKAGES : list (string * string))
    (b64decode_utf8 : string -> result string) (e : exn) (w : world) :
  truthy (sandbox_id (self w)) = false ->
  (forall l, sandbox_create B l = Raise e) ->
  (fst (get_screenshot_sync B w) = Raise e
   /\ creation_only w (snd (get_screenshot_sync B w)))
  /\ (forall a, fst (execute_action_sync B a w) = Raise e
        /\ creation_only w (snd (execute_action_sync B a w)))
  /\ (fst (get_current_app B APP_PACKAGES b64decode_utf8 w) = Ok "System Home"
      /\ creation_only w (snd (get_current_app B APP_PACKAGES b64decode_utf8 w))).
Proof.
  intros Hw HB.
  pose proof (ensure_loop_local B w) as H0.
  pose proof (local_steps_unassigned _ _ H0 Hw) as Hw0.
  split; [| split].
  - unfold get_screenshot_sync. rewrite run_async_run.
    destruct (ensure_sandbox_fails B
      (fun sandbox_id =>
         client ← _ensure_client;
         '(screenshot_url, img, base64_str) ←
           request B (SandboxGetScreenshot sandbox_id) sandbox_get_screenshot;
         _ ← match img with
             | Some size => update (set_screen size)
             | None => mret tt
             end;
         c ← get_self;
         mret (mkScreenshot base64_str (_screen_width c) (_screen_height c) false))
      e _ Hw0 HB) as [R C].
    split; [exact R | exact (creation_only_after _ _ _ H0 C)].
  - intros a. unfold execute_action_sync. rewrite run_async_run.
    destruct (ensure_sandbox_fails B
      (fun sandbox_id =>
         client ← _ensure_client;
         request B (SandboxExecuteAction sandbox_id a false)
           sandbox_execute_sandbox_action)
      e _ Hw0 HB) as [R C].
    split; [exact R | exact (creation_only_after _ _ _ H0 C)].
  - unfold get_current_app. rewrite run_async_run.
    unfold _get_current_app_async. rewrite try_except_run.
    destruct (ensure_sandbox_fails B
      (fun sandbox_id =>
         client ← _ensure_client;
         stdoutBase64 ←
           request B (SandboxExecuteProcess sandbox_id "dumpsys" ["window"])
             sandbox_execute_process;
         output ← lift (b64decode_utf8 stdoutBase64);
         match scan_focus APP_PACKAGES (PyStr.split_lines output) with
         | Some app_name => mret app_name
         | None => mret "System Home"
         end)
      e _ Hw0 HB) as [R C].
    unfold _get_current_app_try.
    destruct ((_ensure_sandbox B ≫= _) (snd (_ensure_loop B w))) as [r w1].
    simpl in R, C. subst r. simpl.
    split; [reflexivity | exact (creation_only_after _ _ _ H0 C)].
Qed.

Lemma creation_failure_is_reported_witness :
  fst (get_screenshot_sync failing_backend
         (mkWorld (__init__ LybicConfig.default) []))
  = Raise (BackendError "unreachable").
Proof.
  destruct (creation_failure_is_reported failing_backend demo_packages plain_text
              (BackendError "unreachable")
              (mkWorld (__init__ LybicConfig.default) []))
    as ((E & _) & _).
  - reflexivity.
  - intros l. reflexivity.
  - exact E.
Defined.

Lemma count_creates_app (l1 l2 : list event) :
  count_creates (l1 ++ l2) = (count_creates l1 + count_creates l2)%nat.
Proof. unfold count_creates. rewrite filter_app, length_app. reflexivity. Qed.

Lemma count_creates_cons (e : event) (l : list event) :
  count_creates (e :: l) = ((if is_create e then 1 else 0) + count_creates l)%nat.
Proof.
  change (e :: l) with ([e] ++ l). rewrite count_creates_app.
  destruct e; reflexivity.
Qed.

Lemma count_creates_none (l : list event) :
  Forall (fun e => is_create e = false) l -> count_creates l = 0%nat.
Proof.
  induction 1 as [| e l He _ IH]; [reflexivity |].
  rewrite count_creates_cons, He, IH. reflexivity.
Qed.

Lemma local_is_no_create (l : list event) :
  Forall (fun e => is_remote e = false) l -> Forall (fun e => is_create e = false) l.
Proof.
  intros H. eapply Forall_impl; [exact H |].
  intros e. destruct e; simpl; congruence.
Qed.

Lemma local_addresses_none (l : list event) :
  Forall (fun e => is_remote e = false) l ->
  Forall (fun e => event_sandbox e = None) l.
Proof.
  intros H. eapply Forall_impl; [exact H |].
  intros e. destruct e; simpl; congruence.
Qed.

(** A call on a client without an identifier, when the backend grants the
    sandbox [id]: the call goes on from [created id], keeping [id]. *)
Lemma call_creates (B : backend) (APP_PACKAGES : list (string * string))
    (b64decode_utf8 : string -> result string) (id : string) (op : operation)
    (w : world) :
  truthy (sandbox_id (self w)) = false ->
  (forall l, sandbox_create B l = Ok id) -> id <> "" -> is_call op = true ->
  stable id (created id (snd (_ensure_loop B w)))
    (perform B APP_PACKAGES b64decode_utf8 op w).
Proof.
  intros Hw HB Hid Hop.
  pose proof (ensure_loop_local B w) as H0.
  pose proof (local_steps_unassigned _ _ H0 Hw) as Hw0.
  pose proof (created_assigned id (snd (_ensure_loop B w)) Hid) as Ha.
  destruct op; try discriminate; simpl.
  - unfold get_screenshot_sync. rewrite run_async_run.
    unfold _get_screenshot_async. rewrite (ensure_sandbox_then B _ id _ Hw0 HB Hid).
    apply (keeps_get_screenshot_async B id _ Ha).
  - unfold execute_action_sync. rewrite run_async_run.
    unfold _execute_action_async. rewrite (ensure_sandbox_then B _ id _ Hw0 HB Hid).
    apply (keeps_execute_action_async B id action _ Ha).
  - unfold get_current_app. rewrite run_async_run.
    unfold _get_current_app_async. rewrite try_except_run.
    unfold _get_current_app_try. rewrite (ensure_sandbox_then B _ id _ Hw0 HB Hid).
    rewrite <- try_except_run.
    apply (keeps_get_current_app_async B APP_PACKAGES b64decode_utf8 id _ Ha).
Qed.

(** X15. When the backend grants a sandbox, a new client without an
    identifier asks for it once: the first screenshot, execute-action or
    current-app call sends one creation request, named "phone-agent-sandbox"
    and with the shape and the lifetime of the configuration, and the client
    keeps the identifier it is given.  Whatever is called afterwards, and
    however it ends, no second creation request is sent, and every request
    that addresses a sandbox addresses that one. *)
Theorem sandbox_is_created_once (B : backend) (APP_PACKAGES : list (string * string))
    (b64decode_utf8 : string -> result string) (cfg : LybicConfig.t) (id : string)
    (op : operation) (ops : list operation) :
  truthy (LybicConfig.sandbox_id cfg) = false ->
  (forall l, sandbox_create B l = Ok id) -> id <> "" -> is_call op = true ->
  let w := perform_all B APP_PACKAGES b64decode_utf8 (op :: ops)
             (mkWorld (__init__ cfg) []) in
  sandbox_id (self w) = Some id
  /\ count_creates (log w) = 1%nat
  /\ In (SandboxCreate "phone-agent-sandbox" (LybicConfig.sandbox_shape cfg)
           (LybicConfig.sandbox_max_life_seconds cfg)) (log w)
  /\ Forall (fun e => forall t, event_sandbox e = Some t -> t = id) (log w).
Proof.
  intros Hcfg HB Hid Hop w.
  set (w0 := mkWorld (__init__ cfg) []) in *.
  pose proof (call_creates B APP_PACKAGES b64decode_utf8 id op w0 Hcfg HB Hid Hop)
    as S1.
  pose proof (perform_all_stable B APP_PACKAGES b64decode_utf8 id ops _
                (stable_assigned _ _ _ Hid S1)) as S2.
  destruct (stable_trans _ _ _ _ S1 S2) as [Hs (evs & L & F)].
  change (perform_all B APP_PACKAGES b64decode_utf8 ops
            (perform B APP_PACKAGES b64decode_utf8 op w0)) with w in Hs, L.
  pose proof (local_steps_trans _ _ _ (ensure_loop_local B w0)
                (ensure_client_local (snd (_ensure_loop B w0))))
    as (_ & C & pre & Lp & Fp).
  set (w1 := snd (_ensure_client (snd (_ensure_loop B w0)))) in *.
  assert (log w = (pre ++ [create_request (self w0)]) ++ evs) as Lw.
  { rewrite L.
    change (log (created id (snd (_ensure_loop B w0))))
      with (log w1 ++ [create_request (self w1)]).
    rewrite Lp. unfold create_request. rewrite C. reflexivity. }
  split; [exact Hs |]. rewrite Lw. split; [| split].
  - rewrite !count_creates_app, (count_creates_none pre (local_is_no_create _ Fp)).
    rewrite (count_creates_none evs);
      [reflexivity | eapply Forall_impl; [exact F |]; intros x [H _]; exact H].
  - apply in_or_app. left. apply in_or_app. right. left. reflexivity.
  - apply Forall_app. split; [apply Forall_app; split |].
    + eapply Forall_impl; [exact (local_addresses_none _ Fp) |].
      intros x Hx t Ht. congruence.
    + repeat constructor. intros t Ht. discriminate.
    + eapply Forall_impl; [exact F |]. intros x [_ H]. exact H.
Qed.

Lemma sandbox_is_created_once_witness :
  count_creates
    (log (perform_all demo_backend demo_packages plain_text
            [OpCurrentApp; OpScreenshot; OpClose; OpExecute AndroidBackAction]
            (mkWorld (__init__ LybicConfig.default) [])))
  = 1%nat.
Proof.
  destruct (sandbox_is_created_once demo_backend demo_packages plain_text
              LybicConfig.default "sbx-new" OpCurrentApp
              [OpScreenshot; OpClose; OpExecute AndroidBackAction])
    as (_ & E & _).
  - reflexivity.
  - intros l. reflexivity.
  - discriminate.
  - reflexivity.
  - exact E.
Defined.

(** ** The current application, when it is known *)

Lemma find_package_first (earlier later : list (string * string))
    (name package line : string) :
  (forall n p, In (n, p) earlier -> PyStr.contains p line = false) ->
  PyStr.contains package line = true ->
  find_package (earlier ++ (name, package) :: later) line = Some name.
Proof.
  intros He Hp. induction earlier as [| [n p] rest IH]; simpl.
  - rewrite Hp. reflexivity.
  - rewrite (He n p) by (left; reflexivity). apply IH.
    intros n' p' Hin. apply (He n' p'). right. exact Hin.
Qed.

Lemma scan_focus_first (APP_PACKAGES : list (string * string))
    (before after : list string) (line name : string) :
  (forall l, In l before -> is_focus_line l = true ->
     find_package APP_PACKAGES l = None) ->
  is_focus_line line = true -> find_package APP_PACKAGES line = Some name ->
  scan_focus APP_PACKAGES (before ++ line :: after) = Some name.
Proof.
  intros Hb Hf Hp. induction before as [| l rest IH]; simpl.
  - rewrite Hf, Hp. reflexivity.
  - assert (scan_focus APP_PACKAGES (rest ++ line :: after) = Some name) as IH'.
    { apply IH. intros l' Hin. apply Hb. right. exact Hin. }
    destruct (is_focus_line l) eqn:F; [| exact IH'].
    rewrite (Hb l) by (auto; left; reflexivity). exact IH'.
Qed.

Lemma find_package_some (packages : list (string * string)) (line name : string) :
  find_package packages line = Some name ->
  exists package, In (name, package) packages /\ PyStr.contains package line = true.
Proof.
  induction packages as [| [n p] rest IH]; simpl; [discriminate |].
  destruct (PyStr.contains p line) eqn:E.
  - intros H. injection H as <-. exists p. auto.
  - intros H. destruct (IH H) as (q & Hin & Hq). exists q. auto.
Qed.

Lemma scan_focus_some (APP_PACKAGES : list (string * string)) (lines : list string)
    (name : string) :
  scan_focus APP_PACKAGES lines = Some name ->
  exists line package,
    In line lines /\ is_focus_line line = true
    /\ In (name, package) APP_PACKAGES /\ PyStr.contains package line = true.
Proof.
  induction lines as [| l rest IH]; simpl; [discriminate |].
  assert (scan_focus APP_PACKAGES rest = Some name ->
          exists line package,
            (l = line \/ In line rest) /\ is_focus_line line = true
            /\ In (name, package) APP_PACKAGES /\ PyStr.contains package line = true)
    as IH'.
  { intros H. destruct (IH H) as (line & package & Hin & Hrest).
    exists line, package. auto. }
  destruct (is_focus_line l) eqn:F; [| exact IH'].
  destruct (find_package APP_PACKAGES l) as [n |] eqn:P; [| exact IH'].
  intros H. injection H as <-.
  destruct (find_package_some _ _ _ P) as (package & Hin & Hc).
  exists l, package. auto.
Qed.

(** X16. When the window dump is obtained and decoded, the current-app
    lookup answers with the first match: the lines are read in order, lines
    without a focus marker and focus lines that contain no known package are
    passed over, and in the first focus line that contains a known package
    the table entry that comes first in the table gives the name. *)
Theorem current_app_is_first_match (B : backend)
    (b64decode_utf8 : string -> result string) (w : world)
    (stdoutBase64 output : string) (before after : list string) (line : string)
    (earlier later : list (string * string)) (name package : string) :
  let APP_PACKAGES := earlier ++ (name, package) :: later in
  fst (dump_window B w) = Ok stdoutBase64 ->
  b64decode_utf8 stdoutBase64 = Ok output ->
  PyStr.split_lines output = before ++ line :: after ->
  (forall l, In l before -> is_focus_line l = true ->
     forall n p, In (n, p) APP_PACKAGES -> PyStr.contains p l = false) ->
  is_focus_line line = true ->
  (forall n p, In (n, p) earlier -> PyStr.contains p line = false) ->
  PyStr.contains package line = true ->
  fst (_get_current_app_async B APP_PACKAGES b64decode_utf8 w) = Ok name.
Proof.
  intros APP_PACKAGES Hd Ho Hl Hb Hf He Hp.
  unfold _get_current_app_async. rewrite try_except_run, get_current_app_try_run.
  destruct (dump_window B w) as [[out | e] w1]; simpl in Hd; [| discriminate].
  injection Hd as ->. rewrite Ho, Hl.
  rewrite (scan_focus_first APP_PACKAGES before after line name); [reflexivity | | |].
  - intros l Hin Hfl. apply find_package_none. intros n p. apply Hb; assumption.
  - exact Hf.
  - apply find_package_first; assumption.
Qed.

Lemma current_app_is_first_match_witness :
  fst (_get_current_app_async demo_backend demo_packages plain_text
         (mkWorld (__init__ demo_config) []))
  = Ok "Chrome".
Proof.
  apply (current_app_is_first_match demo_backend plain_text
           (mkWorld (__init__ demo_config) [])
           "mCurrentFocus=com.android.chrome" "mCurrentFocus=com.android.chrome"
           [] [] "mCurrentFocus=com.android.chrome"
           [("Settings", "com.android.settings")] [] "Chrome" "com.android.chrome").
  - reflexivity.
  - reflexivity.
  - reflexivity.
  - intros l [].
  - reflexivity.
  - intros n p [H | []]. injection H as <- <-. reflexivity.
  - reflexivity.
Defined.

(** X17. The current-app lookup answers "System Home" or a name of the
    table; and a name of the table is answered only when the window dump was
    obtained and decoded and one of its lines carries a focus marker and
    contains a package identifier the table lists under that name. *)
Theorem current_app_label_is_known (B : backend)
    (APP_PACKAGES : list (string * string))
    (b64decode_utf8 : string -> result string) (w : world) :
  exists label,
    fst (_get_current_app_async B APP_PACKAGES b64decode_utf8 w) = Ok label
    /\ (label = "System Home"
        \/ exists stdoutBase64 output line package,
             fst (dump_window B w) = Ok stdoutBase64
             /\ b64decode_utf8 stdoutBase64 = Ok output
             /\ In line (PyStr.split_lines output)
             /\ is_focus_line line = true
             /\ In (label, package) APP_PACKAGES
             /\ PyStr.contains package line = true).
Proof.
  unfold _get_current_app_async. rewrite try_except_run, get_current_app_try_run.
  destruct (dump_window B w) as [[out | e] w1]; simpl;
    [| exists "System Home"; auto].
  destruct (b64decode_utf8 out) as [output | e] eqn:Ho; simpl;
    [| exists "System Home"; auto].
  destruct (scan_focus APP_PACKAGES (PyStr.split_lines output)) as [name |] eqn:Hs;
    simpl; [| exists "System Home"; auto].
  exists name. split; [reflexivity |]. right.
  destruct (scan_focus_some _ _ _ Hs) as (line & package & H1 & H2 & H3 & H4).
  exists out, output, line, package. auto 10.
Qed.

(** ** Forwarding an action *)

(** X18. On a client that holds a sandbox identifier, the execute-action
    call forwards the action as it is: the last thing it asks is to execute
    that very action on the client's sandbox, without a screenshot, it asks
    nothing else of the backend, and it returns, or raises, exactly as the
    backend answers that request. *)
Theorem action_is_forwarded (B : backend) (s : string) (a : lybic_action) (w : world) :
  sandbox_id (self w) = Some s -> s <> "" ->
  let r := execute_action_sync B a w in
  fst r = sandbox_execute_sandbox_action B (log (snd r))
  /\ sandbox_id (self (snd r)) = Some s
  /\ exists evs, log (snd r) = log w ++ evs ++ [SandboxExecuteAction s a false]
       /\ Forall (fun e => is_remote e = false) evs.
Proof.
  intros Hs Hne r. unfold r. clear r.
  unfold execute_action_sync. rewrite run_async_run.
  pose proof (ensure_loop_local B w) as H0.
  set (w0 := snd (_ensure_loop B w)) in *. clearbody w0.
  assert (assigned s w0) as Ha.
  { destruct H0 as (S0 & _). split; [congruence | exact Hne]. }
  unfold _execute_action_async.
  rewrite bind_run, (ensure_sandbox_kept B s w0 Ha), bind_run.
  pose proof (local_steps_trans _ _ _ H0 (ensure_client_local w0))
    as (S1 & _ & evs & L & F).
  destruct (ensure_client_returns w0) as [client Hc].
  destruct (_ensure_client w0) as [rc w1]. simpl in *. subst rc.
  unfold request, mbind, M_bind, emit, get_log, lift. simpl.
  split; [reflexivity |]. split; [congruence |].
  exists evs. rewrite L, app_assoc. auto.
Qed.

Lemma action_is_forwarded_witness :
  fst (execute_action_sync failing_backend AndroidHomeAction
         (mkWorld (__init__ demo_config) []))
  = Raise (BackendError "unreachable").
Proof.
  destruct (action_is_forwarded failing_backend "sbx-1" AndroidHomeAction
              (mkWorld (__init__ demo_config) [])) as (R & _).
  - reflexivity.
  - discriminate.
  - rewrite R. reflexivity.
Defined.
